(** * evohome-async: the installation model, its schemas and its write protocol

    A shallow embedding of
      - [evohomeasync2/schema/schedule.py] and [evohomeasync2/schema/config.py]
        (the voluptuous schemas of the RESTful API),
      - [evohomeasync2/controlsystem.py] (the temperature control system),
      - [evohomeclient/__init__.py] (the client of the original API),
    followed by the properties proved about them.

    Part I holds the definitions, Part II the theorems. *)

From Stdlib Require Import List String Ascii DecimalString ZArith QArith Bool Lia.
Import ListNotations.

Set Implicit Arguments.

(* ================================================================== *)
(** * Part I. The embedding                                            *)
(* ================================================================== *)

(** ** Python values *)

Module Py.

Open Scope string_scope.

(** A Python [float], as far as its ordering goes: every IEEE double is a
    NaN, an infinity or a (dyadic) rational, and Python compares a float
    with an [int] exactly. *)
Inductive pyfloat : Type :=
| FNaN
| FInf (negative : bool)
| FFin (q : Q).

(** What [json.loads] returns, and what the schemas validate.  A [dict]
    keeps its insertion order, so an object is an association list. *)
Unset Elimination Schemes.
Inductive json : Type :=
| JNull
| JBool (b : bool)
| JInt (z : Z)
| JFloat (f : pyfloat)
| JStr (s : string)
| JArr (items : list json)
| JObj (fields : list (string * json)).
Set Elimination Schemes.

(** The exceptions the modelled code raises. *)
Inductive exn : Type :=
| Invalid (msg : string)            (* voluptuous.Invalid and its subclasses *)
| KeyError (key : string)
| AttributeError (attr : string)
| AssertionError (msg : string)
| TypeError (msg : string)
| ValueError (msg : string)
| IndexError (msg : string)
| ConnectionError (msg : string)    (* the transport could not deliver *)
| HTTPError (status : Z).           (* raise_for_status, requests.HTTPError *)

Inductive Exc (A : Type) : Type :=
| Ok (a : A)
| Raise (e : exn).

Arguments Ok {A} a.
Arguments Raise {A} e.

Definition is_ok {A} (r : Exc A) : bool :=
  match r with Ok _ => true | Raise _ => false end.

Definition bindE {A B} (m : Exc A) (k : A -> Exc B) : Exc B :=
  match m with Ok a => k a | Raise e => Raise e end.

(** *** dict *)

Definition dict (V : Type) : Type := list (string * V).

Fixpoint dict_get {V} (d : dict V) (k : string) : option V :=
  match d with
  | [] => None
  | (k', v) :: rest => if String.eqb k' k then Some v else dict_get rest k
  end.

(** [d[k] = v]: an existing key keeps its position, a new key goes last. *)
Fixpoint dict_set {V} (d : dict V) (k : string) (v : V) : dict V :=
  match d with
  | [] => [(k, v)]
  | (k', v') :: rest =>
      if String.eqb k' k then (k', v) :: rest else (k', v') :: dict_set rest k v
  end.

Definition dict_keys {V} (d : dict V) : list string := map fst d.

Definition dict_has {V} (d : dict V) (k : string) : bool :=
  match dict_get d k with Some _ => true | None => false end.

(** [d[k]] *)
Definition subscript {V} (d : dict V) (k : string) : Exc V :=
  match dict_get d k with
  | Some v => Ok v
  | None => Raise (KeyError k)
  end.

(** [obj[k]] on a value that may or may not be a dict. *)
Definition getitem (obj : json) (k : string) : Exc json :=
  match obj with
  | JObj d => subscript d k
  | _ => Raise (TypeError "object is not subscriptable by a str key")
  end.

(** *** Truth value, comparisons *)

Definition Z_of_bool (b : bool) : Z := if b then 1%Z else 0%Z.

Definition float_is_zero (f : pyfloat) : bool :=
  match f with
  | FFin q => Qeq_bool q 0
  | _ => false
  end.

(** [bool(v)] *)
Definition truthy (v : json) : bool :=
  match v with
  | JNull => false
  | JBool b => b
  | JInt z => negb (Z.eqb z 0)
  | JFloat f => negb (float_is_zero f)
  | JStr s => negb (String.eqb s "")
  | JArr l => match l with [] => false | _ => true end
  | JObj d => match d with [] => false | _ => true end
  end.

Definition float_eq_int (f : pyfloat) (n : Z) : bool :=
  match f with
  | FFin q => Qeq_bool q (inject_Z n)
  | _ => false
  end.

Definition float_eq (f g : pyfloat) : bool :=
  match f, g with
  | FFin p, FFin q => Qeq_bool p q
  | FInf a, FInf b => Bool.eqb a b
  | _, _ => false
  end.

(** [f >= n] and [f <= n] for a float [f] and an int [n]. *)
Definition float_ge_int (f : pyfloat) (n : Z) : bool :=
  match f with
  | FNaN => false
  | FInf negative => negb negative
  | FFin q => Qle_bool (inject_Z n) q
  end.

Definition float_le_int (f : pyfloat) (n : Z) : bool :=
  match f with
  | FNaN => false
  | FInf negative => negative
  | FFin q => Qle_bool q (inject_Z n)
  end.

(** [v >= n], [v <= n]; [None] is Python's TypeError. *)
Definition py_ge_int (v : json) (n : Z) : option bool :=
  match v with
  | JBool b => Some (Z.leb n (Z_of_bool b))
  | JInt z => Some (Z.leb n z)
  | JFloat f => Some (float_ge_int f n)
  | _ => None
  end.

Definition py_le_int (v : json) (n : Z) : option bool :=
  match v with
  | JBool b => Some (Z.leb (Z_of_bool b) n)
  | JInt z => Some (Z.leb z n)
  | JFloat f => Some (float_le_int f n)
  | _ => None
  end.

(** [a == b].  bool, int and float compare by value across types; two
    dicts are equal when they hold the same items, in any order. *)
Fixpoint py_eq (a b : json) {struct a} : bool :=
  match a, b with
  | JNull, JNull => true
  | JBool x, JBool y => Bool.eqb x y
  | JBool x, JInt z | JInt z, JBool x => Z.eqb (Z_of_bool x) z
  | JBool x, JFloat f | JFloat f, JBool x => float_eq_int f (Z_of_bool x)
  | JInt x, JInt y => Z.eqb x y
  | JInt z, JFloat f | JFloat f, JInt z => float_eq_int f z
  | JFloat f, JFloat g => float_eq f g
  | JStr s, JStr t => String.eqb s t
  | JArr l, JArr m =>
      (fix all2 (l m : list json) {struct l} : bool :=
         match l, m with
         | [], [] => true
         | x :: l', y :: m' => py_eq x y && all2 l' m'
         | _, _ => false
         end) l m
  | JObj d, JObj e =>
      Nat.eqb (List.length d) (List.length e) &&
      (fix items (d : list (string * json)) {struct d} : bool :=
         match d with
         | [] => true
         | (k, v) :: d' =>
             match dict_get e k with
             | Some w => py_eq v w && items d'
             | None => false
             end
         end) d
  | _, _ => false
  end.

(** Every key of every dict inside a document, outermost first. *)
Fixpoint keys_of (v : json) : list string :=
  match v with
  | JArr l => flat_map keys_of l
  | JObj d =>
      (fix fields (d : list (string * json)) : list string :=
         match d with
         | [] => []
         | (k, w) :: d' => k :: keys_of w ++ fields d'
         end) d
  | _ => []
  end.

(** *** str methods *)

Definition is_digit (c : ascii) : bool :=
  let n := nat_of_ascii c in (48 <=? n)%nat && (n <=? 57)%nat.

Definition upper_char (c : ascii) : ascii :=
  let n := nat_of_ascii c in
  if (97 <=? n)%nat && (n <=? 122)%nat then ascii_of_nat (n - 32) else c.

Definition lower_char (c : ascii) : ascii :=
  let n := nat_of_ascii c in
  if (65 <=? n)%nat && (n <=? 90)%nat then ascii_of_nat (n + 32) else c.

Fixpoint lower (s : string) : string :=
  match s with
  | EmptyString => EmptyString
  | String c r => String (lower_char c) (lower r)
  end.

(** [str.capitalize()]: the first character upper-cased and all the
    others lower-cased. *)
Definition capitalize (s : string) : string :=
  match s with
  | EmptyString => EmptyString
  | String c r => String (upper_char c) (lower r)
  end.

(** [needle in haystack] for two strings. *)
Fixpoint contains (needle haystack : string) : bool :=
  match haystack with
  | EmptyString => String.eqb needle ""
  | String _ rest => String.prefix needle haystack || contains needle rest
  end.

(** *** Iteration and indexing *)

(** [iter(v)]: a list yields its elements, a dict its keys, a str its
    characters. *)
Definition py_iter (v : json) : Exc (list json) :=
  match v with
  | JArr l => Ok l
  | JObj d => Ok (map (fun kv => JStr (fst kv)) d)
  | JStr s => Ok (map (fun c => JStr (String c "")) (list_ascii_of_string s))
  | _ => Raise (TypeError "object is not iterable")
  end.

(** [v[0]] *)
Definition index0 (v : json) : Exc json :=
  match v with
  | JArr (x :: _) => Ok x
  | JArr [] => Raise (IndexError "list index out of range")
  | JStr (String c _) => Ok (JStr (String c ""))
  | JStr EmptyString => Raise (IndexError "string index out of range")
  | JObj _ => Raise (KeyError "0")
  | _ => Raise (TypeError "object is not subscriptable")
  end.

(** [obj[k] = v] *)
Definition setitem (obj : json) (k : string) (v : json) : Exc json :=
  match obj with
  | JObj d => Ok (JObj (dict_set d k v))
  | _ => Raise (TypeError "object does not support item assignment")
  end.

(** A dict keyed by any hashable value; the keys compare with [==]. *)
Definition hashable (k : json) : bool :=
  match k with
  | JArr _ | JObj _ => false
  | _ => true
  end.

Fixpoint assoc_get (d : list (json * json)) (k : json) : option json :=
  match d with
  | [] => None
  | (k', v) :: rest => if py_eq k' k then Some v else assoc_get rest k
  end.

Fixpoint assoc_set (d : list (json * json)) (k v : json) : list (json * json) :=
  match d with
  | [] => [(k, v)]
  | (k', v') :: rest =>
      if py_eq k' k then (k', v) :: rest else (k', v') :: assoc_set rest k v
  end.

(** *** datetime *)

Record datetime : Type := {
  year : nat;
  month : nat;
  day : nat;
  hour : nat;
  minute : nat;
  second : nat;
  microsecond : nat
}.

(** The fields as Python bounds them: there is no [datetime] outside
    these bounds, and what is said of the printed form of a datetime is
    said of these. *)
Definition valid_datetime (d : datetime) : Prop :=
  (1 <= Z.of_nat (year d) <= 9999)%Z
  /\ (1 <= month d <= 12 /\ 1 <= day d <= 31
      /\ hour d < 24 /\ minute d < 60 /\ second d < 60)%nat.

Definition digit_char (n : nat) : ascii := ascii_of_nat (48 + n mod 10).

(** Two decimal digits, zero-padded, of a number under 100. *)
Definition pad2 (n : nat) : string :=
  String (digit_char (n / 10)) (String (digit_char n) "").

(** The year as [%Y] prints it under CPython on Linux: in decimal, with
    no padding, so that a year under 1000 has fewer than four digits. *)
Definition year_digits (n : nat) : string :=
  NilEmpty.string_of_uint (Nat.to_uint n).

(** [d.strftime(fmt)], for the directives this repository uses: [%Y]
    (the year in decimal), [%m], [%d], [%H], [%M], [%S] (two digits
    each) and [%%]; every other character is copied. *)
Fixpoint strftime_chars (d : datetime) (fmt : list ascii) : string :=
  match fmt with
  | [] => ""
  | "%"%char :: "Y"%char :: rest => year_digits (year d) ++ strftime_chars d rest
  | "%"%char :: "m"%char :: rest => pad2 (month d) ++ strftime_chars d rest
  | "%"%char :: "d"%char :: rest => pad2 (day d) ++ strftime_chars d rest
  | "%"%char :: "H"%char :: rest => pad2 (hour d) ++ strftime_chars d rest
  | "%"%char :: "M"%char :: rest => pad2 (minute d) ++ strftime_chars d rest
  | "%"%char :: "S"%char :: rest => pad2 (second d) ++ strftime_chars d rest
  | "%"%char :: "%"%char :: rest => String "%" (strftime_chars d rest)
  | c :: rest => String c (strftime_chars d rest)
  end.

Definition strftime (d : datetime) (fmt : string) : string :=
  strftime_chars d (list_ascii_of_string fmt).

(** *** Effects

    A computation reads and changes a state and returns a value or
    raises; the state an exception leaves behind is the state at the
    point of the raise. *)
Definition M (S A : Type) : Type := S -> Exc A * S.

Definition ret {S A} (a : A) : M S A := fun s => (Ok a, s).

Definition raise {S A} (e : exn) : M S A := fun s => (Raise e, s).

Definition bind {S A B} (m : M S A) (k : A -> M S B) : M S B := fun s =>
  match m s with
  | (Ok a, s') => k a s'
  | (Raise e, s') => (Raise e, s')
  end.

Definition lift {S A} (r : Exc A) : M S A := fun s => (r, s).

Definition get {S} : M S S := fun s => (Ok s, s).

Definition modify {S} (f : S -> S) : M S unit := fun s => (Ok tt, f s).

(** [for x in xs: body(x)] *)
Fixpoint for_each {S A} (xs : list A) (body : A -> M S unit) : M S unit :=
  match xs with
  | [] => ret tt
  | x :: rest => bind (body x) (fun _ => for_each rest body)
  end.

Declare Scope py_scope.
Delimit Scope py_scope with py.

Notation "x <- m ;; k" := (bind m (fun x => k))
  (at level 61, m at next level, right associativity) : py_scope.
Notation "m ;; k" := (bind m (fun _ => k))
  (at level 61, right associativity) : py_scope.
Notation "x <-! r ;; k" := (bindE r (fun x => k))
  (at level 61, r at next level, right associativity) : py_scope.

End Py.

(** ** voluptuous

    The validators the schemas are built from.  A validator takes the
    data and returns the validated data or raises [Invalid]; of the
    error only the first message is kept, not its path. *)

Module vol.

Import Py.
Open Scope string_scope.

Definition validator : Type := json -> Exc json.

Inductive pytype : Type := T_str | T_int | T_float | T_bool.

(** [isinstance(data, t)]; a [bool] is an [int]. *)
Definition isinstance (data : json) (t : pytype) : bool :=
  match t, data with
  | T_str, JStr _ => true
  | T_int, JInt _ => true
  | T_int, JBool _ => true
  | T_float, JFloat _ => true
  | T_bool, JBool _ => true
  | _, _ => false
  end.

(** A class used as a schema: [str], [int], [float], [bool]. *)
Definition Type_ (t : pytype) : validator := fun data =>
  if isinstance data t then Ok data else Raise (Invalid "expected type").

(** A value used as a schema: [data != schema] is an error. *)
Definition Literal (schema : json) : validator := fun data =>
  if py_eq data schema then Ok data else Raise (Invalid "not a valid value").

(** [vol.Any(v1, ..., vn)]: the first validator that accepts decides. *)
Fixpoint Any (validators : list validator) : validator := fun data =>
  match validators with
  | [] => Raise (Invalid "no valid value found")
  | v :: rest =>
      match v data with
      | Ok out => Ok out
      | Raise e =>
          match Any rest data with
          | Ok out => Ok out
          | Raise _ => Raise e
          end
      end
  end.

(** [vol.All(v1, ..., vn)]: each validator is fed the output of the one
    before it. *)
Fixpoint All (validators : list validator) : validator := fun data =>
  match validators with
  | [] => Ok data
  | v :: rest => bindE (v data) (All rest)
  end.

(** [vol.Range(min=, max=)], both bounds included. *)
Definition Range (min max : Z) : validator := fun v =>
  match py_ge_int v min with
  | None => Raise (Invalid "invalid value or type (must have a partial ordering)")
  | Some false => Raise (Invalid "value must be at least min")
  | Some true =>
      match py_le_int v max with
      | None => Raise (Invalid "invalid value or type (must have a partial ordering)")
      | Some false => Raise (Invalid "value must be at most max")
      | Some true => Ok v
      end
  end.

(** [datetime.strptime] turns the format into a regular expression and
    matches it at the start of the string: [%H] is
    [2[0-3]|[0-1]\d|\d], [%M] is [[0-5]\d|\d], any other character
    stands for itself.  Only the directives the schemas use are
    modelled, and a digit is an ASCII digit.  The result is what is left
    of the string after the first match, if there is one. *)
Definition digit_in (lo hi : nat) (c : ascii) : bool :=
  let n := nat_of_ascii c in ((48 + lo <=? n) && (n <=? 48 + hi))%nat.

Definition first_some {A} (x y : option A) : option A :=
  match x with Some _ => x | None => y end.

Fixpoint re_match (fmt : list ascii) (s : list ascii) : option (list ascii) :=
  match fmt with
  | [] => Some s
  | "%"%char :: "H"%char :: fmt' =>
      first_some
        (match s with
         | a :: b :: s' =>
             if (digit_in 2 2 a && digit_in 0 3 b) || (digit_in 0 1 a && is_digit b)
             then re_match fmt' s' else None
         | _ => None
         end)
        (match s with
         | a :: s' => if is_digit a then re_match fmt' s' else None
         | _ => None
         end)
  | "%"%char :: "M"%char :: fmt' =>
      first_some
        (match s with
         | a :: b :: s' =>
             if digit_in 0 5 a && is_digit b then re_match fmt' s' else None
         | _ => None
         end)
        (match s with
         | a :: s' => if is_digit a then re_match fmt' s' else None
         | _ => None
         end)
  | c :: fmt' =>
      match s with
      | a :: s' => if Ascii.eqb (lower_char a) (lower_char c) then re_match fmt' s' else None
      | [] => None
      end
  end.

(** [strptime] succeeds when the match leaves no unconverted data. *)
Definition strptime_ok (s fmt : string) : bool :=
  match re_match (list_ascii_of_string fmt) (list_ascii_of_string s) with
  | Some [] => true
  | _ => false
  end.

(** [vol.Datetime(format=)]: the value must parse with [strptime]; a
    value that is not a string is a TypeError there, and invalid too. *)
Definition Datetime (format : string) : validator := fun v =>
  match v with
  | JStr s =>
      if strptime_ok s format then Ok v
      else Raise (Invalid "value does not match expected format")
  | _ => Raise (Invalid "value does not match expected format")
  end.

(** A list used as a schema, [[v1, ..., vn]]: the data is a list and each
    of its elements is accepted by one of the [vi], tried in order. *)
Fixpoint first_accepting (alternatives : list validator) (value : json) : Exc json :=
  match alternatives with
  | [] => Raise (Invalid "not a valid value")
  | v :: rest =>
      match v value with
      | Ok out => Ok out
      | Raise e =>
          match rest with
          | [] => Raise e
          | _ => first_accepting rest value
          end
      end
  end.

Fixpoint validate_elements (alternatives : list validator) (data : list json)
  : Exc (list json) :=
  match data with
  | [] => Ok []
  | value :: rest =>
      bindE (first_accepting alternatives value) (fun out =>
      bindE (validate_elements alternatives rest) (fun outs =>
      Ok (out :: outs)))
  end.

Definition Seq (alternatives : list validator) : validator := fun data =>
  match data with
  | JArr items =>
      bindE (validate_elements alternatives items) (fun out => Ok (JArr out))
  | _ => Raise (Invalid "expected a list")
  end.

(** A dict used as a schema, with [extra=vol.PREVENT_EXTRA].  Each key is
    a marker around a literal key. *)
Inductive marker : Type := Required | Optional.

Definition entry : Type := (marker * string * validator)%type.

Fixpoint candidate (schema : list entry) (key : string) : option validator :=
  match schema with
  | [] => None
  | (_, k, v) :: rest => if String.eqb k key then Some v else candidate rest key
  end.

(** The loop over [data.items()]: a key the schema does not have is an
    extra key; the value goes through the validator of its key. *)
Fixpoint validate_items (schema : list entry) (items : list (string * json))
  (out : dict json) : Exc (dict json) :=
  match items with
  | [] => Ok out
  | (key, value) :: rest =>
      match candidate schema key with
      | None => Raise (Invalid "extra keys not allowed")
      | Some validate =>
          bindE (validate value) (fun cval =>
          validate_items schema rest (dict_set out key cval))
      end
  end.

(** The required keys the data did not provide. *)
Definition missing_required (schema : list entry) (items : list (string * json))
  : list string :=
  flat_map (fun e : entry =>
              match e with
              | (Required, k, _) => if dict_has items k then [] else [k]
              | (Optional, _, _) => []
              end) schema.

Definition Schema_dict (schema : list entry) : validator := fun data =>
  match data with
  | JObj items =>
      bindE (validate_items schema items []) (fun out =>
      match missing_required schema items with
      | [] => Ok (JObj out)
      | _ :: _ => Raise (Invalid "required key not provided")
      end)
  | _ => Raise (Invalid "expected a dictionary")
  end.

End vol.

(** ** evohomeasync2/schema/schedule.py *)

Module schedule.

Import Py vol.
Open Scope string_scope.

(** Modelled from the spec: [schema/const.py] is missing.  The key names
    are those section 6 of the specification lists for the GET schedule;
    the state and day names are the vendor's. *)
Definition SZ_DAILY_SCHEDULES : string := "dailySchedules".
Definition SZ_DAY_OF_WEEK : string := "dayOfWeek".
Definition SZ_DHW_STATE : string := "dhwState".
Definition SZ_HEAT_SETPOINT : string := "heatSetpoint".
Definition SZ_SWITCHPOINTS : string := "switchpoints".
Definition SZ_TIME_OF_DAY : string := "timeOfDay".
Definition SZ_OFF : string := "Off".
Definition SZ_ON : string := "On".
Definition SZ_MONDAY : string := "Monday".
Definition SZ_TUESDAY : string := "Tuesday".
Definition SZ_WEDNESDAY : string := "Wednesday".
Definition SZ_THURSDAY : string := "Thursday".
Definition SZ_FRIDAY : string := "Friday".
Definition SZ_SATURDAY : string := "Saturday".
Definition SZ_SUNDAY : string := "Sunday".

Definition DAYS_OF_WEEK : list string :=
  [SZ_MONDAY; SZ_TUESDAY; SZ_WEDNESDAY; SZ_THURSDAY; SZ_FRIDAY; SZ_SATURDAY;
   SZ_SUNDAY].

(** This is as returned from the vendor's API (GET). *)
Definition SCH_GET_SWITCHPOINT_DHW : validator :=
  Schema_dict
    [ (Required, SZ_DHW_STATE, Any [Literal (JStr SZ_ON); Literal (JStr SZ_OFF)]);
      (Required, SZ_TIME_OF_DAY, Datetime "%H:%M:00") ].

Definition SCH_GET_SWITCHPOINT_ZONE : validator :=
  Schema_dict
    [ (Required, SZ_HEAT_SETPOINT, All [Type_ T_float; Range 5 35]);
      (Required, SZ_TIME_OF_DAY, Datetime "%H:%M:00") ].

(** [vol.Any(list(DAYS_OF_WEEK))] has one alternative, and it is a list
    schema: the value is a list of day names. *)
Definition SCH_GET_DAY_OF_WEEK_DHW : validator :=
  Schema_dict
    [ (Required, SZ_DAY_OF_WEEK, Any [Seq (map (fun d => Literal (JStr d)) DAYS_OF_WEEK)]);
      (Required, SZ_SWITCHPOINTS, Seq [SCH_GET_SWITCHPOINT_DHW]) ].

Definition SCH_GET_DAY_OF_WEEK_ZONE : validator :=
  Schema_dict
    [ (Required, SZ_DAY_OF_WEEK, Any [Seq (map (fun d => Literal (JStr d)) DAYS_OF_WEEK)]);
      (Required, SZ_SWITCHPOINTS, Seq [SCH_GET_SWITCHPOINT_ZONE]) ].

Definition SCH_GET_SCHEDULE_DHW : validator :=
  Schema_dict [ (Required, SZ_DAILY_SCHEDULES, Seq [SCH_GET_DAY_OF_WEEK_DHW]) ].

Definition SCH_GET_SCHEDULE_ZONE : validator :=
  Schema_dict [ (Required, SZ_DAILY_SCHEDULES, Seq [SCH_GET_DAY_OF_WEEK_ZONE]) ].

Definition SCH_GET_SCHEDULE : validator :=
  Any [SCH_GET_SCHEDULE_DHW; SCH_GET_SCHEDULE_ZONE].

(** This is as provided to the vendor's API (PUT). *)
Definition SCH_PUT_SWITCHPOINT_DHW : validator :=
  Schema_dict
    [ (Required, capitalize SZ_DHW_STATE, Any [Literal (JStr SZ_ON); Literal (JStr SZ_OFF)]);
      (Required, capitalize SZ_TIME_OF_DAY, Datetime "%H:%M:00") ].

(** NOTE: SZ_HEAT_SETPOINT is not .capitalized() *)
Definition SCH_PUT_SWITCHPOINT_ZONE : validator :=
  Schema_dict
    [ (Required, SZ_HEAT_SETPOINT, All [Type_ T_float; Range 5 35]);
      (Required, capitalize SZ_TIME_OF_DAY, Datetime "%H:%M:00") ].

Definition SCH_PUT_DAY_OF_WEEK_DHW : validator :=
  Schema_dict
    [ (Required, capitalize SZ_DAY_OF_WEEK, Any [All [Type_ T_int; Range 0 6]]);
      (Required, capitalize SZ_SWITCHPOINTS, Seq [SCH_PUT_SWITCHPOINT_DHW]) ].

Definition SCH_PUT_DAY_OF_WEEK_ZONE : validator :=
  Schema_dict
    [ (Required, capitalize SZ_DAY_OF_WEEK, Any [All [Type_ T_int; Range 0 6]]);
      (Required, capitalize SZ_SWITCHPOINTS, Seq [SCH_PUT_SWITCHPOINT_ZONE]) ].

Definition SCH_PUT_SCHEDULE_DHW : validator :=
  Schema_dict [ (Required, capitalize SZ_DAILY_SCHEDULES, Seq [SCH_PUT_DAY_OF_WEEK_DHW]) ].

Definition SCH_PUT_SCHEDULE_ZONE : validator :=
  Schema_dict [ (Required, capitalize SZ_DAILY_SCHEDULES, Seq [SCH_PUT_DAY_OF_WEEK_ZONE]) ].

Definition SCH_PUT_SCHEDULE : validator :=
  Any [SCH_PUT_SCHEDULE_DHW; SCH_PUT_SCHEDULE_ZONE].

End schedule.


(** ** The transport

    What both clients see of the network and of time: every request is
    put on the wire and answered by the server, which may take the whole
    history into account; [time.sleep] lets time pass. *)

Module http.

Import Py.
Open Scope string_scope.

Record Request : Type := {
  method : string;
  url : string;
  payload : option json;          (* the data= / json= argument *)
  request_headers : json
}.

Record Response : Type := {
  status_code : Z;
  text : string;
  content : Exc json              (* the body as JSON, when it is JSON *)
}.

Inductive event : Type :=
| Sent (rq : Request)
| Slept (seconds : Z).

Record World : Type := {
  trace : list event;             (* oldest first *)
  server : list Request -> Exc Response
}.

Definition requests_of (t : list event) : list Request :=
  flat_map (fun e => match e with Sent rq => [rq] | Slept _ => [] end) t.

Definition seconds_slept (t : list event) : Z :=
  fold_right (fun e acc => match e with Sent _ => acc | Slept n => (n + acc)%Z end) 0%Z t.

(** One round trip.  A transport failure raises; an answer with an error
    status is returned like any other. *)
Definition send (rq : Request) : M World Response := fun w =>
  let t := (trace w ++ [Sent rq])%list in
  (server w (requests_of t), {| trace := t; server := server w |}).

(** [time.sleep(seconds)] *)
Definition sleep (seconds : Z) : M World unit := fun w =>
  (Ok tt, {| trace := (trace w ++ [Slept seconds])%list; server := server w |}).

(** [response.raise_for_status()]: 4xx and 5xx raise. *)
Definition raise_for_status (r : Response) : Exc unit :=
  if ((400 <=? status_code r) && (status_code r <? 600))%Z
  then Raise (HTTPError (status_code r))
  else Ok tt.

End http.

(** ** evohomeasync2/schema/config.py (the system-mode capabilities) *)

Module config.

Import Py vol.
Open Scope string_scope.

(** Modelled from the spec: [schema/const.py] is missing.  The key names
    are the vendor's lower-camel-case names of the fields section 4.1 of
    the specification lists; the mode names are the ones
    [controlsystem.py] sends. *)
Definition SZ_SYSTEM_MODE : string := "systemMode".
Definition SZ_CAN_BE_PERMANENT : string := "canBePermanent".
Definition SZ_CAN_BE_TEMPORARY : string := "canBeTemporary".
Definition SZ_MAX_DURATION : string := "maxDuration".
Definition SZ_TIMING_RESOLUTION : string := "timingResolution".
Definition SZ_TIMING_MODE : string := "timingMode".

Module SystemMode.
Definition AUTO : string := "Auto".
Definition AUTO_WITH_RESET : string := "AutoWithReset".
Definition HEATING_OFF : string := "HeatingOff".
Definition AUTO_WITH_ECO : string := "AutoWithEco".
Definition AWAY : string := "Away".
Definition CUSTOM : string := "Custom".
Definition DAY_OFF : string := "DayOff".
End SystemMode.

Definition SZ_DURATION : string := "Duration".
Definition SZ_PERIOD : string := "Period".

Definition SCH_SYSTEM_MODE_PERM : validator :=
  Schema_dict
    [ (Required, SZ_SYSTEM_MODE,
       Any [ Literal (JStr SystemMode.AUTO);
             Literal (JStr SystemMode.AUTO_WITH_RESET);
             Literal (JStr SystemMode.HEATING_OFF) ]);
      (Required, SZ_CAN_BE_PERMANENT, Literal (JBool true));
      (Required, SZ_CAN_BE_TEMPORARY, Literal (JBool false)) ].

Definition SCH_SYSTEM_MODE_TEMP : validator :=
  Schema_dict
    [ (Required, SZ_SYSTEM_MODE,
       Any [ Literal (JStr SystemMode.AUTO_WITH_ECO);
             Literal (JStr SystemMode.AWAY);
             Literal (JStr SystemMode.CUSTOM);
             Literal (JStr SystemMode.DAY_OFF) ]);
      (Required, SZ_CAN_BE_PERMANENT, Literal (JBool true));
      (Required, SZ_CAN_BE_TEMPORARY, Literal (JBool true));
      (Required, SZ_MAX_DURATION, Type_ T_str);
      (Required, SZ_TIMING_RESOLUTION, Type_ T_str);
      (Required, SZ_TIMING_MODE, Any [Literal (JStr SZ_DURATION); Literal (JStr SZ_PERIOD)]) ].

Definition SCH_ALLOWED_SYSTEM_MODE : validator :=
  Any [SCH_SYSTEM_MODE_PERM; SCH_SYSTEM_MODE_TEMP].

End config.

(** ** evohomeasync2/controlsystem.py *)

Module controlsystem.

Import Py http.
Open Scope string_scope.
Open Scope py_scope.

(** Modelled from the spec: [zone.py] and [hotwater.py] are missing.  The
    attributes are those of the specification's data model that
    [controlsystem.py] reads. *)
Module Zone.
Record t : Type := {
  zoneId : string;
  name : string;
  temperatureStatus : json;
  setpointStatus : json
}.
End Zone.

Module HotWater.
Record t : Type := {
  dhwId : string;
  zoneId : string;
  temperatureStatus : json
}.
End HotWater.

(** An instance.  [_zones], [zones] and [zones_by_id] hold the same Zone
    objects; [attrs] is what [__dict__.update] copied from the config.
    In the code the copy goes into the instance itself, so a config key
    that is the name of one of the instance's own attributes ([hotwater],
    [_zones], [zones_by_id], ...) replaces that attribute.  The record
    keeps the two apart, and is the instance of the code only for a
    config none of whose keys is such a name ([plain_config]); what is
    proved of the attributes of a constructed instance is proved of
    these configs. *)
Record ControlSystem : Type := {
  _zones : list Zone.t;
  zones : dict Zone.t;              (* zone by name *)
  zones_by_id : dict Zone.t;
  hotwater : option HotWater.t;
  attrs : dict json
}.

Definition own_attributes : list string :=
  ["client"; "location"; "gateway"; "_zones"; "zones_by_id"; "hotwater"].

(** A config none of whose keys is the name of an attribute of the
    instance. *)
Definition plain_config (config : dict json) : bool :=
  forallb (fun k => negb (existsb (String.eqb k) own_attributes)) (dict_keys config).

(** [self.systemId] *)
Definition systemId (self : ControlSystem) : Exc json :=
  match dict_get (attrs self) "systemId" with
  | Some v => Ok v
  | None => Raise (AttributeError "systemId")
  end.

(** [d.update(items)] *)
Definition dict_update {V} (d : dict V) (items : list (string * V)) : dict V :=
  fold_left (fun acc kv => dict_set acc (fst kv) (snd kv)) items d.

(** [d.items()] *)
Definition py_items (v : json) : Exc (list (string * json)) :=
  match v with
  | JObj d => Ok d
  | _ => Raise (AttributeError "items")
  end.

Section ControlSystem.

(** Missing from the sources: the constants of [const.py], the classes
    [Zone], [HotWater], [Location] and [EvohomeClient], and how Python
    prints a value into a string. *)
Variable URL_BASE : string.
Variable API_STRFTIME : string.
Variable py_str : json -> string.
Variable json_dumps : json -> string.
Variable Zone_new : json -> Exc Zone.t.                  (* Zone(client, config) *)
Variable HotWater_new : json -> Exc HotWater.t.          (* HotWater(client, config) *)
Variable _headers : M World (dict json).                 (* client._headers() *)
Variable location_status : ControlSystem -> M World ControlSystem.
Variable Zone_set_schedule : Zone.t -> string -> M World unit.
Variable HotWater_set_schedule : HotWater.t -> string -> M World unit.
Variable read_backup : string -> M World json.           (* open, read, json.loads *)

(** The loop of [__init__] over [config["zones"]]. *)
Fixpoint add_zones (zone_configs : list json) (self : ControlSystem)
  : Exc ControlSystem :=
  match zone_configs with
  | [] => Ok self
  | zone_config :: rest =>
      zone <-! Zone_new zone_config ;;
      add_zones rest
        {| _zones := _zones self ++ [zone];
           zones := dict_set (zones self) (Zone.name zone) zone;
           zones_by_id := dict_set (zones_by_id self) (Zone.zoneId zone) zone;
           hotwater := hotwater self;
           attrs := attrs self |}
  end.

(** [ControlSystem.__init__] *)
Definition ControlSystem_init (config : dict json) : Exc ControlSystem :=
  let self :=
    {| _zones := []; zones := []; zones_by_id := []; hotwater := None;
       attrs := dict_update []
                  (filter (fun kv => negb (String.eqb (fst kv) "zones")) config) |} in
  sid <-! systemId self ;;
  if truthy sid then
    zone_configs <-! subscript config "zones" ;;
    zone_configs <-! py_iter zone_configs ;;
    self <-! add_zones zone_configs self ;;
    match dict_get config "dhw" with
    | Some dhw_config =>
        if truthy dhw_config then
          hw <-! HotWater_new dhw_config ;;
          Ok {| _zones := _zones self; zones := zones self;
                zones_by_id := zones_by_id self; hotwater := Some hw;
                attrs := attrs self |}
        else Ok self
    | None => Ok self
    end
  else Raise (AssertionError "Invalid config dict").

(** [ControlSystem._set_status] *)
Definition _set_status (self : ControlSystem) (mode : string)
  (until : option datetime) : M World unit :=
  headers <- _headers ;;
  let headers := dict_set headers "Content-Type" (JStr "application/json") in
  let data :=
    match until with
    | None =>
        JObj [("SystemMode", JStr mode); ("TimeUntil", JNull);
              ("Permanent", JBool true)]
    | Some until =>
        JObj [("SystemMode", JStr mode);
              ("TimeUntil", JStr (strftime until API_STRFTIME));
              ("Permanent", JBool false)]
    end in
  sid <- lift (systemId self) ;;
  let url := URL_BASE ++ "/temperatureControlSystem/" ++ py_str sid ++ "/mode" in
  h <- _headers ;;
  response <- send {| method := "PUT"; url := url; payload := Some data;
                      request_headers := JObj h |} ;;
  lift (raise_for_status response).

Definition set_status self mode until : M World unit := _set_status self mode until.
Definition set_status_normal self : M World unit := _set_status self "Auto" None.
Definition set_status_reset self : M World unit := _set_status self "AutoWithReset" None.
Definition set_status_custom self until : M World unit := _set_status self "Custom" until.
Definition set_status_eco self until : M World unit := _set_status self "AutoWithEco" until.
Definition set_status_away self until : M World unit := _set_status self "Away" until.
Definition set_status_dayoff self until : M World unit := _set_status self "DayOff" until.
Definition set_status_heatingoff self until : M World unit :=
  _set_status self "HeatingOff" until.

(** The entry [temperatures] makes of the hot water unit, if there is one. *)
Definition dhw_status (self : ControlSystem) : Exc (list json) :=
  match hotwater self with
  | Some hw =>
      temp <-! getitem (HotWater.temperatureStatus hw) "temperature" ;;
      Ok [JObj [("thermostat", JStr "DOMESTIC_HOT_WATER");
                ("id", JStr (HotWater.dhwId hw));
                ("name", JStr "");
                ("temp", temp);
                ("setpoint", JStr "")]]
  | None => Ok []
  end.

(** The entry [temperatures] makes of one zone. *)
Definition zone_status (zone : Zone.t) : Exc json :=
  setpoint <-! getitem (Zone.setpointStatus zone) "targetHeatTemperature" ;;
  let zone_status :=
    [("thermostat", JStr "EMEA_ZONE");
     ("id", JStr (Zone.zoneId zone));
     ("name", JStr (Zone.name zone));
     ("temp", JNull);
     ("setpoint", setpoint)] in
  available <-! getitem (Zone.temperatureStatus zone) "isAvailable" ;;
  if truthy available then
    temp <-! getitem (Zone.temperatureStatus zone) "temperature" ;;
    Ok (JObj (dict_set zone_status "temp" temp))
  else Ok (JObj zone_status).

Fixpoint zone_statuses (zs : list Zone.t) (result : list json) : Exc (list json) :=
  match zs with
  | [] => Ok result
  | zone :: rest =>
      entry <-! zone_status zone ;;
      zone_statuses rest (result ++ [entry])
  end.

(** [ControlSystem.temperatures]; the instance comes back as the refresh
    left it. *)
Definition temperatures (self : ControlSystem) : M World (ControlSystem * list json) :=
  self <- location_status self ;;
  result <- lift (dhw_status self) ;;
  result <- lift (zone_statuses (_zones self) result) ;;
  ret (self, result).

(** One turn of the loop of [zone_schedules_restore]. *)
Definition restore_one (self : ControlSystem) (item : string * json) : M World unit :=
  let (zone_id, zone_schedule) := item in
  name <- lift (getitem zone_schedule "name") ;;
  zone_info <- lift (getitem zone_schedule "schedule") ;;
  let zone_by_id :=
    zone <- lift (subscript (zones_by_id self) zone_id) ;;
    Zone_set_schedule zone (json_dumps zone_info) in
  match hotwater self with
  | Some hw =>
      if String.eqb (HotWater.zoneId hw) zone_id
      then HotWater_set_schedule hw (json_dumps zone_info)
      else zone_by_id
  | None => zone_by_id
  end.

(** [ControlSystem.zone_schedules_restore] *)
Definition zone_schedules_restore (self : ControlSystem) (filename : string)
  : M World unit :=
  schedules <- read_backup filename ;;
  items <- lift (py_items schedules) ;;
  for_each items (restore_one self).

End ControlSystem.

End controlsystem.

(** ** evohomeclient/__init__.py (the client of the original API) *)

Module evohomeclient.

Import Py http.
Open Scope string_scope.
Open Scope py_scope.

(** The instance attributes; [JNull] is [None]. *)
Record EvohomeClient : Type := {
  username : string;
  password : string;
  user_data : json;
  hostname : string;
  full_data : json;
  location_id : json;
  devices : option (list (json * json));
  named_devices : option (list (json * json));
  postdata : json;
  headers : json
}.

(** The state a method runs in: the instance and the network. *)
Record State : Type := {
  self : EvohomeClient;
  world : World
}.

Definition is_None (v : json) : bool :=
  match v with JNull => true | _ => false end.

Definition get_self : M State EvohomeClient := fun s => (Ok (self s), s).

Definition set_self (f : EvohomeClient -> EvohomeClient) : M State unit :=
  modify (fun s => {| self := f (self s); world := world s |}).

(** A computation on the network, run by the client. *)
Definition io {A} (m : M World A) : M State A := fun s =>
  let (r, w) := m (world s) in (r, {| self := self s; world := w |}).

Definition with_user_data v (c : EvohomeClient) : EvohomeClient :=
  {| username := username c; password := password c; user_data := v;
     hostname := hostname c; full_data := full_data c;
     location_id := location_id c; devices := devices c;
     named_devices := named_devices c; postdata := postdata c;
     headers := headers c |}.

Definition with_full_data v (c : EvohomeClient) : EvohomeClient :=
  {| username := username c; password := password c; user_data := user_data c;
     hostname := hostname c; full_data := v;
     location_id := location_id c; devices := devices c;
     named_devices := named_devices c; postdata := postdata c;
     headers := headers c |}.

Definition with_location_id v (c : EvohomeClient) : EvohomeClient :=
  {| username := username c; password := password c; user_data := user_data c;
     hostname := hostname c; full_data := full_data c;
     location_id := v; devices := devices c;
     named_devices := named_devices c; postdata := postdata c;
     headers := headers c |}.

Definition with_devices v (c : EvohomeClient) : EvohomeClient :=
  {| username := username c; password := password c; user_data := user_data c;
     hostname := hostname c; full_data := full_data c;
     location_id := location_id c; devices := v;
     named_devices := named_devices c; postdata := postdata c;
     headers := headers c |}.

Definition with_named_devices v (c : EvohomeClient) : EvohomeClient :=
  {| username := username c; password := password c; user_data := user_data c;
     hostname := hostname c; full_data := full_data c;
     location_id := location_id c; devices := devices c;
     named_devices := v; postdata := postdata c;
     headers := headers c |}.

Definition with_postdata v (c : EvohomeClient) : EvohomeClient :=
  {| username := username c; password := password c; user_data := user_data c;
     hostname := hostname c; full_data := full_data c;
     location_id := location_id c; devices := devices c;
     named_devices := named_devices c; postdata := v;
     headers := headers c |}.

Definition with_headers v (c : EvohomeClient) : EvohomeClient :=
  {| username := username c; password := password c; user_data := user_data c;
     hostname := hostname c; full_data := full_data c;
     location_id := location_id c; devices := devices c;
     named_devices := named_devices c; postdata := postdata c;
     headers := v |}.

(** [EvohomeClient.__init__] *)
Definition EvohomeClient_init (username password : string) (user_data : json)
  (hostname : string) : EvohomeClient :=
  {| username := username; password := password; user_data := user_data;
     hostname := hostname; full_data := JNull; location_id := JNull;
     devices := None; named_devices := None; postdata := JNull;
     headers := JNull |}.

(** [d[k] = v] on one of the two device indexes. *)
Definition index_set (d : option (list (json * json))) (k v : json)
  : Exc (option (list (json * json))) :=
  match d with
  | None => Raise (TypeError "object does not support item assignment")
  | Some items =>
      if hashable k then Ok (Some (assoc_set items k v))
      else Raise (TypeError "unhashable type")
  end.

Section Client.

(** How Python prints a value into a string ([%s] and [str]). *)
Variable py_str : json -> string.

(** [d[k]] on one of the two device indexes. *)
Definition index_get (d : option (list (json * json))) (k : json) : Exc json :=
  match d with
  | None => Raise (TypeError "object is not subscriptable")
  | Some items =>
      if hashable k then
        match assoc_get items k with
        | Some v => Ok v
        | None => Raise (KeyError (py_str k))
        end
      else Raise (TypeError "unhashable type")
  end.

(** [requests.get], [requests.post], [requests.put] *)
Definition request (method url : string) (data : option json) (headers : json)
  : M State Response :=
  io (send {| method := method; url := url; payload := data;
              request_headers := headers |}).

(** [EvohomeClient._convert] *)
Definition _convert (response : Response) : M State json := lift (content response).

(** [EvohomeClient._populate_user_info] *)
Definition _populate_user_info : M State json :=
  c <- get_self ;;
  (if is_None (user_data c) then
     let url := hostname c ++ "/WebAPI/api/Session" in
     set_self (with_postdata
       (JObj [("Username", JStr (username c));
              ("Password", JStr (password c));
              ("ApplicationId", JStr "91db1612-73fd-4500-91b2-e63b069b185c")])) ;;
     set_self (with_headers (JObj [("content-type", JStr "application/json")])) ;;
     c <- get_self ;;
     response <- request "POST" url (Some (postdata c)) (headers c) ;;
     (if (status_code response =? 429)%Z
      then lift (raise_for_status response) else ret tt) ;;
     (if negb (status_code response =? 200)%Z then
        if contains "code" (text response)
        then raise (HTTPError (status_code response))
        else lift (raise_for_status response)
      else ret tt) ;;
     user_data <- _convert response ;;
     set_self (with_user_data user_data)
   else ret tt) ;;
  c <- get_self ;;
  ret (user_data c).

(** The loop of [_populate_full_data] over the devices. *)
Definition index_device (device : json) : M State unit :=
  device_id <- lift (getitem device "deviceID") ;;
  c <- get_self ;;
  devices' <- lift (index_set (devices c) device_id device) ;;
  set_self (with_devices devices') ;;
  device_name <- lift (getitem device "name") ;;
  c <- get_self ;;
  named' <- lift (index_set (named_devices c) device_name device) ;;
  set_self (with_named_devices named').

(** [EvohomeClient._populate_full_data] *)
Definition _populate_full_data (force_refresh : bool) : M State unit :=
  c <- get_self ;;
  if is_None (full_data c) || force_refresh then
    _populate_user_info ;;
    c <- get_self ;;
    user_info <- lift (getitem (user_data c) "userInfo") ;;
    user_id <- lift (getitem user_info "userID") ;;
    session_id <- lift (getitem (user_data c) "sessionId") ;;
    let url := hostname c ++ "/WebAPI/api/locations" ++
               "?userId=" ++ py_str user_id ++ "&allData=True" in
    headers' <- lift (setitem (headers c) "sessionId" session_id) ;;
    set_self (with_headers headers') ;;
    c <- get_self ;;
    response <- request "GET" url (Some (postdata c)) (headers c) ;;
    lift (raise_for_status response) ;;
    locations <- _convert response ;;
    full <- lift (index0 locations) ;;
    set_self (with_full_data full) ;;
    location <- lift (getitem full "locationID") ;;
    set_self (with_location_id location) ;;
    set_self (with_devices (Some [])) ;;
    set_self (with_named_devices (Some [])) ;;
    device_list <- lift (getitem full "devices") ;;
    device_list <- lift (py_iter device_list) ;;
    for_each device_list index_device
  else ret tt.

(** [EvohomeClient._get_device] *)
Definition _get_device (zone : json) : M State json :=
  c <- get_self ;;
  match zone with
  | JStr _ => lift (index_get (named_devices c) zone)
  | _ => lift (index_get (devices c) zone)
  end.

(** [EvohomeClient._get_task_status] *)
Definition _get_task_status (task_id : json) : M State json :=
  _populate_full_data false ;;
  c <- get_self ;;
  let url := hostname c ++ "/WebAPI/api/commTasks" ++
             "?commTaskId=" ++ py_str task_id in
  response <- request "GET" url None (headers c) ;;
  lift (raise_for_status response) ;;
  body <- _convert response ;;
  lift (getitem body "state").

(** [EvohomeClient._get_task_id] *)
Definition _get_task_id (response : Response) : M State json :=
  body <- _convert response ;;
  match body with
  | JArr _ => first <- lift (index0 body) ;; lift (getitem first "id")
  | _ => lift (getitem body "id")
  end.

(** The loop that ends [_set_status], [_set_heat_setpoint] and [_set_dhw]:
    [while self._get_task_status(task_id) != 'Succeeded': time.sleep(1)].
    [fuel] bounds the number of turns the model follows; [None] says the
    loop is still running after that many. *)
Fixpoint wait_for_task (fuel : nat) (task_id : json) : M State (option unit) :=
  match fuel with
  | O => ret None
  | S fuel' =>
      state <- _get_task_status task_id ;;
      if negb (py_eq state (JStr "Succeeded")) then
        io (sleep 1) ;;
        wait_for_task fuel' task_id
      else ret (Some tt)
  end.

(** [EvohomeClient._set_status], up to the loop: the result is the task id. *)
Definition _set_status_put (status : string) (until : option datetime) : M State json :=
  _populate_full_data false ;;
  c <- get_self ;;
  let url := hostname c ++ "/WebAPI/api/evoTouchSystems" ++
             "?locationId=" ++ py_str (location_id c) in
  let data :=
    match until with
    | None => JObj [("QuickAction", JStr status); ("QuickActionNextTime", JNull)]
    | Some until =>
        JObj [("QuickAction", JStr status);
              ("QuickActionNextTime",
               JStr (strftime until "%Y-%m-%d" ++ "T00:00:00Z"))]
    end in
  response <- request "PUT" url (Some data) (headers c) ;;
  lift (raise_for_status response) ;;
  _get_task_id response.

(** [EvohomeClient._set_status] *)
Definition _set_status (fuel : nat) (status : string) (until : option datetime)
  : M State (option unit) :=
  task_id <- _set_status_put status until ;;
  wait_for_task fuel task_id.

Definition set_status_normal fuel := _set_status fuel "Auto" None.
Definition set_status_custom fuel until := _set_status fuel "Custom" until.
Definition set_status_eco fuel until := _set_status fuel "AutoWithEco" until.
Definition set_status_away fuel until := _set_status fuel "Away" until.
Definition set_status_dayoff fuel until := _set_status fuel "DayOff" until.
Definition set_status_heatingoff fuel until := _set_status fuel "HeatingOff" until.

(** [EvohomeClient._get_device_id] *)
Definition _get_device_id (zone : json) : M State json :=
  device <- _get_device zone ;;
  lift (getitem device "deviceID").

(** [EvohomeClient._set_heat_setpoint], up to the loop. *)
Definition _set_heat_setpoint_put (zone data : json) : M State json :=
  _populate_full_data false ;;
  device_id <- _get_device_id zone ;;
  c <- get_self ;;
  let url := hostname c ++ "/WebAPI/api/devices" ++
             "/" ++ py_str device_id ++ "/thermostat/changeableValues/heatSetpoint" in
  response <- request "PUT" url (Some data) (headers c) ;;
  lift (raise_for_status response) ;;
  _get_task_id response.

(** [EvohomeClient._set_heat_setpoint] *)
Definition _set_heat_setpoint (fuel : nat) (zone data : json) : M State (option unit) :=
  task_id <- _set_heat_setpoint_put zone data ;;
  wait_for_task fuel task_id.

(** [EvohomeClient.set_temperature] *)
Definition set_temperature (fuel : nat) (zone temperature : json)
  (until : option datetime) : M State (option unit) :=
  let data :=
    match until with
    | None => JObj [("Value", temperature); ("Status", JStr "Hold"); ("NextTime", JNull)]
    | Some until =>
        JObj [("Value", temperature); ("Status", JStr "Temporary");
              ("NextTime", JStr (strftime until "%Y-%m-%dT%H:%M:%SZ"))]
    end in
  _set_heat_setpoint fuel zone data.

(** [EvohomeClient.cancel_temp_override] *)
Definition cancel_temp_override (fuel : nat) (zone : json) : M State (option unit) :=
  let data := JObj [("Value", JNull); ("Status", JStr "Scheduled"); ("NextTime", JNull)] in
  _set_heat_setpoint fuel zone data.

(** [EvohomeClient._get_dhw_zone] *)
Fixpoint find_dhw (device_list : list json) : Exc json :=
  match device_list with
  | [] => Ok JNull
  | device :: rest =>
      model <-! getitem device "thermostatModelType" ;;
      if py_eq model (JStr "DOMESTIC_HOT_WATER")
      then getitem device "deviceID"
      else find_dhw rest
  end.

Definition _get_dhw_zone : M State json :=
  c <- get_self ;;
  device_list <- lift (getitem (full_data c) "devices") ;;
  device_list <- lift (py_iter device_list) ;;
  lift (find_dhw device_list).

(** [EvohomeClient._set_dhw], up to the loop. *)
Definition _set_dhw_put (status : string) (mode next_time : json) : M State json :=
  let data := JObj [("Status", JStr status); ("Mode", mode); ("NextTime", next_time);
                    ("SpecialModes", JNull); ("HeatSetpoint", JNull);
                    ("CoolSetpoint", JNull)] in
  _populate_full_data false ;;
  dhw_zone <- _get_dhw_zone ;;
  c <- get_self ;;
  let url := hostname c ++ "/WebAPI/api/devices" ++
             "/" ++ py_str dhw_zone ++ "/thermostat/changeableValues" in
  response <- request "PUT" url (Some data) (headers c) ;;
  lift (raise_for_status response) ;;
  _get_task_id response.

(** [EvohomeClient._set_dhw] *)
Definition _set_dhw (fuel : nat) (status : string) (mode next_time : json)
  : M State (option unit) :=
  task_id <- _set_dhw_put status mode next_time ;;
  wait_for_task fuel task_id.

Definition time_until (until : option datetime) : json :=
  match until with
  | None => JNull
  | Some until => JStr (strftime until "%Y-%m-%dT%H:%M:%SZ")
  end.

(** [EvohomeClient.set_dhw_on], [set_dhw_off], [set_dhw_auto] *)
Definition set_dhw_on (fuel : nat) (until : option datetime) : M State (option unit) :=
  _set_dhw fuel "Hold" (JStr "DHWOn") (time_until until).

Definition set_dhw_off (fuel : nat) (until : option datetime) : M State (option unit) :=
  _set_dhw fuel "Hold" (JStr "DHWOff") (time_until until).

Definition set_dhw_auto (fuel : nat) : M State (option unit) :=
  _set_dhw fuel "Scheduled" JNull JNull.

End Client.

End evohomeclient.

(** ** Vocabulary of the properties *)

Module props.

Import Py vol.
Open Scope string_scope.

(** The keys the GET schedule schemas are written with, and the
    Pascal-case keys the specification gives for the PUT schedule. *)
Definition GET_KEYS : list string :=
  ["dailySchedules"; "dayOfWeek"; "switchpoints"; "timeOfDay"; "heatSetpoint";
   "dhwState"].

Definition PASCAL_KEYS : list string :=
  ["DailySchedules"; "DayOfWeek"; "Switchpoints"; "TimeOfDay"; "HeatSetpoint";
   "DhwState"].

(** The keys of the PUT schedule schemas, as [schedule.py] writes them. *)
Definition PUT_KEYS : list string :=
  [capitalize schedule.SZ_DAILY_SCHEDULES; capitalize schedule.SZ_DAY_OF_WEEK;
   capitalize schedule.SZ_SWITCHPOINTS; capitalize schedule.SZ_TIME_OF_DAY;
   schedule.SZ_HEAT_SETPOINT; capitalize schedule.SZ_DHW_STATE].

(** An item passes when its key is one of the schema's and its value is
    accepted by the validator of that key. *)
Definition item_ok (schema : list entry) (item : string * json) : bool :=
  match candidate schema (fst item) with
  | Some validate => is_ok (validate (snd item))
  | None => false
  end.

Definition none_missing (schema : list entry) (items : list (string * json)) : bool :=
  match missing_required schema items with [] => true | _ :: _ => false end.

(** Every document a validator accepts has its keys in [K]. *)
Definition keys_within (K : list string) (v : validator) : Prop :=
  forall d, is_ok (v d) = true -> incl (keys_of d) K.

(** A zone switchpoint with the given setpoint and time of day, its two
    fields in either order. *)
Definition switchpoint (setpoint_key time_key : string) (setpoint : json)
  (time_of_day : string) (time_first : bool) : json :=
  if time_first
  then JObj [(time_key, JStr time_of_day); (setpoint_key, setpoint)]
  else JObj [(setpoint_key, setpoint); (time_key, JStr time_of_day)].

(** A zone schedule as the PUT schema accepts it, and a zone schedule as
    the vendor's API returns it. *)
Definition put_zone_schedule : json :=
  JObj [("Dailyschedules",
         JArr [JObj [("Dayofweek", JInt 0);
                     ("Switchpoints",
                      JArr [JObj [("heatSetpoint", JFloat (FFin 21));
                                  ("Timeofday", JStr "06:30:00")]])]])].

Definition get_zone_schedule : json :=
  JObj [("dailySchedules",
         JArr [JObj [("dayOfWeek", JArr [JStr "Monday"]);
                     ("switchpoints",
                      JArr [JObj [("heatSetpoint", JFloat (FFin 21));
                                  ("timeOfDay", JStr "06:30:00")]])]])].

(** A float inside the closed interval of two integers. *)
Definition float_between (lo hi : Z) (f : pyfloat) : Prop :=
  exists q, f = FFin q /\ (inject_Z lo <= q)%Q /\ (q <= inject_Z hi)%Q.

(** The two shapes of a system-mode capability, by their duration
    fields: none of them, or all three with a timing mode that is
    Duration or Period. *)
Definition permanent_only (e : json) : Prop :=
  exists items,
    e = JObj items
    /\ dict_has items config.SZ_MAX_DURATION = false
    /\ dict_has items config.SZ_TIMING_RESOLUTION = false
    /\ dict_has items config.SZ_TIMING_MODE = false.

Definition permanent_or_temporary (e : json) : Prop :=
  exists items max_duration timing_resolution timing_mode,
    e = JObj items
    /\ dict_get items config.SZ_MAX_DURATION = Some (JStr max_duration)
    /\ dict_get items config.SZ_TIMING_RESOLUTION = Some (JStr timing_resolution)
    /\ dict_get items config.SZ_TIMING_MODE = Some (JStr timing_mode)
    /\ (timing_mode = "Duration" \/ timing_mode = "Period").

Definition permanent_entry : json :=
  JObj [("systemMode", JStr "Auto"); ("canBePermanent", JBool true);
        ("canBeTemporary", JBool false)].

Definition temporary_entry : json :=
  JObj [("systemMode", JStr "Away"); ("canBePermanent", JBool true);
        ("canBeTemporary", JBool true); ("maxDuration", JStr "99.00:00:00");
        ("timingResolution", JStr "1.00:00:00"); ("timingMode", JStr "Period")].

End props.

(** ** Vocabulary of the properties: the control system *)

Module tcs_props.

Import Py http controlsystem.
Open Scope string_scope.

(** A dict holds each of its keys once. *)
Fixpoint distinct (keys : list string) : bool :=
  match keys with
  | [] => true
  | k :: rest => negb (existsb (String.eqb k) rest) && distinct rest
  end.

(** A config payload [ControlSystem.__init__] is meant for: none of its
    keys is an attribute of the instance, the system identifier is there
    and true, the zones are a list of configs the Zone class takes, and
    the DHW block, if there is one, is one the HotWater class takes. *)
Definition valid_config (Zone_new : json -> Exc Zone.t)
  (HotWater_new : json -> Exc HotWater.t) (config : dict json) : bool :=
  forallb (fun k => negb (existsb (String.eqb k) own_attributes)) (dict_keys config)
  && distinct (dict_keys config)
  && match dict_get config "systemId" with
     | Some sid => truthy sid
     | None => false
     end
  && match dict_get config "zones" with
     | Some (JArr zone_configs) => forallb (fun zc => is_ok (Zone_new zc)) zone_configs
     | _ => false
     end
  && match dict_get config "dhw" with
     | Some dhw_config =>
         if truthy dhw_config then is_ok (HotWater_new dhw_config) else true
     | None => true
     end.

(** What a status refresh leaves in a zone: a target, an availability
    flag and, when the zone is available, a temperature. *)
Definition status_complete (zone : Zone.t) : bool :=
  match getitem (Zone.setpointStatus zone) "targetHeatTemperature",
        getitem (Zone.temperatureStatus zone) "isAvailable" with
  | Ok _, Ok (JBool false) => true
  | Ok _, Ok (JBool true) =>
      match getitem (Zone.temperatureStatus zone) "temperature" with
      | Ok JNull => false
      | Ok _ => true
      | Raise _ => false
      end
  | _, _ => false
  end.

Definition hotwater_complete (hw : option HotWater.t) : bool :=
  match hw with
  | Some hw => is_ok (getitem (HotWater.temperatureStatus hw) "temperature")
  | None => true
  end.

(** The entries of the temperature report, as the specification
    describes them. *)
Definition dhw_entries_of (hw : option HotWater.t) (entries : list json) : Prop :=
  match hw with
  | None => entries = []
  | Some hw =>
      exists temp,
        getitem (HotWater.temperatureStatus hw) "temperature" = Ok temp
        /\ entries = [JObj [("thermostat", JStr "DOMESTIC_HOT_WATER");
                            ("id", JStr (HotWater.dhwId hw));
                            ("name", JStr "");
                            ("temp", temp);
                            ("setpoint", JStr "")]]
  end.

Definition zone_entry_of (zone : Zone.t) (entry : json) : Prop :=
  exists temp setpoint available,
    getitem (Zone.setpointStatus zone) "targetHeatTemperature" = Ok setpoint
    /\ getitem (Zone.temperatureStatus zone) "isAvailable" = Ok (JBool available)
    /\ entry = JObj [("thermostat", JStr "EMEA_ZONE");
                     ("id", JStr (Zone.zoneId zone));
                     ("name", JStr (Zone.name zone));
                     ("temp", temp);
                     ("setpoint", setpoint)]
    /\ (temp = JNull <-> available = false)
    /\ (available = true ->
        getitem (Zone.temperatureStatus zone) "temperature" = Ok temp).

(** An identifier that is neither the hot water unit's nor a zone's. *)
Definition unknown_id (self : ControlSystem) (zone_id : string) : bool :=
  negb (match hotwater self with
        | Some hw => String.eqb (HotWater.zoneId hw) zone_id
        | None => false
        end)
  && negb (dict_has (zones_by_id self) zone_id).

(** *** An installation to run the definitions on *)

Definition get_str (config : json) (k : string) : Exc string :=
  match getitem config k with
  | Ok (JStr s) => Ok s
  | Ok _ => Raise (TypeError "expected a str")
  | Raise e => Raise e
  end.

Definition demo_Zone_new (config : json) : Exc Zone.t :=
  bindE (get_str config "zoneId") (fun zone_id =>
  bindE (get_str config "name") (fun name =>
  Ok {| Zone.zoneId := zone_id; Zone.name := name;
        Zone.temperatureStatus := JNull; Zone.setpointStatus := JNull |})).

Definition demo_HotWater_new (config : json) : Exc HotWater.t :=
  bindE (get_str config "dhwId") (fun dhw_id =>
  Ok {| HotWater.dhwId := dhw_id; HotWater.zoneId := dhw_id;
        HotWater.temperatureStatus := JNull |}).

Definition demo_config : dict json :=
  [("systemId", JStr "1234567");
   ("zones", JArr [JObj [("zoneId", JStr "3432521"); ("name", JStr "Lounge")];
                   JObj [("zoneId", JStr "3432522"); ("name", JStr "Bedroom")]]);
   ("dhw", JObj [("dhwId", JStr "3933910")])].

Definition lounge : Zone.t :=
  {| Zone.zoneId := "3432521"; Zone.name := "Lounge";
     Zone.temperatureStatus :=
       JObj [("temperature", JFloat (FFin (41 # 2))); ("isAvailable", JBool true)];
     Zone.setpointStatus := JObj [("targetHeatTemperature", JFloat (FFin 21))] |}.

Definition bedroom : Zone.t :=
  {| Zone.zoneId := "3432522"; Zone.name := "Bedroom";
     Zone.temperatureStatus := JObj [("isAvailable", JBool false)];
     Zone.setpointStatus := JObj [("targetHeatTemperature", JFloat (FFin 17))] |}.

Definition boiler : HotWater.t :=
  {| HotWater.dhwId := "3933910"; HotWater.zoneId := "3933910";
     HotWater.temperatureStatus :=
       JObj [("temperature", JFloat (FFin 55)); ("isAvailable", JBool true)] |}.

(** A hot water unit whose sensor is not available: the status has no
    temperature. *)
Definition silent_boiler : HotWater.t :=
  {| HotWater.dhwId := "3933910"; HotWater.zoneId := "3933910";
     HotWater.temperatureStatus := JObj [("isAvailable", JBool false)] |}.

Definition silent_tcs : ControlSystem :=
  {| _zones := [lounge; bedroom];
     zones := [("Lounge", lounge); ("Bedroom", bedroom)];
     zones_by_id := [("3432521", lounge); ("3432522", bedroom)];
     hotwater := Some silent_boiler;
     attrs := [("systemId", JStr "1234567")] |}.

Definition demo_tcs : ControlSystem :=
  {| _zones := [lounge; bedroom];
     zones := [("Lounge", lounge); ("Bedroom", bedroom)];
     zones_by_id := [("3432521", lounge); ("3432522", bedroom)];
     hotwater := Some boiler;
     attrs := [("systemId", JStr "1234567")] |}.

(** A server that accepts everything, and the world before any request. *)
Definition accept_all (history : list Request) : Exc Response :=
  Ok {| status_code := 200; text := "{}"; content := Ok (JObj []) |}.

Definition quiet_world : World := {| trace := []; server := accept_all |}.

Definition demo_headers : M World (dict json) :=
  ret [("Authorization", JStr "bearer token")].

Definition demo_py_str (v : json) : string :=
  match v with JStr s => s | _ => "?" end.

Definition demo_set_schedule (target payload : string) : M World unit :=
  bind (send {| method := "PUT"; url := target; payload := Some (JStr payload);
                request_headers := JNull |})
       (fun response => lift (raise_for_status response)).

Definition demo_json_dumps (v : json) : string :=
  match v with JStr s => s | _ => "{}" end.

Definition demo_backup : json :=
  JObj [("3432521", JObj [("name", JStr "Lounge"); ("schedule", JStr "lounge schedule")]);
        ("9999999", JObj [("name", JStr "Attic"); ("schedule", JStr "attic schedule")]);
        ("3432522", JObj [("name", JStr "Bedroom"); ("schedule", JStr "bedroom schedule")])].

Definition demo_until : datetime :=
  {| year := 2023; month := 11; day := 4; hour := 18; minute := 30; second := 15;
     microsecond := 0 |}.

End tcs_props.

(** ** Vocabulary of the properties: the client of the original API *)

Module client_props.

Import Py http evohomeclient.
Open Scope string_scope.

(** Every event a computation adds to the trace satisfies [P]. *)
Definition emits {A} (P : event -> Prop) (m : M State A) : Prop :=
  forall s, exists events,
    trace (world (snd (m s))) = (trace (world s) ++ events)%list
    /\ Forall P events.

(** A request that is not a PUT, or a PUT with the given body. *)
Definition put_body_is (body : json) (e : event) : Prop :=
  match e with
  | Sent rq => method rq = "PUT" -> payload rq = Some body
  | Slept _ => True
  end.

(** A request, and no sleep. *)
Definition is_request (e : event) : Prop :=
  match e with
  | Sent _ => True
  | Slept _ => False
  end.

(** The mutating writes of the client. *)
Inductive write : Type :=
| SetStatus (status : string) (until : option datetime)
| SetHeatSetpoint (zone data : json)
| SetDhw (status : string) (mode next_time : json).

Section Writes.

Variable py_str : json -> string.

(** The write up to its loop, and the whole write. *)
Definition submit (op : write) : M State json :=
  match op with
  | SetStatus status until => _set_status_put py_str status until
  | SetHeatSetpoint zone data => _set_heat_setpoint_put py_str zone data
  | SetDhw status mode next_time => _set_dhw_put py_str status mode next_time
  end.

Definition perform (fuel : nat) (op : write) : M State (option unit) :=
  match op with
  | SetStatus status until => _set_status py_str fuel status until
  | SetHeatSetpoint zone data => _set_heat_setpoint py_str fuel zone data
  | SetDhw status mode next_time => _set_dhw py_str fuel status mode next_time
  end.

(** The state after [n] polls of the task that each answered with a state
    other than Succeeded and were each followed by a sleep of one second;
    [None] when one of these polls raised or answered Succeeded. *)
Fixpoint pending (n : nat) (task_id : json) (st : State) : option State :=
  match n with
  | O => Some st
  | S n' =>
      match _get_task_status py_str task_id st with
      | (Ok state, st') =>
          if py_eq state (JStr "Succeeded") then None
          else pending n' task_id (snd (io (sleep 1) st'))
      | (Raise _, _) => None
      end
  end.

End Writes.

(** The times the two formats print. *)
Definition date_stamp (d : datetime) : string :=
  year_digits (year d) ++ "-" ++ pad2 (month d) ++ "-" ++ pad2 (day d).

Definition midnight_stamp (d : datetime) : string :=
  date_stamp d ++ "T00:00:00Z".

Definition full_stamp (d : datetime) : string :=
  year_digits (year d) ++ "-" ++ pad2 (month d) ++ "-" ++ pad2 (day d)
  ++ "T" ++ pad2 (hour d) ++ ":" ++ pad2 (minute d) ++ ":" ++ pad2 (second d) ++ "Z".

Definition valid_time (d : datetime) : Prop :=
  (hour d < 24 /\ minute d < 60 /\ second d < 60)%nat.

Definition quick_action_body (status : string) (until : datetime) : json :=
  JObj [("QuickAction", JStr status);
        ("QuickActionNextTime", JStr (midnight_stamp until))].

Definition temporary_body (temperature : json) (until : datetime) : json :=
  JObj [("Value", temperature); ("Status", JStr "Temporary");
        ("NextTime", JStr (full_stamp until))].

Definition dhw_body (mode : string) (until : datetime) : json :=
  JObj [("Status", JStr "Hold"); ("Mode", JStr mode);
        ("NextTime", JStr (full_stamp until));
        ("SpecialModes", JNull); ("HeatSetpoint", JNull); ("CoolSetpoint", JNull)].

(** *** A client and a server to run the definitions on *)

(** The PUT is answered with task 7; the task is reported Pending twice
    and Succeeded from the third poll on. *)
Definition demo_server (history : list Request) : Exc Response :=
  match rev history with
  | [] => Raise (ConnectionError "no request")
  | rq :: _ =>
      if String.eqb (method rq) "PUT" then
        Ok {| status_code := 200; text := "task 7";
              content := Ok (JArr [JObj [("id", JInt 7)]]) |}
      else if (List.length history <? 4)%nat then
        Ok {| status_code := 200; text := "pending";
              content := Ok (JObj [("state", JStr "Pending")]) |}
      else
        Ok {| status_code := 200; text := "succeeded";
              content := Ok (JObj [("state", JStr "Succeeded")]) |}
  end.

(** A server whose task never leaves the Pending state. *)
Definition pending_server (history : list Request) : Exc Response :=
  match rev history with
  | [] => Raise (ConnectionError "no request")
  | rq :: _ =>
      if String.eqb (method rq) "PUT" then
        Ok {| status_code := 200; text := "task 7";
              content := Ok (JArr [JObj [("id", JInt 7)]]) |}
      else
        Ok {| status_code := 200; text := "pending";
              content := Ok (JObj [("state", JStr "Pending")]) |}
  end.

Definition demo_client : EvohomeClient :=
  {| username := "user"; password := "secret";
     user_data := JObj [("sessionId", JStr "session");
                        ("userInfo", JObj [("userID", JInt 1)])];
     hostname := "https://tcc";
     full_data := JObj [("locationID", JInt 12); ("devices", JArr [])];
     location_id := JInt 12;
     devices := Some []; named_devices := Some [];
     postdata := JNull;
     headers := JObj [("sessionId", JStr "session")] |}.

Definition demo_state : State :=
  {| self := demo_client; world := {| trace := []; server := demo_server |} |}.

Definition stuck_state : State :=
  {| self := demo_client; world := {| trace := []; server := pending_server |} |}.

Definition demo_str (v : json) : string :=
  match v with
  | JStr s => s
  | JInt 7 => "7"
  | JInt 12 => "12"
  | _ => "?"
  end.

Definition evening : datetime :=
  {| year := 2023; month := 11; day := 4; hour := 18; minute := 30; second := 15;
     microsecond := 0 |}.

End client_props.

(** ** Vocabulary of further properties: documents *)

Module doc_props.

Import Py vol.
Open Scope string_scope.

(** A document as [json.loads] builds it: every dict in it holds each of
    its keys once. *)
Fixpoint well_formed (v : json) : bool :=
  match v with
  | JArr l => forallb well_formed l
  | JObj d =>
      tcs_props.distinct (dict_keys d)
      && (fix values (d : list (string * json)) : bool :=
            match d with
            | [] => true
            | (_, w) :: d' => well_formed w && values d'
            end) d
  | _ => true
  end.

(** A validator that hands back the data it accepts. *)
Definition returns_input (v : validator) : Prop :=
  forall d out, well_formed d = true -> v d = Ok out -> out = d.

(** What the validation of the items of a dict gives: the same keys in
    the same order, each value as its validator returns it. *)
Definition validated_item (schema : list entry) (item item' : string * json) : Prop :=
  fst item' = fst item
  /\ exists validate,
       candidate schema (fst item) = Some validate
       /\ validate (snd item) = Ok (snd item').

(** A time of day as the vendor writes it. *)
Definition wall_clock (h m s : nat) : string :=
  pad2 h ++ ":" ++ pad2 m ++ ":" ++ pad2 s.

End doc_props.

(** ** evohomeasync2/schema/config.py (the installation) *)

Module installation.

Import Py vol config.
Open Scope string_scope.

(** [len(v)]; [None] is Python's TypeError. *)
Definition py_len (v : json) : option nat :=
  match v with
  | JStr s => Some (String.length s)
  | JArr l => Some (List.length l)
  | JObj d => Some (List.length d)
  | _ => None
  end.

(** [vol.Length(min=, max=)] *)
Definition Length (min max : nat) : validator := fun v =>
  match py_len v with
  | None => Raise (Invalid "invalid value or type")
  | Some n =>
      if (n <? min)%nat then Raise (Invalid "length of value must be at least min")
      else if (max <? n)%nat then Raise (Invalid "length of value must be at most max")
      else Ok v
  end.

(** [vol.Match(pattern)], the pattern given by what [re.match] says of a
    string; a value that is not a string is a TypeError there, and
    invalid. *)
Definition Match (pattern : string -> bool) : validator := fun v =>
  match v with
  | JStr s => if pattern s then Ok v else Raise (Invalid "does not match regular expression")
  | _ => Raise (Invalid "expected string or buffer")
  end.

(** A function used as a schema: its result is the validated value, its
    ValueError is a validation error, any other exception is its own. *)
Definition Call (f : json -> Exc json) : validator := fun v =>
  match f v with
  | Ok out => Ok out
  | Raise (ValueError _) => Raise (Invalid "not a valid value")
  | Raise e => Raise e
  end.

(** [vol.Any( *values )] and [list(values)] for a tuple of strings. *)
Definition one_of (values : list string) : validator :=
  Any (map (fun s => Literal (JStr s)) values).

Definition list_of (values : list string) : validator :=
  Seq (map (fun s => Literal (JStr s)) values).

Section Installation.

(** Missing from the sources: the patterns, the enumerations, the key
    names and [obfuscate] of [const.py]; [vol.Email] is the library's. *)
Variable REGEX_DHW_ID : string -> bool.
Variable REGEX_SYSTEM_ID : string -> bool.
Variable REGEX_ZONE_ID : string -> bool.
Variable DHW_STATES : list string.
Variable TCS_MODEL_TYPES : list string.
Variable ZONE_MODEL_TYPES : list string.
Variable ZONE_MODES : list string.
Variable ZONE_TYPES : list string.
Variable _obfuscate : json -> Exc json.
Variable Email : validator.

Variable SZ_ALLOWED_MODES : string.
Variable SZ_ALLOWED_SETPOINT_MODES : string.
Variable SZ_ALLOWED_STATES : string.
Variable SZ_ALLOWED_SYSTEM_MODES : string.
Variable SZ_CAN_CONTROL_COOL : string.
Variable SZ_CAN_CONTROL_HEAT : string.
Variable SZ_CITY : string.
Variable SZ_CURRENT_OFFSET_MINUTES : string.
Variable SZ_COUNTRY : string.
Variable SZ_CRC : string.
Variable SZ_DHW : string.
Variable SZ_DHW_ID : string.
Variable SZ_DHW_STATE_CAPABILITIES_RESPONSE : string.
Variable SZ_FIRSTNAME : string.
Variable SZ_DISPLAY_NAME : string.
Variable SZ_GATEWAY_ID : string.
Variable SZ_GATEWAY_INFO : string.
Variable SZ_GATEWAYS : string.
Variable SZ_IS_WI_FI : string.
Variable SZ_LASTNAME : string.
Variable SZ_LOCATION_ID : string.
Variable SZ_LOCATION_INFO : string.
Variable SZ_LOCATION_TYPE : string.
Variable SZ_LOCATION_OWNER : string.
Variable SZ_MAC : string.
Variable SZ_MAX_HEAT_SETPOINT : string.
Variable SZ_SETPOINT_VALUE_RESOLUTION : string.
Variable SZ_MAX_SWITCHPOINTS_PER_DAY : string.
Variable SZ_MIN_HEAT_SETPOINT : string.
Variable SZ_MIN_SWITCHPOINTS_PER_DAY : string.
Variable SZ_MODEL_TYPE : string.
Variable SZ_NAME : string.
Variable SZ_OFFSET_MINUTES : string.
Variable SZ_POSTCODE : string.
Variable SZ_SCHEDULE_CAPABILITIES : string.
Variable SZ_SCHEDULE_CAPABILITIES_RESPONSE : string.
Variable SZ_SETPOINT_CAPABILITIES : string.
Variable SZ_STREET_ADDRESS : string.
Variable SZ_SUPPORTS_DAYLIGHT_SAVING : string.
Variable SZ_SYSTEM_ID : string.
Variable SZ_TEMPERATURE_CONTROL_SYSTEMS : string.
Variable SZ_TIME_ZONE : string.
Variable SZ_TIME_ZONE_ID : string.
Variable SZ_USE_DAYLIGHT_SAVE_SWITCHING : string.
Variable SZ_USER_ID : string.
Variable SZ_USERNAME : string.
Variable SZ_VALUE_RESOLUTION : string.
Variable SZ_ZONE_ID : string.
Variable SZ_ZONE_TYPE : string.
Variable SZ_ZONES : string.

Definition SCH_DHW_STATE_CAPABILITIES_RESPONSE : validator :=
  Schema_dict
    [ (Required, SZ_ALLOWED_STATES, list_of DHW_STATES);
      (Required, SZ_ALLOWED_MODES, list_of ZONE_MODES);
      (Required, SZ_MAX_DURATION, Type_ T_str);
      (Required, SZ_TIMING_RESOLUTION, Datetime "00:%M:00") ].

Definition schedule_capabilities_response : list entry :=
  [ (Required, SZ_MAX_SWITCHPOINTS_PER_DAY, Type_ T_int);
    (Required, SZ_MIN_SWITCHPOINTS_PER_DAY, Type_ T_int);
    (Required, SZ_TIMING_RESOLUTION, Datetime "00:%M:00") ].

Definition SCH_SCHEDULE_CAPABILITIES_RESPONSE : validator :=
  Schema_dict schedule_capabilities_response.

Definition SCH_DHW : validator :=
  Schema_dict
    [ (Required, SZ_DHW_ID, Match REGEX_DHW_ID);
      (Required, SZ_DHW_STATE_CAPABILITIES_RESPONSE, SCH_DHW_STATE_CAPABILITIES_RESPONSE);
      (Required, SZ_SCHEDULE_CAPABILITIES_RESPONSE, SCH_SCHEDULE_CAPABILITIES_RESPONSE) ].

Definition SCH_SETPOINT_CAPABILITIES : validator :=
  Schema_dict
    [ (Required, SZ_MAX_HEAT_SETPOINT, Type_ T_float);
      (Required, SZ_MIN_HEAT_SETPOINT, Type_ T_float);
      (Required, SZ_VALUE_RESOLUTION, Type_ T_float);
      (Required, SZ_CAN_CONTROL_HEAT, Type_ T_bool);
      (Required, SZ_CAN_CONTROL_COOL, Type_ T_bool);
      (Required, SZ_ALLOWED_SETPOINT_MODES, list_of ZONE_MODES);
      (Required, SZ_MAX_DURATION, Type_ T_str);
      (Required, SZ_TIMING_RESOLUTION, Datetime "00:%M:00") ].

(** [SCH_SCHEDULE_CAPABILITIES_RESPONSE.extend({...})]: the keys of the
    response schema and the new key. *)
Definition SCH_SCHEDULE_CAPABILITIES : validator :=
  Schema_dict
    (schedule_capabilities_response
     ++ [ (Required, SZ_SETPOINT_VALUE_RESOLUTION, Type_ T_float) ]).

Definition SCH_ZONE : validator :=
  Schema_dict
    [ (Required, SZ_ZONE_ID, Match REGEX_ZONE_ID);
      (Required, SZ_MODEL_TYPE, one_of ZONE_MODEL_TYPES);
      (Required, SZ_NAME, Type_ T_str);
      (Required, SZ_SETPOINT_CAPABILITIES, SCH_SETPOINT_CAPABILITIES);
      (Required, SZ_SCHEDULE_CAPABILITIES, SCH_SCHEDULE_CAPABILITIES);
      (Required, SZ_ZONE_TYPE, one_of ZONE_TYPES) ].

Definition SCH_TEMPERATURE_CONTROL_SYSTEM : validator :=
  Schema_dict
    [ (Required, SZ_SYSTEM_ID, Match REGEX_SYSTEM_ID);
      (Required, SZ_MODEL_TYPE, one_of TCS_MODEL_TYPES);
      (Required, SZ_ALLOWED_SYSTEM_MODES, Seq [SCH_ALLOWED_SYSTEM_MODE]);
      (Required, SZ_ZONES, All [Seq [SCH_ZONE]; Length 1 12]);
      (Optional, SZ_DHW, SCH_DHW) ].

Definition SCH_GATEWAY_INFO : validator :=
  Schema_dict
    [ (Required, SZ_GATEWAY_ID, Type_ T_str);
      (Required, SZ_MAC, Type_ T_str);
      (Required, SZ_CRC, All [Type_ T_str; Call _obfuscate]);
      (Required, SZ_IS_WI_FI, Type_ T_bool) ].

Definition SCH_GATEWAY : validator :=
  Schema_dict
    [ (Required, SZ_GATEWAY_INFO, SCH_GATEWAY_INFO);
      (Required, SZ_TEMPERATURE_CONTROL_SYSTEMS, Seq [SCH_TEMPERATURE_CONTROL_SYSTEM]) ].

Definition SCH_TIME_ZONE : validator :=
  Schema_dict
    [ (Required, SZ_TIME_ZONE_ID, Type_ T_str);
      (Required, SZ_DISPLAY_NAME, Type_ T_str);
      (Required, SZ_OFFSET_MINUTES, Type_ T_int);
      (Required, SZ_CURRENT_OFFSET_MINUTES, Type_ T_int);
      (Required, SZ_SUPPORTS_DAYLIGHT_SAVING, Type_ T_bool) ].

Definition SCH_LOCATION_OWNER : validator :=
  Schema_dict
    [ (Required, SZ_USER_ID, Type_ T_str);
      (Required, SZ_USERNAME, All [Email; Call _obfuscate]);
      (Required, SZ_FIRSTNAME, Type_ T_str);
      (Required, SZ_LASTNAME, All [Type_ T_str; Call _obfuscate]) ].

Definition SCH_LOCATION_INFO : validator :=
  Schema_dict
    [ (Required, SZ_LOCATION_ID, Type_ T_str);
      (Required, SZ_NAME, Type_ T_str);
      (Required, SZ_STREET_ADDRESS, All [Type_ T_str; Call _obfuscate]);
      (Required, SZ_CITY, All [Type_ T_str; Call _obfuscate]);
      (Required, SZ_COUNTRY, Type_ T_str);
      (Required, SZ_POSTCODE, All [Type_ T_str; Call _obfuscate]);
      (Required, SZ_LOCATION_TYPE, Type_ T_str);
      (Required, SZ_USE_DAYLIGHT_SAVE_SWITCHING, Type_ T_bool);
      (Required, SZ_TIME_ZONE, SCH_TIME_ZONE);
      (Required, SZ_LOCATION_OWNER, SCH_LOCATION_OWNER) ].

Definition SCH_LOCATION_INSTALLATION_INFO : validator :=
  Schema_dict
    [ (Required, SZ_LOCATION_INFO, SCH_LOCATION_INFO);
      (Required, SZ_GATEWAYS, Seq [SCH_GATEWAY]) ].

Definition SCH_USER_LOCATIONS_INSTALLATION_INFO : validator :=
  Seq [SCH_LOCATION_INSTALLATION_INFO].

(** The value of an owner field after validation: the user name and the
    last name go through [_obfuscate], the others stay. *)
Definition masked_owner_field (item item' : string * json) : Prop :=
  fst item' = fst item
  /\ if String.eqb (fst item) SZ_USERNAME || String.eqb (fst item) SZ_LASTNAME
     then _obfuscate (snd item) = Ok (snd item')
     else snd item' = snd item.

End Installation.

(** *** Names and values to run the schemas on *)

Definition digits_only (s : string) : bool :=
  forallb is_digit (list_ascii_of_string s).

Definition stars (v : json) : Exc json :=
  match v with
  | JStr _ => Ok (JStr "********")
  | _ => Raise (TypeError "expected a str")
  end.

Definition has_at_sign : validator := fun v =>
  match v with
  | JStr s => if contains "@" s then Ok v else Raise (Invalid "expected an email address")
  | _ => Raise (Invalid "expected an email address")
  end.

Definition demo_owner : json :=
  JObj [("userID", JStr "2263181"); ("username", JStr "user@example.com");
        ("firstname", JStr "Ada"); ("lastname", JStr "Lovelace")].

Definition demo_schedule_capabilities : json :=
  JObj [("maxSwitchpointsPerDay", JInt 6); ("minSwitchpointsPerDay", JInt 1);
        ("timingResolution", JStr "00:10:00"); ("setpointValueResolution", JFloat (FFin (1 # 2)))].

Definition demo_setpoint_capabilities : json :=
  JObj [("maxHeatSetpoint", JFloat (FFin 35)); ("minHeatSetpoint", JFloat (FFin 5));
        ("valueResolution", JFloat (FFin (1 # 2))); ("canControlHeat", JBool true);
        ("canControlCool", JBool false);
        ("allowedSetpointModes", JArr [JStr "PermanentOverride"; JStr "FollowSchedule"]);
        ("maxDuration", JStr "1.00:00:00"); ("timingResolution", JStr "00:10:00")].

Definition demo_zone (zone_id name : string) : json :=
  JObj [("zoneId", JStr zone_id); ("modelType", JStr "HeatingZone"); ("name", JStr name);
        ("setpointCapabilities", demo_setpoint_capabilities);
        ("scheduleCapabilities", demo_schedule_capabilities);
        ("zoneType", JStr "RadiatorZone")].

Definition demo_dhw : json :=
  JObj [("dhwId", JStr "3933910");
        ("dhwStateCapabilitiesResponse",
         JObj [("allowedStates", JArr [JStr "On"; JStr "Off"]);
               ("allowedModes", JArr [JStr "FollowSchedule"]);
               ("maxDuration", JStr "1.00:00:00"); ("timingResolution", JStr "00:10:00")]);
        ("scheduleCapabilitiesResponse",
         JObj [("maxSwitchpointsPerDay", JInt 6); ("minSwitchpointsPerDay", JInt 1);
               ("timingResolution", JStr "00:10:00")])].

Definition demo_tcs_config (zones : list json) (with_dhw : bool) : list (string * json) :=
  [("systemId", JStr "1234567"); ("modelType", JStr "EvoTouch");
   ("allowedSystemModes", JArr [props.permanent_entry; props.temporary_entry]);
   ("zones", JArr zones)]
  ++ (if with_dhw then [("dhw", demo_dhw)] else []).

(** [SCH_TEMPERATURE_CONTROL_SYSTEM] with the vendor's names. *)
Definition demo_SCH_TCS : validator :=
  SCH_TEMPERATURE_CONTROL_SYSTEM digits_only digits_only digits_only
    ["On"; "Off"] ["EvoTouch"] ["HeatingZone"]
    ["PermanentOverride"; "FollowSchedule"; "TemporaryOverride"] ["RadiatorZone"]
    "allowedModes" "allowedSetpointModes" "allowedStates" "allowedSystemModes"
    "canControlCool" "canControlHeat" "dhw" "dhwId" "dhwStateCapabilitiesResponse"
    "maxHeatSetpoint" "setpointValueResolution" "maxSwitchpointsPerDay"
    "minHeatSetpoint" "minSwitchpointsPerDay" "modelType" "name"
    "scheduleCapabilities" "scheduleCapabilitiesResponse" "setpointCapabilities"
    "systemId" "valueResolution" "zoneId" "zoneType" "zones".

End installation.

(** ** evohomeasync2/controlsystem.py: the backup of the schedules *)

Module backup.

Import Py http controlsystem.
Open Scope string_scope.
Open Scope py_scope.

Section Backup.

(** Missing from the sources: [Zone.schedule], [HotWater.schedule], and
    the file the backup is written to. *)
Variable Zone_schedule : Zone.t -> M World json.
Variable HotWater_schedule : HotWater.t -> M World json.
Variable write_backup : string -> json -> M World unit.  (* open, json.dumps, write *)

(** The first part of [zone_schedules_backup]: the hot water unit. *)
Definition backup_hotwater (self : ControlSystem) (schedules : dict json)
  : M World (dict json) :=
  match hotwater self with
  | Some hw =>
      schedule <- HotWater_schedule hw ;;
      ret (dict_set schedules (HotWater.zoneId hw)
             (JObj [("name", JStr "Domestic Hot Water"); ("schedule", schedule)]))
  | None => ret schedules
  end.

(** The loop of [zone_schedules_backup] over the zones. *)
Fixpoint backup_zones (zs : list Zone.t) (schedules : dict json) : M World (dict json) :=
  match zs with
  | [] => ret schedules
  | zone :: rest =>
      let zone_id := Zone.zoneId zone in
      let name := Zone.name zone in
      schedule <- Zone_schedule zone ;;
      backup_zones rest
        (dict_set schedules zone_id (JObj [("name", JStr name); ("schedule", schedule)]))
  end.

(** [zone_schedules_backup] up to the writing: the dict [schedules]. *)
Definition collect_schedules (self : ControlSystem) : M World (dict json) :=
  schedules <- backup_hotwater self [] ;;
  backup_zones (_zones self) schedules.

(** [ControlSystem.zone_schedules_backup] *)
Definition zone_schedules_backup (self : ControlSystem) (filename : string)
  : M World unit :=
  schedules <- collect_schedules self ;;
  write_backup filename (JObj schedules).

End Backup.

(** An entry of the backup: a name and a schedule. *)
Definition backup_entry (e : json) : Prop :=
  exists name schedule, e = JObj [("name", JStr name); ("schedule", schedule)].

(** The identifiers of the installation: the hot water unit's and the
    zones'. *)
Definition entity_ids (self : ControlSystem) : list string :=
  (match hotwater self with Some hw => [HotWater.zoneId hw] | None => [] end
   ++ map Zone.zoneId (_zones self))%list.

(** The last zone of a list with a given name, or identifier. *)
Definition last_named (zs : list Zone.t) (name : string) : option Zone.t :=
  find (fun z => String.eqb (Zone.name z) name) (rev zs).

Definition last_with_id (zs : list Zone.t) (zone_id : string) : option Zone.t :=
  find (fun z => String.eqb (Zone.zoneId z) zone_id) (rev zs).

(** *** A backup to run the definitions on *)

Definition demo_schedule_of (name : string) : M World json :=
  fun w => (Ok (JStr name), w).

Definition demo_read (doc : json) (filename : string) : M World json :=
  fun w => (Ok doc, w).

Definition demo_apply (payload : string) : M World unit :=
  fun w => (Ok tt, w).

Definition demo_own_backup : dict json :=
  Eval vm_compute in
    match fst (collect_schedules (fun z => demo_schedule_of (Zone.name z))
                 (fun hw => demo_schedule_of "hot water")
                 tcs_props.demo_tcs tcs_props.quiet_world) with
    | Ok doc => doc
    | Raise _ => []
    end.

End backup.

(** ** evohomeclient/__init__.py: the readers *)

Module evohomeclient_read.

Import Py http evohomeclient.
Open Scope string_scope.
Open Scope py_scope.

(** [k in v] for a str [k]: a key of a dict, an element of a list, a part
    of a str. *)
Definition py_in_str (k : string) (v : json) : Exc bool :=
  match v with
  | JObj d => Ok (dict_has d k)
  | JArr l => Ok (existsb (fun x => py_eq x (JStr k)) l)
  | JStr s => Ok (contains k s)
  | _ => Raise (TypeError "argument is not iterable")
  end.

Section Readers.

Variable py_str : json -> string.

(** [float(v)]: the number as a float, the number a str spells, or an
    exception. *)
Variable py_float : json -> Exc json.

(** [EvohomeClient.get_modes] *)
Definition get_modes (zone : json) : M State json :=
  _populate_full_data py_str false ;;
  device <- _get_device py_str zone ;;
  thermostat <- lift (getitem device "thermostat") ;;
  lift (getitem thermostat "allowedModes").

(** The [set_point] of one turn of the loop of [temperatures]. *)
Definition set_point_of (device : json) : Exc json :=
  thermostat <-! getitem device "thermostat" ;;
  values <-! getitem thermostat "changeableValues" ;;
  present <-! py_in_str "heatSetpoint" values ;;
  if (present : bool) then
    thermostat <-! getitem device "thermostat" ;;
    values <-! getitem thermostat "changeableValues" ;;
    heat_setpoint <-! getitem values "heatSetpoint" ;;
    value <-! getitem heat_setpoint "value" ;;
    py_float value
  else Ok (JInt 0).

(** The dict that one turn of the loop yields. *)
Definition temperature_entry (device : json) : Exc json :=
  set_point <-! set_point_of device ;;
  model <-! getitem device "thermostatModelType" ;;
  device_id <-! getitem device "deviceID" ;;
  name <-! getitem device "name" ;;
  thermostat <-! getitem device "thermostat" ;;
  indoor <-! getitem thermostat "indoorTemperature" ;;
  temp <-! py_float indoor ;;
  Ok (JObj [("thermostat", model); ("id", device_id); ("name", name);
            ("temp", temp); ("setpoint", set_point)]).

(** What a generator gives to the one who runs it to its end: the values
    it yielded, and the exception that ended it, if one did. *)
Definition yielded : Type := (list json * option exn)%type.

Fixpoint yield_entries (device_list : list json) : yielded :=
  match device_list with
  | [] => ([], None)
  | device :: rest =>
      match temperature_entry device with
      | Ok entry => let (entries, stop) := yield_entries rest in (entry :: entries, stop)
      | Raise e => ([], Some e)
      end
  end.

(** [EvohomeClient.temperatures], run to its end with nothing else
    touching the client in between. *)
Definition temperatures (force_refresh : bool) (s : State) : yielded * State :=
  match _populate_full_data py_str force_refresh s with
  | (Raise e, s') => (([], Some e), s')
  | (Ok _, s') =>
      match bindE (getitem (full_data (self s')) "devices") py_iter with
      | Raise e => (([], Some e), s')
      | Ok device_list => (yield_entries device_list, s')
      end
  end.

End Readers.

End evohomeclient_read.

(** ** evohomeclient/__init__.py: the gateway *)

Module evohomeclient_gateway.

Import Py http evohomeclient.
Open Scope string_scope.
Open Scope py_scope.

(** The instance with the one attribute that [EvohomeClient] above does
    not have, [gateway_data], and the network. *)
Record GatewayState : Type := {
  client : State;
  gateway_data : json
}.

(** [EvohomeClient.__init__]: the gateway data start as [None]. *)
Definition GatewayState_init (username password : string) (user_data : json)
  (hostname : string) (w : World) : GatewayState :=
  {| client := {| self := EvohomeClient_init username password user_data hostname;
                  world := w |};
     gateway_data := JNull |}.

(** A method of the client, run on the instance. *)
Definition on_client {A} (m : M State A) : M GatewayState A := fun g =>
  let (r, s) := m (client g) in (r, {| client := s; gateway_data := gateway_data g |}).

Definition set_gateway_data (v : json) : M GatewayState unit :=
  modify (fun g => {| client := client g; gateway_data := v |}).

Section Gateway.

Variable py_str : json -> string.

(** [EvohomeClient._populate_gateway_info] *)
Definition _populate_gateway_info : M GatewayState unit :=
  on_client (_populate_full_data py_str false) ;;
  g <- get ;;
  if is_None (gateway_data g) then
    let c := self (client g) in
    let url := hostname c ++ "/WebAPI/api/gateways" ++
               "?locationId=" ++ py_str (location_id c) ++ "&allData=False" in
    response <- on_client (request "GET" url None (headers c)) ;;
    lift (raise_for_status response) ;;
    gateways <- on_client (_convert response) ;;
    first <- lift (index0 gateways) ;;
    set_gateway_data first
  else ret tt.

End Gateway.

End evohomeclient_gateway.

(** ** Vocabulary of further properties: the client of the original API *)

Module client_more.

Import Py http evohomeclient.
Open Scope string_scope.

(** The body of the login request. *)
Definition credentials (c : EvohomeClient) : json :=
  JObj [("Username", JStr (username c));
        ("Password", JStr (password c));
        ("ApplicationId", JStr "91db1612-73fd-4500-91b2-e63b069b185c")].

(** The login request. *)
Definition login_request (c : EvohomeClient) : Request :=
  {| method := "POST"; url := hostname c ++ "/WebAPI/api/Session";
     payload := Some (credentials c);
     request_headers := JObj [("content-type", JStr "application/json")] |}.

(** A request with the given body. *)
Definition carries (body : json) (e : event) : Prop :=
  match e with
  | Sent rq => payload rq = Some body
  | Slept _ => False
  end.

(** Anything but a PUT. *)
Definition no_put (e : event) : Prop :=
  match e with
  | Sent rq => method rq <> "PUT"
  | Slept _ => True
  end.

(** The number of PUT requests among the events. *)
Definition puts (events : list event) : nat :=
  List.length (filter (fun rq => String.eqb (method rq) "PUT") (requests_of events)).

(** A computation that adds at most one PUT request to the trace. *)
Definition at_most_one_put {A} (m : M State A) : Prop :=
  forall s, exists events,
    trace (world (snd (m s))) = (trace (world s) ++ events)%list
    /\ (puts events <= 1)%nat.

(** Every event that a computation adds to the trace from the state [s]
    satisfies [P]. *)
Definition adds {A} (P : event -> Prop) (m : M State A) (s : State) : Prop :=
  exists events,
    trace (world (snd (m s))) = (trace (world s) ++ events)%list
    /\ Forall P events.

(** A device of the given name. *)
Definition has_name (name : string) (device : json) : bool :=
  match getitem device "name" with
  | Ok n => py_eq n (JStr name)
  | Raise _ => false
  end.

(** The device that a name stands for: the last of that name. *)
Definition last_of_name (device_list : list json) (name : string) : option json :=
  find (has_name name) (rev device_list).

(** A device that is readable as something other than the hot water
    unit. *)
Definition not_hot_water (device : json) : bool :=
  match getitem device "thermostatModelType" with
  | Ok model => negb (py_eq model (JStr "DOMESTIC_HOT_WATER"))
  | Raise _ => false
  end.

(** An answer that the login takes for a failure. *)
Definition login_refused (r : Response) : bool :=
  ((400 <=? status_code r) && (status_code r <? 600))%Z
  || (negb (status_code r =? 200)%Z && contains "code" (text r)).

(** *** Devices to run the definitions on *)

Definition radiator : json :=
  JObj [("deviceID", JInt 1); ("name", JStr "Lounge");
        ("thermostatModelType", JStr "EMEA_ZONE")].

Definition cylinder (device_id : Z) : json :=
  JObj [("deviceID", JInt device_id); ("name", JStr "");
        ("thermostatModelType", JStr "DOMESTIC_HOT_WATER")].

Definition client_with (device_list : list json) : EvohomeClient :=
  {| username := "user"; password := "secret";
     user_data := JObj [("sessionId", JStr "session");
                        ("userInfo", JObj [("userID", JInt 1)])];
     hostname := "https://tcc";
     full_data := JObj [("locationID", JInt 12); ("devices", JArr device_list)];
     location_id := JInt 12;
     devices := Some []; named_devices := Some [];
     postdata := JNull;
     headers := JObj [("sessionId", JStr "session")] |}.

(** A server that lets everybody in and knows one installation. *)
Definition install_server (history : list Request) : Exc Response :=
  match rev history with
  | [] => Raise (ConnectionError "no request")
  | rq :: _ =>
      if String.eqb (method rq) "POST" then
        Ok {| status_code := 200; text := "session";
              content := Ok (JObj [("sessionId", JStr "session");
                                   ("userInfo", JObj [("userID", JInt 1)])]) |}
      else
        Ok {| status_code := 200; text := "locations";
              content := Ok (JArr [JObj [("locationID", JInt 12);
                                         ("devices", JArr [radiator; cylinder 7])]]) |}
  end.

Definition fresh_state : State :=
  {| self := EvohomeClient_init "user" "secret" JNull "https://tcc";
     world := {| trace := []; server := install_server |} |}.

(** The state the fetch leaves. *)
Definition fetched_state : State :=
  Eval vm_compute in snd (_populate_full_data client_props.demo_str false fresh_state).

(** A device with a thermostat, and what [float] makes of a number. *)
Definition heated (device_id : Z) : json :=
  JObj [("deviceID", JInt device_id); ("name", JStr "Bedroom");
        ("thermostatModelType", JStr "EMEA_ZONE");
        ("thermostat", JObj [("indoorTemperature", JInt 19);
                             ("changeableValues", JObj [("mode", JStr "Off")])])].

Definition demo_float (v : json) : Exc json :=
  match v with
  | JInt z => Ok (JFloat (FFin (inject_Z z)))
  | JFloat _ => Ok v
  | _ => Raise (TypeError "float() argument must be a string or a number")
  end.

(** A server that knows one gateway, and one that answers with a list
    whose first gateway is null. *)
Definition gateway_server (first : json) (history : list Request) : Exc Response :=
  Ok {| status_code := 200; text := "gateways"; content := Ok (JArr [first]) |}.

Definition gateway_demo : evohomeclient_gateway.GatewayState :=
  {| evohomeclient_gateway.client :=
       {| self := client_with [radiator];
          world := {| trace := [];
                      server := gateway_server (JObj [("gatewayID", JInt 5)]) |} |};
     evohomeclient_gateway.gateway_data := JNull |}.

Definition gateway_fetched : evohomeclient_gateway.GatewayState :=
  Eval vm_compute in
    snd (evohomeclient_gateway._populate_gateway_info client_props.demo_str gateway_demo).

Definition refusing_server (status : Z) (history : list Request) : Exc Response :=
  Ok {| status_code := status; text := "code: denied"; content := Ok (JObj []) |}.

End client_more.

(* ================================================================== *)
(** * Part II. The properties                                          *)
(* ================================================================== *)

(** ** voluptuous: when a validator accepts *)

Module vol_facts.

Import Py vol props.
Open Scope string_scope.

Lemma is_ok_true {A} (r : Exc A) : is_ok r = true <-> exists a, r = Ok a.
Proof.
  destruct r; simpl; split; intros H; eauto; try discriminate.
  destruct H as [a H]; discriminate.
Qed.

Lemma is_ok_bindE {A B} (m : Exc A) (k : A -> Exc B) :
  is_ok (bindE m k) = match m with Ok a => is_ok (k a) | Raise _ => false end.
Proof. destruct m; reflexivity. Qed.

Lemma bind_ok {S A B} (m : M S A) (k : A -> M S B) s a s' :
  m s = (Ok a, s') -> bind m k s = k a s'.
Proof. unfold bind. intros ->. reflexivity. Qed.

Lemma bind_raise {S A B} (m : M S A) (k : A -> M S B) s e s' :
  m s = (Raise e, s') -> bind m k s = (Raise e, s').
Proof. unfold bind. intros ->. reflexivity. Qed.

Lemma Type_out t d out : Type_ t d = Ok out -> out = d /\ isinstance d t = true.
Proof.
  unfold Type_. destruct (isinstance d t); intros H; inversion H; auto.
Qed.

Lemma Type_ok t d : is_ok (Type_ t d) = isinstance d t.
Proof. unfold Type_. destruct (isinstance d t); reflexivity. Qed.

Lemma Literal_ok lit d : is_ok (Literal lit d) = py_eq d lit.
Proof. unfold Literal. destruct (py_eq d lit); reflexivity. Qed.

Lemma Any_ok vs d : is_ok (Any vs d) = existsb (fun v : validator => is_ok (v d)) vs.
Proof.
  induction vs as [|v vs IH]; simpl; [reflexivity|].
  destruct (v d); simpl; [reflexivity|].
  rewrite <- IH. destruct (Any vs d); reflexivity.
Qed.

Lemma first_accepting_ok alts x :
  is_ok (first_accepting alts x) = existsb (fun v : validator => is_ok (v x)) alts.
Proof.
  induction alts as [|v alts IH]; simpl; [reflexivity|].
  destruct (v x); simpl; [reflexivity|].
  destruct alts; [reflexivity | exact IH].
Qed.

Lemma validate_elements_ok alts xs :
  is_ok (validate_elements alts xs)
  = forallb (fun x => existsb (fun v : validator => is_ok (v x)) alts) xs.
Proof.
  induction xs as [|x xs IH]; simpl; [reflexivity|].
  rewrite is_ok_bindE, <- first_accepting_ok.
  destruct (first_accepting alts x); simpl; [|reflexivity].
  rewrite is_ok_bindE, <- IH.
  destruct (validate_elements alts xs); reflexivity.
Qed.

Lemma Seq_ok alts d :
  is_ok (Seq alts d)
  = match d with
    | JArr xs => forallb (fun x => existsb (fun v : validator => is_ok (v x)) alts) xs
    | _ => false
    end.
Proof.
  destruct d; simpl; try reflexivity.
  rewrite is_ok_bindE, <- validate_elements_ok.
  destruct (validate_elements alts items); reflexivity.
Qed.

Lemma validate_items_ok schema items out :
  is_ok (validate_items schema items out) = forallb (item_ok schema) items.
Proof.
  revert out. induction items as [|[k v] items IH]; intros out; simpl; [reflexivity|].
  unfold item_ok at 1; simpl.
  destruct (candidate schema k) as [validate|]; [|reflexivity].
  rewrite is_ok_bindE. destruct (validate v); simpl; [apply IH | reflexivity].
Qed.

Lemma Schema_dict_ok schema d :
  is_ok (Schema_dict schema d)
  = match d with
    | JObj items => forallb (item_ok schema) items && none_missing schema items
    | _ => false
    end.
Proof.
  destruct d; simpl; try reflexivity.
  rewrite is_ok_bindE, <- (validate_items_ok schema fields []).
  destruct (validate_items schema fields []); simpl; [|reflexivity].
  unfold none_missing. destruct (missing_required schema fields); reflexivity.
Qed.

Lemma none_missing_required k v schema items :
  none_missing ((Required, k, v) :: schema) items
  = dict_has items k && none_missing schema items.
Proof.
  unfold none_missing, missing_required. simpl.
  destruct (dict_has items k); reflexivity.
Qed.

Lemma none_missing_optional k v schema items :
  none_missing ((Optional, k, v) :: schema) items = none_missing schema items.
Proof. reflexivity. Qed.

End vol_facts.

(** ** The keys of accepted documents *)

Module key_facts.

Import Py vol props vol_facts.
Open Scope string_scope.

Lemma keys_within_scalar K (v : validator) :
  (forall d, is_ok (v d) = true -> keys_of d = []) -> keys_within K v.
Proof.
  intros H d Hd. rewrite (H d Hd). intros k [].
Qed.

Lemma scalar_Type t d : is_ok (Type_ t d) = true -> keys_of d = [].
Proof.
  rewrite Type_ok. destruct t, d; simpl; intros H; try discriminate; reflexivity.
Qed.

Lemma scalar_Literal_str s d : is_ok (Literal (JStr s) d) = true -> keys_of d = [].
Proof.
  rewrite Literal_ok. destruct d; simpl; intros H; try discriminate; reflexivity.
Qed.

Lemma scalar_Datetime fmt d : is_ok (Datetime fmt d) = true -> keys_of d = [].
Proof.
  destruct d; simpl; intros H; try discriminate; reflexivity.
Qed.

Lemma scalar_All_Type t rest d : is_ok (All (Type_ t :: rest) d) = true -> keys_of d = [].
Proof.
  simpl. rewrite is_ok_bindE. intros H. apply (scalar_Type t).
  destruct (Type_ t d); [reflexivity | discriminate].
Qed.

Lemma keys_within_Any K vs : Forall (keys_within K) vs -> keys_within K (Any vs).
Proof.
  intros HF d. rewrite Any_ok. intros H.
  apply existsb_exists in H. destruct H as [v [Hin Hv]].
  rewrite Forall_forall in HF. exact (HF v Hin d Hv).
Qed.

Lemma keys_within_Seq K alts : Forall (keys_within K) alts -> keys_within K (Seq alts).
Proof.
  intros HF d. rewrite Seq_ok. destruct d; try discriminate.
  simpl. induction items as [|x xs IH]; simpl; intros H.
  - intros k [].
  - apply andb_prop in H. destruct H as [Hx Hxs].
    apply incl_app; [|exact (IH Hxs)].
    apply existsb_exists in Hx. destruct Hx as [v [Hin Hv]].
    rewrite Forall_forall in HF. exact (HF v Hin x Hv).
Qed.

Lemma candidate_In schema k validate :
  candidate schema k = Some validate ->
  exists m, In (m, k, validate) schema.
Proof.
  induction schema as [|[[m k'] v] schema IH]; simpl; [discriminate|].
  destruct (String.eqb k' k) eqn:E.
  - intros H. inversion H; subst. apply String.eqb_eq in E. subst.
    exists m. left. reflexivity.
  - intros H. destruct (IH H) as [m' Hm]. exists m'. right. exact Hm.
Qed.

Lemma keys_within_Schema_dict K schema :
  Forall (fun e : entry => In (snd (fst e)) K /\ keys_within K (snd e)) schema ->
  keys_within K (Schema_dict schema).
Proof.
  intros HF d. rewrite Schema_dict_ok. destruct d; try discriminate.
  intros H. apply andb_prop in H. destruct H as [H _].
  induction fields as [|[k v] items IH]; simpl in *.
  - intros x [].
  - apply andb_prop in H. destruct H as [Hkv Hrest].
    unfold item_ok in Hkv; simpl in Hkv.
    destruct (candidate schema k) as [validate|] eqn:Hc; [|discriminate].
    destruct (candidate_In _ _ Hc) as [m Hin].
    rewrite Forall_forall in HF. destruct (HF _ Hin) as [HkK Hval]. simpl in *.
    apply incl_cons; [exact HkK|].
    apply incl_app; [exact (Hval v Hkv) | exact (IH Hrest)].
Qed.

Ltac keys_within_tac :=
  repeat first
    [ apply keys_within_Any
    | apply keys_within_Seq
    | apply keys_within_Schema_dict
    | apply Forall_cons
    | apply Forall_nil
    | split
    | apply keys_within_scalar; intros ?;
      first [ apply scalar_Literal_str | apply scalar_Datetime | apply scalar_All_Type ]
    | solve [ vm_compute; tauto ] ].

Lemma get_schedule_keys : keys_within GET_KEYS schedule.SCH_GET_SCHEDULE.
Proof.
  unfold schedule.SCH_GET_SCHEDULE, schedule.SCH_GET_SCHEDULE_DHW,
    schedule.SCH_GET_SCHEDULE_ZONE, schedule.SCH_GET_DAY_OF_WEEK_DHW,
    schedule.SCH_GET_DAY_OF_WEEK_ZONE, schedule.SCH_GET_SWITCHPOINT_DHW,
    schedule.SCH_GET_SWITCHPOINT_ZONE, schedule.DAYS_OF_WEEK.
  cbn [map]. keys_within_tac.
Qed.

Lemma put_schedule_keys : keys_within PUT_KEYS schedule.SCH_PUT_SCHEDULE.
Proof.
  unfold schedule.SCH_PUT_SCHEDULE, schedule.SCH_PUT_SCHEDULE_DHW,
    schedule.SCH_PUT_SCHEDULE_ZONE, schedule.SCH_PUT_DAY_OF_WEEK_DHW,
    schedule.SCH_PUT_DAY_OF_WEEK_ZONE, schedule.SCH_PUT_SWITCHPOINT_DHW,
    schedule.SCH_PUT_SWITCHPOINT_ZONE.
  keys_within_tac.
Qed.

End key_facts.

(** ** schedule.py *)

Module schedule_props.

Import Py vol props vol_facts key_facts schedule.
Open Scope string_scope.

Example capitalize_lowers_the_tail :
  capitalize SZ_DAILY_SCHEDULES = "Dailyschedules"
  /\ capitalize SZ_TIME_OF_DAY = "Timeofday".
Proof. split; reflexivity. Qed.

Example get_zone_schedule_accepted :
  SCH_GET_SCHEDULE get_zone_schedule = Ok get_zone_schedule.
Proof. reflexivity. Qed.

(** [vol.Any(list(DAYS_OF_WEEK))] wants a list of day names: a bare day
    name is rejected. *)
Example get_day_name_rejected :
  is_ok (SCH_GET_DAY_OF_WEEK_ZONE
           (JObj [("dayOfWeek", JStr "Monday"); ("switchpoints", JArr [])])) = false.
Proof. reflexivity. Qed.

Lemma dict_has_keys_of items k : dict_has items k = true -> In k (keys_of (JObj items)).
Proof.
  unfold dict_has. induction items as [|[k' v] items IH]; simpl; [discriminate|].
  destruct (String.eqb k' k) eqn:E.
  - intros _. left. apply String.eqb_eq. exact E.
  - intros H. right. apply in_or_app. right. apply IH. exact H.
Qed.

Lemma float_ge_int_spec f n :
  float_ge_int f n = true <->
  match f with FNaN => False | FInf negative => negative = false | FFin q => (inject_Z n <= q)%Q end.
Proof.
  destruct f as [|negative|q]; simpl.
  - split; [discriminate | tauto].
  - destruct negative; simpl; split; congruence.
  - apply Qle_bool_iff.
Qed.

Lemma float_le_int_spec f n :
  float_le_int f n = true <->
  match f with FNaN => False | FInf negative => negative = true | FFin q => (q <= inject_Z n)%Q end.
Proof.
  destruct f as [|negative|q]; simpl.
  - split; [discriminate | tauto].
  - tauto.
  - apply Qle_bool_iff.
Qed.

(** [vol.All(float, vol.Range(min=lo, max=hi))] accepts the floats of the
    closed interval and nothing else. *)
Lemma float_range_ok lo hi v :
  is_ok (All [Type_ T_float; Range lo hi] v) = true
  <-> exists f, v = JFloat f /\ float_between lo hi f.
Proof.
  simpl. rewrite is_ok_bindE. unfold Type_.
  destruct v; simpl;
    try (split; [discriminate | intros [f0 [H _]]; discriminate]).
  unfold bindE, Range; simpl. split.
  - intros H. exists f. split; [reflexivity|].
    destruct (float_ge_int f lo) eqn:Hge; [|discriminate].
    destruct (float_le_int f hi) eqn:Hle; [|discriminate].
    apply float_ge_int_spec in Hge. apply float_le_int_spec in Hle.
    destruct f as [|negative|q]; try contradiction.
    + subst. discriminate.
    + exists q. auto.
  - intros [f0 [Hf [q [Hq [Hlo Hhi]]]]]. inversion Hf; subst.
    assert (Hge : float_ge_int (FFin q) lo = true) by (apply float_ge_int_spec; exact Hlo).
    assert (Hle : float_le_int (FFin q) hi = true) by (apply float_le_int_spec; exact Hhi).
    rewrite Hge, Hle. reflexivity.
Qed.

Lemma Datetime_str_ok fmt t : is_ok (Datetime fmt (JStr t)) = strptime_ok t fmt.
Proof. simpl. destruct (strptime_ok t fmt); reflexivity. Qed.

(** C2 (amended): a document the GET schedule schema accepts uses only the
    lower-camel-case keys dailySchedules, dayOfWeek, switchpoints,
    timeOfDay, heatSetpoint and dhwState; a document the PUT schedule
    schema accepts never has the key HeatSetpoint, and a zone switchpoint
    the PUT schema accepts carries its setpoint under heatSetpoint, the
    key of the GET schema. *)
Theorem C2_schedule_keys :
  (forall d, is_ok (SCH_GET_SCHEDULE d) = true ->
             forall k, In k (keys_of d) -> In k GET_KEYS)
  /\ (forall d, is_ok (SCH_PUT_SCHEDULE d) = true -> ~ In "HeatSetpoint" (keys_of d))
  /\ (forall sp, is_ok (SCH_PUT_SWITCHPOINT_ZONE sp) = true ->
                 In "heatSetpoint" (keys_of sp)).
Proof.
  split; [|split].
  - intros d Hd k Hk. exact (get_schedule_keys d Hd k Hk).
  - intros d Hd Hk. apply (put_schedule_keys d Hd) in Hk.
    vm_compute in Hk. repeat (destruct Hk as [Hk|Hk]; [discriminate|]). exact Hk.
  - intros sp Hsp. unfold SCH_PUT_SWITCHPOINT_ZONE in Hsp.
    rewrite Schema_dict_ok in Hsp. destruct sp; try discriminate.
    apply andb_prop in Hsp. destruct Hsp as [_ Hreq].
    apply dict_has_keys_of.
    rewrite none_missing_required in Hreq.
    apply andb_prop in Hreq. exact (proj1 Hreq).
Qed.

Lemma C2_schedule_keys_witness :
  (forall k, In k (keys_of get_zone_schedule) -> In k GET_KEYS)
  /\ ~ In "HeatSetpoint" (keys_of put_zone_schedule)
  /\ In "heatSetpoint"
       (keys_of (JObj [("heatSetpoint", JFloat (FFin 21)); ("Timeofday", JStr "06:30:00")])).
Proof.
  destruct C2_schedule_keys as [Hget [Hput Hsp]].
  split; [|split].
  - apply Hget. reflexivity.
  - apply Hput. reflexivity.
  - apply Hsp. reflexivity.
Defined.

(** C2, as the specification words it, fails: the PUT schema accepts a
    schedule whose setpoint key is heatSetpoint, which is not one of the
    Pascal-case keys. *)
Lemma C2_put_keys_not_pascal :
  SCH_PUT_SCHEDULE put_zone_schedule = Ok put_zone_schedule
  /\ In "heatSetpoint" (keys_of put_zone_schedule)
  /\ ~ (forall k, In k (keys_of put_zone_schedule) -> In k PASCAL_KEYS).
Proof.
  split; [reflexivity|]. split; [simpl; tauto|].
  intros H. specialize (H "heatSetpoint"). simpl in H.
  assert (Hin : In "heatSetpoint" PASCAL_KEYS) by (apply H; tauto).
  simpl in Hin. repeat (destruct Hin as [Hin|Hin]; [discriminate|]). exact Hin.
Qed.

(** C6 (amended): with a valid time of day, the GET and the PUT zone
    switchpoint schemas accept a switchpoint exactly when its setpoint is
    a float of the closed interval from 5 to 35; a setpoint that is not a
    float is rejected whatever its value. *)
Theorem C6_setpoint_range :
  forall (setpoint : json) (t : string) (time_first : bool),
    strptime_ok t "%H:%M:00" = true ->
    (is_ok (SCH_GET_SWITCHPOINT_ZONE
              (switchpoint SZ_HEAT_SETPOINT SZ_TIME_OF_DAY setpoint t time_first)) = true
     <-> exists f, setpoint = JFloat f /\ float_between 5 35 f)
    /\
    (is_ok (SCH_PUT_SWITCHPOINT_ZONE
              (switchpoint SZ_HEAT_SETPOINT (capitalize SZ_TIME_OF_DAY) setpoint t time_first)) = true
     <-> exists f, setpoint = JFloat f /\ float_between 5 35 f).
Proof.
  intros setpoint t time_first Ht.
  pose proof (float_range_ok 5 35 setpoint) as Hrange.
  pose proof (Datetime_str_ok "%H:%M:00" t) as Hdt. rewrite Ht in Hdt.
  assert (Hcap : capitalize SZ_TIME_OF_DAY = "Timeofday") by reflexivity.
  split; rewrite <- Hrange;
    unfold SCH_GET_SWITCHPOINT_ZONE, SCH_PUT_SWITCHPOINT_ZONE, switchpoint;
    rewrite ?Hcap; destruct time_first; rewrite Schema_dict_ok;
    unfold item_ok, none_missing; cbn -[All Datetime is_ok];
    rewrite Hdt;
    destruct (is_ok (All [Type_ T_float; Range 5 35] setpoint)); simpl; tauto.
Qed.

Lemma C6_setpoint_range_witness :
  is_ok (SCH_GET_SWITCHPOINT_ZONE
           (JObj [("heatSetpoint", JFloat (FFin 5)); ("timeOfDay", JStr "06:30:00")])) = true
  /\ is_ok (SCH_PUT_SWITCHPOINT_ZONE
           (JObj [("heatSetpoint", JFloat (FFin 35)); ("Timeofday", JStr "22:00:00")])) = true.
Proof.
  split.
  - apply (proj1 (C6_setpoint_range (JFloat (FFin 5)) "06:30:00" false eq_refl)).
    exists (FFin 5). split; [reflexivity|]. exists 5%Q.
    repeat split; unfold Qle; simpl; lia.
  - apply (proj2 (C6_setpoint_range (JFloat (FFin 35)) "22:00:00" false eq_refl)).
    exists (FFin 35). split; [reflexivity|]. exists 35%Q.
    repeat split; unfold Qle; simpl; lia.
Defined.

(** C6, as the specification words it, fails: the integer 20 lies inside
    the interval, the time of day is valid, and both schemas reject the
    switchpoint. *)
Lemma C6_integer_setpoint_rejected :
  strptime_ok "06:30:00" "%H:%M:00" = true
  /\ (5 <= 20 <= 35)%Z
  /\ is_ok (SCH_GET_SWITCHPOINT_ZONE
              (JObj [("heatSetpoint", JInt 20); ("timeOfDay", JStr "06:30:00")])) = false
  /\ is_ok (SCH_PUT_SWITCHPOINT_ZONE
              (JObj [("heatSetpoint", JInt 20); ("Timeofday", JStr "06:30:00")])) = false.
Proof.
  split; [reflexivity|]. split; [lia|]. split; reflexivity.
Qed.

End schedule_props.

(** ** config.py *)

Module config_props.

Import Py vol props vol_facts config.
Open Scope string_scope.

Lemma dict_has_get {V} (items : dict V) k :
  dict_has items k = true -> exists v, dict_get items k = Some v.
Proof.
  unfold dict_has. destruct (dict_get items k) as [v|]; [eauto | discriminate].
Qed.

Lemma dict_get_item_ok schema items k v :
  forallb (item_ok schema) items = true ->
  dict_get items k = Some v ->
  item_ok schema (k, v) = true.
Proof.
  induction items as [|[k' v'] items IH]; simpl; [discriminate|].
  intros H Hget. apply andb_prop in H. destruct H as [Hhd Htl].
  destruct (String.eqb k' k) eqn:E.
  - apply String.eqb_eq in E. inversion Hget; subst. exact Hhd.
  - exact (IH Htl Hget).
Qed.

Lemma py_eq_str v s : py_eq v (JStr s) = true -> v = JStr s.
Proof.
  destruct v; simpl; try discriminate.
  intros H. apply String.eqb_eq in H. subst. reflexivity.
Qed.

Lemma isinstance_str v : isinstance v T_str = true -> exists s, v = JStr s.
Proof. destruct v; simpl; try discriminate. eauto. Qed.

(** No value equals both [True] and [False]. *)
Lemma py_eq_true_false v : py_eq v (JBool true) = true -> py_eq v (JBool false) = true -> False.
Proof.
  destruct v as [|b|z|f|s|l|d]; simpl; try discriminate.
  - destruct b; discriminate.
  - intros H1 H0. destruct z; discriminate.
  - destruct f as [| |q]; simpl; try discriminate.
    intros H1 H0. apply Qeq_bool_iff in H1. apply Qeq_bool_iff in H0.
    rewrite H1 in H0. discriminate.
Qed.

Lemma perm_shape e : is_ok (SCH_SYSTEM_MODE_PERM e) = true -> permanent_only e.
Proof.
  unfold SCH_SYSTEM_MODE_PERM. rewrite Schema_dict_ok.
  destruct e; try discriminate. intros H.
  apply andb_prop in H. destruct H as [Hitems _].
  exists fields. split; [reflexivity|].
  repeat split; unfold dict_has;
    match goal with
    | |- match dict_get fields ?k with _ => _ end = false =>
        destruct (dict_get fields k) as [v|] eqn:Hget; [|reflexivity];
        pose proof (dict_get_item_ok _ _ _ Hitems Hget) as Hbad;
        vm_compute in Hbad; discriminate
    end.
Qed.

Lemma temp_shape e : is_ok (SCH_SYSTEM_MODE_TEMP e) = true -> permanent_or_temporary e.
Proof.
  unfold SCH_SYSTEM_MODE_TEMP. rewrite Schema_dict_ok.
  destruct e; try discriminate. intros H.
  apply andb_prop in H. destruct H as [Hitems Hreq].
  do 3 (rewrite none_missing_required in Hreq;
        apply andb_prop in Hreq; destruct Hreq as [_ Hreq]).
  rewrite none_missing_required in Hreq.
  apply andb_prop in Hreq. destruct Hreq as [Hhas_md Hreq].
  rewrite none_missing_required in Hreq.
  apply andb_prop in Hreq. destruct Hreq as [Hhas_tr Hreq].
  rewrite none_missing_required in Hreq.
  apply andb_prop in Hreq. destruct Hreq as [Hhas_tm _].
  destruct (dict_has_get _ _ Hhas_md) as [md Hmd].
  destruct (dict_has_get _ _ Hhas_tr) as [tr Htr].
  destruct (dict_has_get _ _ Hhas_tm) as [tm Htm].
  pose proof (dict_get_item_ok _ _ _ Hitems Hmd) as Vmd.
  pose proof (dict_get_item_ok _ _ _ Hitems Htr) as Vtr.
  pose proof (dict_get_item_ok _ _ _ Hitems Htm) as Vtm.
  unfold item_ok in Vmd, Vtr, Vtm.
  cbn -[Type_ Any is_ok] in Vmd, Vtr, Vtm.
  rewrite Type_ok in Vmd, Vtr. rewrite Any_ok in Vtm.
  apply isinstance_str in Vmd. destruct Vmd as [smd ->].
  apply isinstance_str in Vtr. destruct Vtr as [str ->].
  simpl in Vtm. rewrite !Literal_ok in Vtm.
  apply orb_prop in Vtm.
  destruct Vtm as [Vtm|Vtm].
  - apply py_eq_str in Vtm. subst. exists fields, smd, str, "Duration". auto 10.
  - apply orb_prop in Vtm. destruct Vtm as [Vtm|Vtm]; [|discriminate].
    apply py_eq_str in Vtm. subst. exists fields, smd, str, "Period". auto 10.
Qed.

Lemma shapes_disjoint e : permanent_only e -> permanent_or_temporary e -> False.
Proof.
  intros [items [He [Hmd _]]] [items' [md [tr [tm [He' [Hget _]]]]]].
  subst. inversion He'; subst. unfold dict_has in Hmd. rewrite Hget in Hmd. discriminate.
Qed.

(** C7: the schema of a system-mode capability accepts an entry only
    when it has exactly one of the two shapes, permanent-only (no
    duration field) or permanent-or-temporary (maxDuration and
    timingResolution strings and a timingMode that is Duration or
    Period), through the schema of that shape; an entry of neither shape
    is rejected. *)
Theorem C7_allowed_system_mode :
  forall e,
    (is_ok (SCH_ALLOWED_SYSTEM_MODE e) = true ->
       (is_ok (SCH_SYSTEM_MODE_PERM e) = true
        /\ permanent_only e /\ ~ permanent_or_temporary e)
       \/
       (is_ok (SCH_SYSTEM_MODE_TEMP e) = true
        /\ permanent_or_temporary e /\ ~ permanent_only e))
    /\
    (~ permanent_only e -> ~ permanent_or_temporary e ->
       is_ok (SCH_ALLOWED_SYSTEM_MODE e) = false).
Proof.
  intros e.
  assert (Hfwd :
    is_ok (SCH_ALLOWED_SYSTEM_MODE e) = true ->
       (is_ok (SCH_SYSTEM_MODE_PERM e) = true
        /\ permanent_only e /\ ~ permanent_or_temporary e)
       \/
       (is_ok (SCH_SYSTEM_MODE_TEMP e) = true
        /\ permanent_or_temporary e /\ ~ permanent_only e)).
  { unfold SCH_ALLOWED_SYSTEM_MODE. rewrite Any_ok. simpl. intros H.
    apply orb_prop in H. destruct H as [H|H].
    - left. pose proof (perm_shape e H) as Hp.
      repeat split; auto. intros Ht. exact (shapes_disjoint Hp Ht).
    - apply orb_prop in H. destruct H as [H|H]; [|discriminate].
      right. pose proof (temp_shape e H) as Ht.
      repeat split; auto. intros Hp. exact (shapes_disjoint Hp Ht). }
  split; [exact Hfwd|].
  intros Hnp Hnt.
  destruct (is_ok (SCH_ALLOWED_SYSTEM_MODE e)) eqn:E; [|reflexivity].
  destruct (Hfwd eq_refl) as [[_ [Hp _]]|[_ [Ht _]]]; contradiction.
Qed.

Lemma C7_allowed_system_mode_witness :
  permanent_only permanent_entry /\ permanent_or_temporary temporary_entry.
Proof.
  split.
  - destruct (proj1 (C7_allowed_system_mode permanent_entry) eq_refl)
      as [[_ [Hp _]]|[Hbad _]]; [exact Hp | discriminate Hbad].
  - destruct (proj1 (C7_allowed_system_mode temporary_entry) eq_refl)
      as [[Hbad _]|[_ [Ht _]]]; [discriminate Hbad | exact Ht].
Defined.

Example entry_without_timing_mode_rejected :
  is_ok (SCH_ALLOWED_SYSTEM_MODE
           (JObj [("systemMode", JStr "Away"); ("canBePermanent", JBool true);
                  ("canBeTemporary", JBool true); ("maxDuration", JStr "99.00:00:00");
                  ("timingResolution", JStr "1.00:00:00")])) = false.
Proof. reflexivity. Qed.

End config_props.

(** ** controlsystem.py: construction *)

Module construction_props.

Import Py http controlsystem tcs_props vol_facts.
Open Scope string_scope.
Open Scope list_scope.

Lemma dict_get_set {V} (d : dict V) k v q :
  dict_get (dict_set d k v) q = if String.eqb k q then Some v else dict_get d q.
Proof.
  induction d as [|[k' v'] d IH]; simpl.
  - reflexivity.
  - destruct (String.eqb k' k) eqn:E; simpl.
    + apply String.eqb_eq in E. subst. destruct (String.eqb k q); reflexivity.
    + rewrite IH. destruct (String.eqb k' q) eqn:E'; [|reflexivity].
      apply String.eqb_eq in E'. subst. rewrite String.eqb_sym, E. reflexivity.
Qed.

Lemma dict_get_update_None {V} (items acc : dict V) k :
  dict_get acc k = None -> dict_get items k = None ->
  dict_get (dict_update acc items) k = None.
Proof.
  unfold dict_update. revert acc.
  induction items as [|[k' v'] items IH]; simpl; intros acc Hacc Hitems; [exact Hacc|].
  destruct (String.eqb k' k) eqn:E; [discriminate|].
  apply IH; [|exact Hitems]. rewrite dict_get_set, E. exact Hacc.
Qed.

Lemma dict_get_filter_None {V} (f : string * V -> bool) (items : dict V) k :
  dict_get items k = None -> dict_get (filter f items) k = None.
Proof.
  induction items as [|[k' v'] items IH]; simpl; [reflexivity|].
  destruct (String.eqb k' k) eqn:E; [discriminate|].
  intros H. destruct (f (k', v')); simpl; [rewrite E|]; exact (IH H).
Qed.

Lemma dict_get_filter {V} (f : string * V -> bool) (items : dict V) k :
  (forall v, f (k, v) = true) -> dict_get (filter f items) k = dict_get items k.
Proof.
  intros Hf. induction items as [|[k' v'] items IH]; simpl; [reflexivity|].
  destruct (String.eqb k' k) eqn:E.
  - apply String.eqb_eq in E. subst. rewrite Hf. simpl.
    rewrite String.eqb_refl. reflexivity.
  - destruct (f (k', v')); simpl; [rewrite E|]; exact IH.
Qed.

Lemma dict_keys_set_In {V} (d : dict V) k v q :
  In q (dict_keys (dict_set d k v)) <-> q = k \/ In q (dict_keys d).
Proof.
  unfold dict_keys. induction d as [|[k' v'] d IH]; simpl.
  - split; intros [H|H]; auto; contradiction.
  - destruct (String.eqb k' k) eqn:E; simpl.
    + apply String.eqb_eq in E. subst. split; intros H; [tauto|].
      destruct H as [H|H]; auto.
    + rewrite IH. tauto.
Qed.

Lemma dict_keys_set_NoDup {V} (d : dict V) k v :
  NoDup (dict_keys d) -> NoDup (dict_keys (dict_set d k v)).
Proof.
  induction d as [|[k' v'] d IH]; simpl; intros H.
  - constructor; [intros [] | constructor].
  - inversion H as [|? ? Hnot Hnd]; subst.
    destruct (String.eqb k' k) eqn:E; simpl.
    + constructor; assumption.
    + constructor; [|exact (IH Hnd)].
      intros Hin. apply (dict_keys_set_In d k v k') in Hin.
      destruct Hin as [Hin|Hin]; [|exact (Hnot Hin)].
      subst. rewrite String.eqb_refl in E. discriminate.
Qed.

Lemma dict_set_fresh {V} (d : dict V) k v :
  ~ In k (dict_keys d) -> dict_set d k v = d ++ [(k, v)].
Proof.
  induction d as [|[k' v'] d IH]; simpl; intros H; [reflexivity|].
  destruct (String.eqb k' k) eqn:E.
  - apply String.eqb_eq in E. subst. exfalso. apply H. left. reflexivity.
  - rewrite IH; [reflexivity|]. intros Hin. apply H. right. exact Hin.
Qed.

Lemma dict_update_fresh {V} (items acc : dict V) :
  NoDup (dict_keys acc ++ dict_keys items) -> dict_update acc items = acc ++ items.
Proof.
  unfold dict_update. revert acc.
  induction items as [|[k v] items IH]; simpl; intros acc H.
  - rewrite app_nil_r. reflexivity.
  - assert (Hk : ~ In k (dict_keys acc)).
    { intros Hin. apply NoDup_remove_2 in H. apply H.
      apply in_or_app. left. exact Hin. }
    rewrite (dict_set_fresh acc k v Hk). rewrite IH.
    + rewrite <- app_assoc. reflexivity.
    + unfold dict_keys in *. rewrite map_app. simpl.
      rewrite <- app_assoc. exact H.
Qed.

Lemma distinct_NoDup keys : distinct keys = true -> NoDup keys.
Proof.
  induction keys as [|k keys IH]; simpl; intros H; [constructor|].
  apply andb_prop in H. destruct H as [Hk Hrest].
  constructor; [|exact (IH Hrest)].
  intros Hin. apply negb_true_iff in Hk.
  assert (Hex : existsb (String.eqb k) keys = true).
  { apply existsb_exists. exists k. split; [exact Hin | apply String.eqb_refl]. }
  rewrite Hex in Hk. discriminate.
Qed.

Lemma NoDup_keys_filter {V} (f : string * V -> bool) (items : dict V) :
  NoDup (dict_keys items) -> NoDup (dict_keys (filter f items)).
Proof.
  unfold dict_keys. induction items as [|[k v] items IH]; simpl; intros H; [constructor|].
  inversion H as [|? ? Hnot Hnd]; subst.
  destruct (f (k, v)); simpl; [|exact (IH Hnd)].
  constructor; [|exact (IH Hnd)].
  intros Hin. apply Hnot. apply in_map_iff in Hin.
  destruct Hin as [[k' v'] [Hk Hin]]. simpl in Hk. subst.
  apply filter_In in Hin. destruct Hin as [Hin _].
  apply in_map_iff. exists (k, v'). split; [reflexivity | exact Hin].
Qed.

Section Construction.

Variable Zone_new : json -> Exc Zone.t.
Variable HotWater_new : json -> Exc HotWater.t.

(** The loop over the zone configs appends one zone per config, in order,
    and keeps the identifier index a dict that holds the identifier of
    every zone. *)
Lemma add_zones_spec :
  forall zone_configs self,
    forallb (fun zc => is_ok (Zone_new zc)) zone_configs = true ->
    NoDup (dict_keys (zones_by_id self)) ->
    (forall z, In z (_zones self) -> In (Zone.zoneId z) (dict_keys (zones_by_id self))) ->
    exists self' new_zones,
      add_zones Zone_new zone_configs self = Ok self'
      /\ _zones self' = _zones self ++ new_zones
      /\ map Zone_new zone_configs = map Ok new_zones
      /\ NoDup (dict_keys (zones_by_id self'))
      /\ (forall z, In z (_zones self') ->
                    In (Zone.zoneId z) (dict_keys (zones_by_id self')))
      /\ hotwater self' = hotwater self
      /\ attrs self' = attrs self.
Proof.
  induction zone_configs as [|zc zcs IH]; intros self Hok Hnd Hin; simpl in *.
  - exists self, []. rewrite app_nil_r. repeat split; auto.
  - apply andb_prop in Hok. destruct Hok as [Hzc Hzcs].
    destruct (Zone_new zc) as [zone|] eqn:Ez; [|discriminate]. simpl.
    set (self1 := {| _zones := _zones self ++ [zone];
                     zones := dict_set (zones self) (Zone.name zone) zone;
                     zones_by_id := dict_set (zones_by_id self) (Zone.zoneId zone) zone;
                     hotwater := hotwater self;
                     attrs := attrs self |}).
    assert (Hnd1 : NoDup (dict_keys (zones_by_id self1))).
    { simpl. apply dict_keys_set_NoDup. exact Hnd. }
    assert (Hin1 : forall z, In z (_zones self1) ->
                     In (Zone.zoneId z) (dict_keys (zones_by_id self1))).
    { simpl. intros z Hz. apply dict_keys_set_In.
      apply in_app_or in Hz. destruct Hz as [Hz|[Hz|[]]].
      - right. exact (Hin z Hz).
      - left. subst. reflexivity. }
    destruct (IH self1 Hzcs Hnd1 Hin1)
      as [self' [new_zones [Hadd [Hz [Hmap [Hnd' [Hin' [Hhw Hat]]]]]]]].
    exists self', (zone :: new_zones). simpl in Hz.
    split; [exact Hadd|].
    split; [rewrite Hz, <- app_assoc; reflexivity|].
    split; [simpl; rewrite Hmap; reflexivity|].
    repeat split; auto.
Qed.

(** C4: from a valid config payload the constructor returns an instance
    with one zone per entry of the payload's zones list, in the order of
    the payload, and the identifier of every zone is a key of
    [zones_by_id] exactly once. *)
Theorem C4_construction :
  forall config : dict json,
    valid_config Zone_new HotWater_new config = true ->
    exists self zone_configs,
      ControlSystem_init Zone_new HotWater_new config = Ok self
      /\ dict_get config "zones" = Some (JArr zone_configs)
      /\ List.length (_zones self) = List.length zone_configs
      /\ map Zone_new zone_configs = map Ok (_zones self)
      /\ (forall zone, In zone (_zones self) ->
            count_occ string_dec (dict_keys (zones_by_id self)) (Zone.zoneId zone) = 1%nat).
Proof.
  intros config Hvalid. unfold valid_config in Hvalid.
  apply andb_prop in Hvalid. destruct Hvalid as [Hvalid Hdhw].
  apply andb_prop in Hvalid. destruct Hvalid as [Hvalid Hzs].
  apply andb_prop in Hvalid. destruct Hvalid as [Hvalid Htruthy].
  apply andb_prop in Hvalid. destruct Hvalid as [_ Hdistinct].
  destruct (dict_get config "systemId") as [sid|] eqn:Hsid; [|discriminate].
  destruct (dict_get config "zones") as [zones_value|] eqn:Hzones; [|discriminate].
  destruct zones_value as [| | | | |zone_configs|]; try discriminate.
  apply distinct_NoDup in Hdistinct.
  unfold ControlSystem_init, systemId. simpl attrs.
  rewrite dict_update_fresh by (simpl; apply NoDup_keys_filter; exact Hdistinct).
  simpl app. rewrite dict_get_filter by reflexivity.
  rewrite Hsid. simpl bindE. rewrite Htruthy.
  unfold subscript. rewrite Hzones. simpl bindE.
  match goal with
  | |- context [add_zones _ _ ?s] =>
      assert (Hspec := add_zones_spec zone_configs s Hzs (NoDup_nil _)
                         (fun z (Hz : In z []) => False_ind _ Hz))
  end.
  destruct Hspec as [self' [new_zones [Hadd [Hz [Hmap [Hnd [Hin [Hhw Hat]]]]]]]].
  rewrite Hadd. simpl bindE. simpl in Hz. subst new_zones.
  assert (Hlen : List.length (_zones self') = List.length zone_configs).
  { rewrite <- (length_map Zone_new zone_configs), Hmap, length_map. reflexivity. }
  assert (Honce : forall zone, In zone (_zones self') ->
            count_occ string_dec (dict_keys (zones_by_id self')) (Zone.zoneId zone) = 1%nat).
  { intros zone Hzone. apply NoDup_count_occ'; [exact Hnd | exact (Hin zone Hzone)]. }
  destruct (dict_get config "dhw") as [dhw_config|].
  - destruct (truthy dhw_config).
    + destruct (HotWater_new dhw_config) as [hw|]; [|discriminate]. simpl.
      eexists; exists zone_configs. split; [reflexivity|]. simpl. auto.
    + exists self', zone_configs. auto.
  - exists self', zone_configs. auto.
Qed.


(** C5: a config without the system identifier makes the constructor
    raise at the check of [self.systemId] (the configuration error, here
    the AttributeError of the missing attribute): the caller gets an
    exception and no instance. *)
Theorem C5_missing_system_id :
  forall config : dict json,
    dict_get config "systemId" = None ->
    ControlSystem_init Zone_new HotWater_new config = Raise (AttributeError "systemId")
    /\ is_ok (ControlSystem_init Zone_new HotWater_new config) = false.
Proof.
  intros config H.
  assert (E : ControlSystem_init Zone_new HotWater_new config
              = Raise (AttributeError "systemId")).
  { unfold ControlSystem_init, systemId. simpl.
    rewrite dict_get_update_None; [reflexivity | reflexivity |].
    apply dict_get_filter_None. exact H. }
  split; [exact E | rewrite E; reflexivity].
Qed.

End Construction.

Lemma C5_missing_system_id_witness :
  ControlSystem_init demo_Zone_new demo_HotWater_new
    [("zones", JArr [JObj [("zoneId", JStr "3432521"); ("name", JStr "Lounge")]])]
  = Raise (AttributeError "systemId").
Proof.
  apply (C5_missing_system_id demo_Zone_new demo_HotWater_new). reflexivity.
Defined.

Lemma C4_construction_witness :
  exists self,
    ControlSystem_init demo_Zone_new demo_HotWater_new demo_config = Ok self
    /\ List.length (_zones self) = 2%nat
    /\ (forall zone, In zone (_zones self) ->
          count_occ string_dec (dict_keys (zones_by_id self)) (Zone.zoneId zone) = 1%nat).
Proof.
  destruct (C4_construction demo_Zone_new demo_HotWater_new demo_config eq_refl)
    as [self [zone_configs [Hinit [Hzones [Hlen [_ Honce]]]]]].
  exists self. split; [exact Hinit|]. split; [|exact Honce].
  rewrite Hlen. simpl in Hzones. inversion Hzones. reflexivity.
Defined.

Example demo_construction :
  match ControlSystem_init demo_Zone_new demo_HotWater_new demo_config with
  | Ok self =>
      map Zone.name (_zones self) = ["Lounge"; "Bedroom"]
      /\ dict_keys (zones_by_id self) = ["3432521"; "3432522"]
      /\ dict_keys (zones self) = ["Lounge"; "Bedroom"]
      /\ option_map HotWater.dhwId (hotwater self) = Some "3933910"
  | Raise _ => False
  end.
Proof. simpl. repeat split. Qed.

(** A system identifier that is there but empty fails the assertion. *)
Example empty_system_id :
  ControlSystem_init demo_Zone_new demo_HotWater_new
    [("systemId", JStr EmptyString); ("zones", JArr [])]
  = Raise (AssertionError "Invalid config dict").
Proof. reflexivity. Qed.

(** Two zones of one name: both are in [_zones] and in the identifier
    index, and the name index keeps the one constructed last. *)
Example zones_of_one_name :
  match ControlSystem_init demo_Zone_new demo_HotWater_new
          [("systemId", JStr "1234567");
           ("zones", JArr [JObj [("zoneId", JStr "1"); ("name", JStr "Room")];
                           JObj [("zoneId", JStr "2"); ("name", JStr "Room")]])] with
  | Ok self =>
      map Zone.zoneId (_zones self) = ["1"; "2"]
      /\ dict_keys (zones_by_id self) = ["1"; "2"]
      /\ map (fun kv => (fst kv, Zone.zoneId (snd kv))) (zones self) = [("Room", "2")]
  | Raise _ => False
  end.
Proof. simpl. repeat split. Qed.

End construction_props.

(** ** controlsystem.py: mode changes, the temperature report, restore *)

Module operation_props.

Import Py http controlsystem tcs_props vol_facts.
Open Scope string_scope.
Open Scope list_scope.

Lemma for_each_app {S A} (xs ys : list A) (body : A -> M S unit) (s : S) :
  for_each (xs ++ ys) body s
  = match for_each xs body s with
    | (Ok _, s') => for_each ys body s'
    | (Raise e, s') => (Raise e, s')
    end.
Proof.
  revert s. induction xs as [|x xs IH]; intros s; simpl.
  - reflexivity.
  - unfold bind. destruct (body x s) as [[[]|e] s']; [apply IH | reflexivity].
Qed.

Section Operations.

Variable URL_BASE : string.
Variable API_STRFTIME : string.
Variable py_str : json -> string.
Variable json_dumps : json -> string.
Variable _headers : M World (dict json).
Variable location_status : ControlSystem -> M World ControlSystem.
Variable Zone_set_schedule : Zone.t -> string -> M World unit.
Variable HotWater_set_schedule : HotWater.t -> string -> M World unit.
Variable read_backup : string -> M World json.

Local Abbreviation _set_status := (_set_status URL_BASE API_STRFTIME py_str _headers).
Local Abbreviation temperatures := (temperatures location_status).
Local Abbreviation restore_one :=
  (restore_one json_dumps Zone_set_schedule HotWater_set_schedule).
Local Abbreviation zone_schedules_restore :=
  (zone_schedules_restore json_dumps Zone_set_schedule HotWater_set_schedule read_backup).

(** C1: once the client has its headers, [_set_status] puts exactly one
    request on the wire, a PUT whose body is SystemMode, TimeUntil and
    Permanent: without an until time TimeUntil is null and Permanent is
    true, with one TimeUntil is the until time in the API's format and
    Permanent is false.  The named operations are [_set_status] with their
    mode. *)
Theorem C1_mode_change_body :
  forall (self : ControlSystem) (mode : string) (until : option datetime)
         (w w1 w2 : World) (h1 h2 : dict json) (sid : json),
    _headers w = (Ok h1, w1) ->
    _headers w1 = (Ok h2, w2) ->
    systemId self = Ok sid ->
    (exists rq,
        trace (snd (_set_status self mode until w)) = trace w2 ++ [Sent rq]
        /\ method rq = "PUT"
        /\ payload rq
           = Some (match until with
                   | None => JObj [("SystemMode", JStr mode); ("TimeUntil", JNull);
                                   ("Permanent", JBool true)]
                   | Some u => JObj [("SystemMode", JStr mode);
                                     ("TimeUntil", JStr (strftime u API_STRFTIME));
                                     ("Permanent", JBool false)]
                   end))
    /\ set_status URL_BASE API_STRFTIME py_str _headers self mode until
       = _set_status self mode until
    /\ set_status_normal URL_BASE API_STRFTIME py_str _headers self
       = _set_status self "Auto" None
    /\ set_status_reset URL_BASE API_STRFTIME py_str _headers self
       = _set_status self "AutoWithReset" None
    /\ set_status_custom URL_BASE API_STRFTIME py_str _headers self until
       = _set_status self "Custom" until
    /\ set_status_eco URL_BASE API_STRFTIME py_str _headers self until
       = _set_status self "AutoWithEco" until
    /\ set_status_away URL_BASE API_STRFTIME py_str _headers self until
       = _set_status self "Away" until
    /\ set_status_dayoff URL_BASE API_STRFTIME py_str _headers self until
       = _set_status self "DayOff" until
    /\ set_status_heatingoff URL_BASE API_STRFTIME py_str _headers self until
       = _set_status self "HeatingOff" until.
Proof.
  intros self mode until w w1 w2 h1 h2 sid H1 H2 Hsid.
  split; [|repeat split].
  unfold controlsystem._set_status, bind, lift.
  rewrite H1, Hsid, H2. unfold send. simpl.
  eexists. split.
  - destruct (server w2 _) as [response|e]; simpl; reflexivity.
  - simpl. split; [reflexivity|].
    destruct until; reflexivity.
Qed.

(** The loop over the zones makes one entry per zone, in order. *)
Lemma zone_statuses_spec :
  forall zs result,
    forallb status_complete zs = true ->
    exists entries,
      zone_statuses zs result = Ok (result ++ entries)
      /\ Forall2 zone_entry_of zs entries.
Proof.
  induction zs as [|zone zs IH]; intros result Hok; simpl in *.
  - exists []. rewrite app_nil_r. split; [reflexivity | constructor].
  - apply andb_prop in Hok. destruct Hok as [Hzone Hzs].
    unfold status_complete in Hzone. unfold zone_status.
    destruct (getitem (Zone.setpointStatus zone) "targetHeatTemperature")
      as [setpoint|] eqn:Hsp; [|discriminate].
    destruct (getitem (Zone.temperatureStatus zone) "isAvailable")
      as [available|] eqn:Hav; [|discriminate].
    destruct available as [|available| | | | |]; try discriminate.
    simpl bindE.
    destruct available; simpl truthy; cbv iota.
    + destruct (getitem (Zone.temperatureStatus zone) "temperature")
        as [temp|] eqn:Htemp; [|discriminate].
      simpl bindE.
      match goal with
      | |- context [zone_statuses zs ?r] => destruct (IH r Hzs) as [entries [Hrun Hall]]
      end.
      eexists (_ :: entries). split.
      * rewrite Hrun, <- app_assoc. reflexivity.
      * constructor; [|exact Hall].
        exists temp, setpoint, true. repeat split; auto; try discriminate.
        intros ->. discriminate.
    + simpl bindE.
      match goal with
      | |- context [zone_statuses zs ?r] => destruct (IH r Hzs) as [entries [Hrun Hall]]
      end.
      eexists (_ :: entries). split.
      * rewrite Hrun, <- app_assoc. reflexivity.
      * constructor; [|exact Hall].
        exists JNull, setpoint, false. repeat split; auto; discriminate.
Qed.

(** The report of a system whose statuses are complete: when the refresh
    leaves the hot water unit, if there is one, with a temperature, and
    every zone with a target, an availability flag and, if it is
    available, a temperature that is not null, [temperatures] returns the
    entry of the hot water unit and then one entry per zone in the order
    of [_zones].  The hot water entry has thermostat DOMESTIC_HOT_WATER,
    an empty name and the empty string as setpoint; a zone entry has
    thermostat EMEA_ZONE, the zone's identifier, name and target, and a
    temp that is null exactly when the zone is not available. *)
Theorem temperatures_of_complete_statuses :
  forall (self self' : ControlSystem) (w w' : World),
    location_status self w = (Ok self', w') ->
    hotwater_complete (hotwater self') = true ->
    forallb status_complete (_zones self') = true ->
    exists dhw_entries zone_entries,
      temperatures self w = (Ok (self', dhw_entries ++ zone_entries), w')
      /\ dhw_entries_of (hotwater self') dhw_entries
      /\ Forall2 zone_entry_of (_zones self') zone_entries.
Proof.
  intros self self' w w' Hrefresh Hhw Hzones.
  unfold controlsystem.temperatures, bind, lift, ret. rewrite Hrefresh.
  unfold dhw_status, dhw_entries_of, hotwater_complete in *.
  destruct (hotwater self') as [hw|].
  - destruct (getitem (HotWater.temperatureStatus hw) "temperature")
      as [temp|] eqn:Htemp; [|discriminate]. simpl bindE.
    destruct (zone_statuses_spec (_zones self')
                [JObj [("thermostat", JStr "DOMESTIC_HOT_WATER");
                       ("id", JStr (HotWater.dhwId hw)); ("name", JStr "");
                       ("temp", temp); ("setpoint", JStr "")]] Hzones)
      as [entries [Hrun Hall]].
    rewrite Hrun. eexists; exists entries. split; [reflexivity|].
    split; [|exact Hall]. exists temp. split; reflexivity.
  - destruct (zone_statuses_spec (_zones self') [] Hzones) as [entries [Hrun Hall]].
    rewrite Hrun. exists [], entries. repeat split; auto.
Qed.

(** C8: when the backup holds an entry whose identifier is neither the
    hot water unit's nor a zone's, and the entries before it were
    restored, [zone_schedules_restore] raises the KeyError of that
    identifier and leaves the world as the restore of the entries before
    it left it: nothing after the entry is applied. *)
Theorem C8_restore_fails_fast :
  forall (self : ControlSystem) (filename : string) (w w0 w1 : World)
         (before after : list (string * json)) (zone_id : string)
         (entry name schedule : json),
    read_backup filename w = (Ok (JObj (before ++ (zone_id, entry) :: after)), w0) ->
    getitem entry "name" = Ok name ->
    getitem entry "schedule" = Ok schedule ->
    unknown_id self zone_id = true ->
    for_each before (restore_one self) w0 = (Ok tt, w1) ->
    zone_schedules_restore self filename w = (Raise (KeyError zone_id), w1).
Proof.
  intros self filename w w0 w1 before after zone_id entry name schedule
         Hread Hname Hsched Hunknown Hbefore.
  assert (Hone : restore_one self (zone_id, entry) w1 = (Raise (KeyError zone_id), w1)).
  { unfold controlsystem.restore_one, bind, lift. rewrite Hname, Hsched.
    unfold unknown_id in Hunknown. apply andb_prop in Hunknown.
    destruct Hunknown as [Hhw Hzone].
    apply negb_true_iff in Hhw. apply negb_true_iff in Hzone.
    unfold subscript. unfold dict_has in Hzone.
    destruct (dict_get (zones_by_id self) zone_id); [discriminate|].
    destruct (hotwater self) as [hw|]; [rewrite Hhw|]; reflexivity. }
  unfold controlsystem.zone_schedules_restore.
  rewrite (bind_ok _ _ _ Hread).
  rewrite (bind_ok _ _ _ (eq_refl : lift (py_items (JObj _)) w0 = (Ok _, w0))).
  rewrite for_each_app, Hbefore. cbn [for_each].
  apply bind_raise. exact Hone.
Qed.

End Operations.

Lemma C1_mode_change_body_witness :
  exists rq,
    trace (snd (_set_status "https://tcc/api" "%Y-%m-%dT%H:%M:%SZ" demo_py_str
                  demo_headers demo_tcs "Away" (Some demo_until) quiet_world))
    = [Sent rq]
    /\ payload rq
       = Some (JObj [("SystemMode", JStr "Away");
                     ("TimeUntil", JStr "2023-11-04T18:30:15Z");
                     ("Permanent", JBool false)]).
Proof.
  destruct (@C1_mode_change_body "https://tcc/api" "%Y-%m-%dT%H:%M:%SZ" demo_py_str
              demo_headers demo_tcs "Away" (Some demo_until)
              quiet_world quiet_world quiet_world
              [("Authorization", JStr "bearer token")]
              [("Authorization", JStr "bearer token")]
              (JStr "1234567") eq_refl eq_refl eq_refl)
    as [[rq [Htrace [_ Hbody]]] _].
  exists rq. split; [exact Htrace | exact Hbody].
Defined.

Example permanent_mode_change :
  requests_of
    (trace (snd (set_status_heatingoff "https://tcc/api" "%Y-%m-%dT%H:%M:%SZ" demo_py_str
                   demo_headers demo_tcs None quiet_world)))
  = [{| method := "PUT";
        url := "https://tcc/api/temperatureControlSystem/1234567/mode";
        payload := Some (JObj [("SystemMode", JStr "HeatingOff"); ("TimeUntil", JNull);
                               ("Permanent", JBool true)]);
        request_headers := JObj [("Authorization", JStr "bearer token")] |}].
Proof. reflexivity. Qed.

Lemma temperatures_of_complete_statuses_witness :
  exists dhw_entries zone_entries,
    temperatures (fun _ => ret demo_tcs) demo_tcs quiet_world
    = (Ok (demo_tcs, dhw_entries ++ zone_entries), quiet_world)
    /\ dhw_entries_of (Some boiler) dhw_entries
    /\ Forall2 zone_entry_of [lounge; bedroom] zone_entries.
Proof.
  exact (@temperatures_of_complete_statuses (fun _ => ret demo_tcs) demo_tcs demo_tcs
           quiet_world quiet_world eq_refl eq_refl eq_refl).
Defined.

(** C3: the claim fails where the hot water unit has no temperature.
    The refresh leaves the two zones of the demo complete and the hot
    water unit with the status of a sensor that is not available, an
    availability flag and no temperature.  [temperatures] returns no
    list then: it raises the KeyError of the temperature.  The zone path
    looks at the availability flag before it reads the temperature; the
    hot water path reads the temperature without looking. *)
Theorem C3_hot_water_without_temperature :
  hotwater silent_tcs = Some silent_boiler
  /\ HotWater.temperatureStatus silent_boiler = JObj [("isAvailable", JBool false)]
  /\ forallb status_complete (_zones silent_tcs) = true
  /\ temperatures (fun _ => ret silent_tcs) silent_tcs quiet_world
     = (Raise (KeyError "temperature"), quiet_world).
Proof. repeat split. Qed.

(** The scenario of the specification: two zones and a DHW block. *)
Example temperatures_of_the_demo :
  fst (temperatures (fun _ => ret demo_tcs) demo_tcs quiet_world)
  = Ok (demo_tcs,
        [JObj [("thermostat", JStr "DOMESTIC_HOT_WATER"); ("id", JStr "3933910");
               ("name", JStr ""); ("temp", JFloat (FFin 55)); ("setpoint", JStr "")];
         JObj [("thermostat", JStr "EMEA_ZONE"); ("id", JStr "3432521");
               ("name", JStr "Lounge"); ("temp", JFloat (FFin (41 # 2)));
               ("setpoint", JFloat (FFin 21))];
         JObj [("thermostat", JStr "EMEA_ZONE"); ("id", JStr "3432522");
               ("name", JStr "Bedroom"); ("temp", JNull);
               ("setpoint", JFloat (FFin 17))]]).
Proof. reflexivity. Qed.

Lemma C8_restore_fails_fast_witness :
  fst (zone_schedules_restore demo_json_dumps
         (fun zone => demo_set_schedule (Zone.zoneId zone))
         (fun hw => demo_set_schedule (HotWater.zoneId hw))
         (fun _ => ret demo_backup) demo_tcs "schedules.json" quiet_world)
  = Raise (KeyError "9999999")
  /\ requests_of
       (trace (snd (zone_schedules_restore demo_json_dumps
                      (fun zone => demo_set_schedule (Zone.zoneId zone))
                      (fun hw => demo_set_schedule (HotWater.zoneId hw))
                      (fun _ => ret demo_backup) demo_tcs "schedules.json" quiet_world)))
     = [{| method := "PUT"; url := "3432521"; payload := Some (JStr "lounge schedule");
           request_headers := JNull |}].
Proof.
  pose proof
    (@C8_restore_fails_fast demo_json_dumps
       (fun zone => demo_set_schedule (Zone.zoneId zone))
       (fun hw => demo_set_schedule (HotWater.zoneId hw))
       (fun _ => ret demo_backup) demo_tcs "schedules.json"
       quiet_world quiet_world
       (snd (for_each
               [("3432521", JObj [("name", JStr "Lounge");
                                  ("schedule", JStr "lounge schedule")])]
               (restore_one demo_json_dumps
                  (fun zone => demo_set_schedule (Zone.zoneId zone))
                  (fun hw => demo_set_schedule (HotWater.zoneId hw)) demo_tcs)
               quiet_world))
       [("3432521", JObj [("name", JStr "Lounge"); ("schedule", JStr "lounge schedule")])]
       [("3432522", JObj [("name", JStr "Bedroom"); ("schedule", JStr "bedroom schedule")])]
       "9999999"
       (JObj [("name", JStr "Attic"); ("schedule", JStr "attic schedule")])
       (JStr "Attic") (JStr "attic schedule")
       eq_refl eq_refl eq_refl eq_refl eq_refl) as H.
  rewrite H. split; reflexivity.
Defined.

End operation_props.

(** ** evohomeclient: what a method puts in the trace *)

Module client_facts.

Import Py http evohomeclient client_props.
Open Scope string_scope.
Open Scope list_scope.

Lemma emits_ret {A} P (a : A) : emits P (ret a).
Proof. intros s. exists []. simpl. rewrite app_nil_r. auto. Qed.

Lemma emits_raise {A} P e : emits P (@raise State A e).
Proof. intros s. exists []. simpl. rewrite app_nil_r. auto. Qed.

Lemma emits_lift {A} P (r : Exc A) : emits P (lift r).
Proof. intros s. exists []. simpl. rewrite app_nil_r. auto. Qed.

Lemma emits_get_self P : emits P get_self.
Proof. intros s. exists []. simpl. rewrite app_nil_r. auto. Qed.

Lemma emits_set_self P f : emits P (set_self f).
Proof. intros s. exists []. simpl. rewrite app_nil_r. auto. Qed.

Lemma emits_bind {A B} P (m : M State A) (k : A -> M State B) :
  emits P m -> (forall a, emits P (k a)) -> emits P (bind m k).
Proof.
  intros Hm Hk s. unfold bind.
  destruct (Hm s) as [e1 [H1 F1]].
  destruct (m s) as [[a|e] s']; simpl in H1.
  - destruct (Hk a s') as [e2 [H2 F2]].
    exists (e1 ++ e2). rewrite H2, H1, app_assoc.
    split; [reflexivity | apply Forall_app; auto].
  - exists e1. simpl. auto.
Qed.

Lemma emits_request P method url data headers :
  P (Sent {| method := method; url := url; payload := data;
             request_headers := headers |}) ->
  emits P (request method url data headers).
Proof.
  intros HP s. eexists [_]. unfold request, io, send. simpl.
  split; [reflexivity | constructor; [exact HP | constructor]].
Qed.

Lemma emits_sleep P n : P (Slept n) -> emits P (io (sleep n)).
Proof.
  intros HP s. exists [Slept n]. unfold io, sleep. simpl.
  split; [reflexivity | constructor; [exact HP | constructor]].
Qed.

Lemma emits_for_each {A} P (xs : list A) (body : A -> M State unit) :
  (forall x, emits P (body x)) -> emits P (for_each xs body).
Proof.
  intros Hbody. induction xs as [|x xs IH]; simpl.
  - apply emits_ret.
  - apply emits_bind; [apply Hbody | intros _; exact IH].
Qed.

Ltac emits_step :=
  first
    [ apply emits_ret
    | apply emits_raise
    | apply emits_lift
    | apply emits_get_self
    | apply emits_set_self
    | apply emits_bind; [|intros ?]
    | apply emits_for_each; intros ?
    | match goal with
      | |- emits _ (if ?c then _ else _) => destruct c
      | |- emits _ (match ?x with _ => _ end) => destruct x
      end ].

Section Trace.

Variable py_str : json -> string.
Variable P : event -> Prop.
Hypothesis P_get : forall rq, method rq = "GET" -> P (Sent rq).
Hypothesis P_post : forall rq, method rq = "POST" -> P (Sent rq).

Lemma emits_populate_user_info : emits P _populate_user_info.
Proof.
  unfold _populate_user_info, _convert.
  repeat emits_step.
  apply emits_request. apply P_post. reflexivity.
Qed.

Lemma emits_index_device device : emits P (index_device device).
Proof. unfold index_device. repeat emits_step. Qed.

Lemma emits_populate_full_data force : emits P (_populate_full_data py_str force).
Proof.
  unfold _populate_full_data, _convert.
  apply emits_bind; [apply emits_get_self | intros c].
  destruct (is_None (full_data c) || force); [|apply emits_ret].
  apply emits_bind; [apply emits_populate_user_info | intros _].
  repeat first [ apply emits_index_device | emits_step ].
  apply emits_request. apply P_get. reflexivity.
Qed.

Lemma emits_get_task_status task_id : emits P (_get_task_status py_str task_id).
Proof.
  unfold _get_task_status, _convert.
  apply emits_bind; [apply emits_populate_full_data | intros _].
  repeat emits_step.
  apply emits_request. apply P_get. reflexivity.
Qed.

Lemma emits_get_task_id response : emits P (_get_task_id response).
Proof. unfold _get_task_id, _convert. repeat emits_step. Qed.

Lemma emits_get_device_id zone : emits P (_get_device_id py_str zone).
Proof. unfold _get_device_id, _get_device. repeat emits_step. Qed.

Lemma emits_get_dhw_zone : emits P _get_dhw_zone.
Proof. unfold _get_dhw_zone. repeat emits_step. Qed.

Lemma emits_wait_for_task fuel task_id :
  P (Slept 1) -> emits P (wait_for_task py_str fuel task_id).
Proof.
  intros P_sleep. induction fuel as [|fuel IH]; simpl.
  - apply emits_ret.
  - apply emits_bind; [apply emits_get_task_status | intros state].
    destruct (negb (py_eq state (JStr "Succeeded"))); [|apply emits_ret].
    apply emits_bind; [apply emits_sleep; exact P_sleep | intros _; exact IH].
Qed.

End Trace.

Lemma populated_noop py_str st :
  is_None (full_data (self st)) = false ->
  _populate_full_data py_str false st = (Ok tt, st).
Proof.
  intros H. unfold _populate_full_data, bind, get_self. rewrite H. reflexivity.
Qed.

Lemma requests_of_app t u : requests_of (t ++ u) = requests_of t ++ requests_of u.
Proof. unfold requests_of. apply flat_map_app. Qed.

Lemma seconds_slept_app t u :
  seconds_slept (t ++ u) = (seconds_slept t + seconds_slept u)%Z.
Proof.
  unfold seconds_slept. induction t as [|e t IH]; simpl; [reflexivity|].
  destruct e; rewrite IH; lia.
Qed.

Lemma seconds_slept_requests events :
  Forall is_request events -> seconds_slept events = 0%Z.
Proof.
  induction 1 as [|e events He _ IH]; [reflexivity|].
  destruct e; [exact IH | contradiction].
Qed.

End client_facts.

(** ** evohomeclient: the wait for the task *)

Module polling_props.

Import Py http evohomeclient client_props client_facts vol_facts.
Open Scope string_scope.
Open Scope list_scope.

Section Polling.

Variable py_str : json -> string.

Lemma perform_submit_wait fuel op :
  perform py_str fuel op
  = bind (submit py_str op) (wait_for_task py_str fuel).
Proof. destruct op; reflexivity. Qed.

Lemma get_task_status_no_sleep task_id st :
  seconds_slept (trace (world (snd (_get_task_status py_str task_id st))))
  = seconds_slept (trace (world st)).
Proof.
  destruct (@emits_get_task_status py_str is_request
              (fun _ _ => I) (fun _ _ => I) task_id st) as [events [Ht Hall]].
  rewrite Ht, seconds_slept_app, (seconds_slept_requests Hall). lia.
Qed.

(** After [n] polls that found the task pending the loop has used [n]
    turns and goes on from there. *)
Lemma wait_for_task_pending :
  forall n task_id st0 stn,
    pending py_str n task_id st0 = Some stn ->
    forall k, wait_for_task py_str (n + k) task_id st0
              = wait_for_task py_str k task_id stn.
Proof.
  induction n as [|n IH]; simpl; intros task_id st0 stn Hp k.
  - inversion Hp. reflexivity.
  - unfold bind at 1.
    destruct (_get_task_status py_str task_id st0) as [[state|e] st'];
      [|discriminate].
    destruct (py_eq state (JStr "Succeeded")); [discriminate|].
    simpl negb. cbv iota. unfold bind at 1.
    change (io (sleep 1) st') with (Ok tt, snd (io (sleep 1) st')).
    apply IH. exact Hp.
Qed.

Lemma pending_slept :
  forall n task_id st0 stn,
    pending py_str n task_id st0 = Some stn ->
    seconds_slept (trace (world stn))
    = (seconds_slept (trace (world st0)) + Z.of_nat n)%Z.
Proof.
  induction n as [|n IH]; intros task_id st0 stn Hp.
  - simpl in Hp. inversion Hp. simpl. lia.
  - simpl in Hp.
    pose proof (get_task_status_no_sleep task_id st0) as Hquiet.
    destruct (_get_task_status py_str task_id st0) as [[state|e] st'];
      [|discriminate].
    destruct (py_eq state (JStr "Succeeded")); [discriminate|].
    apply IH in Hp. rewrite Hp. simpl in Hquiet.
    unfold io, sleep. simpl. rewrite seconds_slept_app, Hquiet. simpl. lia.
Qed.

(** The loop returns only from a poll that answered Succeeded. *)
Lemma wait_for_task_returns :
  forall fuel task_id st0 st',
    wait_for_task py_str fuel task_id st0 = (Ok (Some tt), st') ->
    exists n stn state,
      (n < fuel)%nat
      /\ pending py_str n task_id st0 = Some stn
      /\ _get_task_status py_str task_id stn = (Ok state, st')
      /\ py_eq state (JStr "Succeeded") = true.
Proof.
  induction fuel as [|fuel IH]; simpl; intros task_id st0 st' H.
  - discriminate.
  - unfold bind at 1 in H.
    destruct (_get_task_status py_str task_id st0) as [[state|e] st1] eqn:E;
      [|discriminate].
    destruct (py_eq state (JStr "Succeeded")) eqn:Es; simpl in H.
    + inversion H; subst. exists 0%nat, st0, state.
      repeat split; auto. lia.
    + unfold bind at 1 in H.
      change (io (sleep 1) st1) with (Ok tt, snd (io (sleep 1) st1)) in H.
      destruct (IH _ _ _ H) as [n [stn [state' [Hlt [Hp [Hs Hok]]]]]].
      exists (S n), stn, state'. simpl. rewrite E, Es.
      repeat split; auto. lia.
Qed.

(** C9: a write that was submitted waits for its task.  After any number
    [n] of polls that found the task neither Succeeded nor failing, the
    write is still running and has slept [n] seconds, one after each
    poll; it returns at the first poll that answers Succeeded, and a poll
    that raises ends it with that exception.  It never returns otherwise:
    a write that returned was ended by a poll that answered Succeeded. *)
Theorem C9_polling :
  (forall (op : write) (st st0 : State) (task_id : json),
      submit py_str op st = (Ok task_id, st0) ->
      forall (n : nat) (stn : State),
        pending py_str n task_id st0 = Some stn ->
        perform py_str n op st = (Ok None, stn)
        /\ seconds_slept (trace (world stn))
           = (seconds_slept (trace (world st0)) + Z.of_nat n)%Z
        /\ (forall state st',
              _get_task_status py_str task_id stn = (Ok state, st') ->
              py_eq state (JStr "Succeeded") = true ->
              forall fuel, (n < fuel)%nat ->
                perform py_str fuel op st = (Ok (Some tt), st'))
        /\ (forall e st',
              _get_task_status py_str task_id stn = (Raise e, st') ->
              forall fuel, (n < fuel)%nat ->
                perform py_str fuel op st = (Raise e, st')))
  /\
  (forall (op : write) (fuel : nat) (st st' : State),
      perform py_str fuel op st = (Ok (Some tt), st') ->
      exists task_id st0 n stn state,
        submit py_str op st = (Ok task_id, st0)
        /\ (n < fuel)%nat
        /\ pending py_str n task_id st0 = Some stn
        /\ _get_task_status py_str task_id stn = (Ok state, st')
        /\ py_eq state (JStr "Succeeded") = true).
Proof.
  split.
  - intros op st st0 task_id Hsubmit n stn Hp.
    pose proof (wait_for_task_pending _ _ _ Hp) as Hwait.
    split; [|split; [|split]].
    + rewrite perform_submit_wait, (bind_ok _ _ _ Hsubmit).
      rewrite <- (Nat.add_0_r n) at 1. rewrite Hwait. reflexivity.
    + exact (pending_slept _ _ _ Hp).
    + intros state st' Hs Hok fuel Hlt.
      rewrite perform_submit_wait, (bind_ok _ _ _ Hsubmit).
      replace fuel with (n + S (fuel - S n))%nat by lia.
      rewrite Hwait. simpl. rewrite (bind_ok _ _ _ Hs), Hok. reflexivity.
    + intros e st' Hs fuel Hlt.
      rewrite perform_submit_wait, (bind_ok _ _ _ Hsubmit).
      replace fuel with (n + S (fuel - S n))%nat by lia.
      rewrite Hwait. simpl. apply bind_raise. exact Hs.
  - intros op fuel st st' H.
    rewrite perform_submit_wait in H. unfold bind at 1 in H.
    destruct (submit py_str op st) as [[task_id|e] st0] eqn:Hsubmit; [|discriminate].
    destruct (wait_for_task_returns _ _ _ H) as [n [stn [state [Hlt [Hp [Hs Hok]]]]]].
    exists task_id, st0, n, stn, state. auto.
Qed.

End Polling.

Lemma C9_polling_witness :
  fst (perform demo_str 5 (SetStatus "Away" (Some evening)) demo_state) = Ok (Some tt)
  /\ seconds_slept
       (trace (world (snd (perform demo_str 5 (SetStatus "Away" (Some evening)) demo_state))))
     = 2%Z
  /\ fst (perform demo_str 2 (SetStatus "Away" (Some evening)) demo_state) = Ok None.
Proof.
  pose (op := SetStatus "Away" (Some evening)).
  pose (st0 := snd (submit demo_str op demo_state)).
  pose (stn := match pending demo_str 2 (JInt 7) st0 with Some s => s | None => st0 end).
  destruct (proj1 (C9_polling demo_str) op demo_state st0 (JInt 7) eq_refl 2%nat stn eq_refl)
    as [Hrun [Hslept [Hdone _]]].
  specialize (Hdone (JStr "Succeeded") (snd (_get_task_status demo_str (JInt 7) stn))
                eq_refl eq_refl 5%nat ltac:(lia)).
  fold op. rewrite Hdone, Hrun. repeat split.
Defined.

(** No maximum retry count: against a server whose task stays Pending
    the write is still running after any number of turns. *)
Lemma stuck_poll py_str task_id st :
  self st = demo_client -> server (world st) = pending_server ->
  exists st',
    _get_task_status py_str task_id st = (Ok (JStr "Pending"), st')
    /\ self st' = demo_client /\ server (world st') = pending_server.
Proof.
  destruct st as [c [t srv]]. simpl. intros -> ->.
  unfold _get_task_status.
  match goal with
  | |- context [bind _ _ ?s] =>
      rewrite (bind_ok _ _ _ (populated_noop py_str s eq_refl))
  end.
  unfold bind, get_self, request, io, send. simpl.
  rewrite requests_of_app. unfold pending_server. rewrite rev_app_distr. simpl.
  eexists. split; [reflexivity|]. split; reflexivity.
Qed.

Lemma stuck_pending py_str task_id :
  forall n st,
    self st = demo_client -> server (world st) = pending_server ->
    exists stn, pending py_str n task_id st = Some stn.
Proof.
  induction n as [|n IH]; intros st Hself Hserver; simpl.
  - eauto.
  - destruct (stuck_poll py_str task_id st Hself Hserver) as [st' [Hpoll [Hs Hv]]].
    rewrite Hpoll. simpl. apply IH; [exact Hs | exact Hv].
Qed.

Example stuck_write_never_returns :
  forall fuel,
    fst (perform demo_str fuel (SetStatus "Away" None) stuck_state) = Ok None.
Proof.
  intros fuel.
  pose (st0 := snd (submit demo_str (SetStatus "Away" None) stuck_state)).
  destruct (stuck_pending demo_str (JInt 7) fuel st0 eq_refl eq_refl) as [stn Hp].
  rewrite perform_submit_wait.
  rewrite (bind_ok _ _ _ (eq_refl : submit demo_str (SetStatus "Away" None) stuck_state
                                    = (Ok (JInt 7), st0))).
  rewrite <- (Nat.add_0_r fuel), (wait_for_task_pending _ _ _ _ Hp). reflexivity.
Qed.

(** The requests and the sleeps of the write, in order. *)
Example trace_of_the_demo_write :
  map (fun e => match e with Sent rq => method rq | Slept _ => "sleep" end)
      (trace (world (snd (perform demo_str 5 (SetStatus "Away" (Some evening)) demo_state))))
  = ["PUT"; "GET"; "sleep"; "GET"; "sleep"; "GET"].
Proof. reflexivity. Qed.

End polling_props.

(** ** evohomeclient: the end time of a mode change and of an override *)

Module until_props.

Import Py http evohomeclient client_props client_facts vol_facts.
Open Scope string_scope.

Lemma digit_char_inj a b :
  (a < 10)%nat -> (b < 10)%nat -> digit_char a = digit_char b -> a = b.
Proof.
  unfold digit_char. intros Ha Hb H.
  apply (f_equal nat_of_ascii) in H.
  rewrite !nat_ascii_embedding in H
    by (pose proof (Nat.mod_upper_bound a 10); pose proof (Nat.mod_upper_bound b 10); lia).
  rewrite !Nat.mod_small in H by assumption. lia.
Qed.

Lemma pad2_inj a b : (a < 100)%nat -> (b < 100)%nat -> pad2 a = pad2 b -> a = b.
Proof.
  unfold pad2. intros Ha Hb H. inversion H as [[Htens Hunits]].
  assert (Hq : (a / 10 = b / 10)%nat).
  { apply digit_char_inj; auto; apply Nat.Div0.div_lt_upper_bound; lia. }
  assert (Hr : (a mod 10 = b mod 10)%nat).
  { apply digit_char_inj; try (apply Nat.mod_upper_bound; lia).
    unfold digit_char in *. rewrite !Nat.Div0.mod_mod. exact Hunits. }
  rewrite (Nat.div_mod_eq a 10), (Nat.div_mod_eq b 10). lia.
Qed.

Lemma append_inv_head s x y : s ++ x = s ++ y -> x = y.
Proof.
  induction s as [|c s IH]; simpl; intros H; [exact H|].
  inversion H. auto.
Qed.

(** Two times of the same day print the same only if they are the same
    time of day. *)
Lemma full_stamp_time d d' :
  valid_time d -> valid_time d' ->
  year d' = year d -> month d' = month d -> day d' = day d ->
  full_stamp d' = full_stamp d ->
  hour d' = hour d /\ minute d' = minute d /\ second d' = second d.
Proof.
  intros [Hh [Hm Hs]] [Hh' [Hm' Hs']] Hy Hmo Hd H.
  unfold full_stamp in H. rewrite Hy, Hmo, Hd in H.
  apply append_inv_head in H.
  unfold pad2 in H. cbn [append] in H.
  assert (Eh : pad2 (hour d') = pad2 (hour d)) by (unfold pad2; congruence).
  assert (Em : pad2 (minute d') = pad2 (minute d)) by (unfold pad2; congruence).
  assert (Es : pad2 (second d') = pad2 (second d)) by (unfold pad2; congruence).
  apply pad2_inj in Eh; [|lia|lia].
  apply pad2_inj in Em; [|lia|lia].
  apply pad2_inj in Es; [|lia|lia].
  auto.
Qed.

Lemma valid_datetime_time d : valid_datetime d -> valid_time d.
Proof. unfold valid_datetime, valid_time. tauto. Qed.

Lemma append_assoc_str (a b c : string) : (a ++ b) ++ c = a ++ (b ++ c).
Proof.
  induction a as [|x a IH]; simpl; [reflexivity|]. rewrite IH. reflexivity.
Qed.

Section Until.

Variable py_str : json -> string.

(** A request followed by anything leaves the request in the trace. *)
Lemma request_first {A} method url data headers (k : Response -> M State A) st :
  (forall r, emits (fun _ => True) (k r)) ->
  exists events,
    trace (world (snd (bind (request method url data headers) k st)))
    = (trace (world st)
       ++ Sent {| method := method; url := url; payload := data;
                  request_headers := headers |}
          :: events)%list.
Proof.
  intros Hk. unfold bind, request, io, send. simpl.
  destruct (server (world st) _) as [r|e]; simpl.
  - match goal with
    | |- context [k r ?s] => destruct (Hk r s) as [events [Ht _]]
    end.
    rewrite Ht. simpl. rewrite <- app_assoc. exists events. reflexivity.
  - exists []. reflexivity.
Qed.

(** What follows a computation leaves its first request in the trace. *)
Lemma then_keeps_first {A B} (m : M State A) (k : A -> M State B) st rq events :
  trace (world (snd (m st))) = (trace (world st) ++ Sent rq :: events)%list ->
  (forall a, emits (fun _ => True) (k a)) ->
  exists events',
    trace (world (snd (bind m k st))) = (trace (world st) ++ Sent rq :: events')%list.
Proof.
  intros Ht Hk. unfold bind.
  destruct (m st) as [[a|e] s1]; simpl in Ht |- *.
  - destruct (Hk a s1) as [more [H _]].
    rewrite H, Ht, <- app_assoc. simpl. exists (events ++ more)%list. reflexivity.
  - exists events. exact Ht.
Qed.

Lemma any_wait fuel task_id : emits (fun _ => True) (wait_for_task py_str fuel task_id).
Proof. apply emits_wait_for_task; auto. Qed.

Lemma any_after_put response :
  emits (fun _ => True)
    (bind (lift (raise_for_status response)) (fun _ => _get_task_id response)).
Proof.
  apply emits_bind; [apply emits_lift | intros _]. apply emits_get_task_id.
Qed.

(** The three writes of a client that has its installation put their
    request on the wire. *)
Lemma status_put_sent status until st :
  is_None (full_data (self st)) = false ->
  exists rq events,
    trace (world (snd (_set_status_put py_str status (Some until) st)))
    = (trace (world st) ++ Sent rq :: events)%list
    /\ method rq = "PUT"
    /\ payload rq = Some (quick_action_body status until).
Proof.
  intros Hpop. unfold _set_status_put.
  rewrite (bind_ok _ _ _ (populated_noop py_str st Hpop)).
  unfold bind at 1, get_self.
  match goal with
  | |- context [bind (request ?m ?u ?d ?h) ?k st] =>
      destruct (@request_first _ m u d h k st any_after_put) as [events Ht]
  end.
  eexists; exists events. split; [exact Ht|]. split; reflexivity.
Qed.

Lemma setpoint_put_sent zone data st device_id :
  is_None (full_data (self st)) = false ->
  _get_device_id py_str zone st = (Ok device_id, st) ->
  exists rq events,
    trace (world (snd (_set_heat_setpoint_put py_str zone data st)))
    = (trace (world st) ++ Sent rq :: events)%list
    /\ method rq = "PUT"
    /\ payload rq = Some data.
Proof.
  intros Hpop Hdevice. unfold _set_heat_setpoint_put.
  rewrite (bind_ok _ _ _ (populated_noop py_str st Hpop)).
  rewrite (bind_ok _ _ _ Hdevice).
  unfold bind at 1, get_self.
  match goal with
  | |- context [bind (request ?m ?u ?d ?h) ?k st] =>
      destruct (@request_first _ m u d h k st any_after_put) as [events Ht]
  end.
  eexists; exists events. split; [exact Ht|]. split; reflexivity.
Qed.

Lemma dhw_put_sent status mode next_time st target :
  is_None (full_data (self st)) = false ->
  _get_dhw_zone st = (Ok target, st) ->
  exists rq events,
    trace (world (snd (_set_dhw_put py_str status mode next_time st)))
    = (trace (world st) ++ Sent rq :: events)%list
    /\ method rq = "PUT"
    /\ payload rq
       = Some (JObj [("Status", JStr status); ("Mode", mode); ("NextTime", next_time);
                     ("SpecialModes", JNull); ("HeatSetpoint", JNull);
                     ("CoolSetpoint", JNull)]).
Proof.
  intros Hpop Hzone. unfold _set_dhw_put.
  rewrite (bind_ok _ _ _ (populated_noop py_str st Hpop)).
  rewrite (bind_ok _ _ _ Hzone).
  unfold bind at 1, get_self.
  match goal with
  | |- context [bind (request ?m ?u ?d ?h) ?k st] =>
      destruct (@request_first _ m u d h k st any_after_put) as [events Ht]
  end.
  eexists; exists events. split; [exact Ht|]. split; reflexivity.
Qed.

Lemma put_body_get body rq : method rq = "GET" -> put_body_is body (Sent rq).
Proof. intros H Hput. simpl in *. rewrite H in Hput. discriminate. Qed.

Lemma put_body_post body rq : method rq = "POST" -> put_body_is body (Sent rq).
Proof. intros H Hput. simpl in *. rewrite H in Hput. discriminate. Qed.

(** C10: for an until time that is a datetime of Python.  The body of a
    mode change has as QuickActionNextTime the until time printed with
    the format of the date followed by T00:00:00Z: every PUT that
    [_set_status] sends has this body, a client that has its installation
    does send it, and the body is the same for any two until times of the
    same day, whatever their hour, minute and second.  The zone override
    and the two hot water overrides print the until time with the format
    of date and time: every PUT they send has this NextTime, a client
    that has its installation and finds the device does send it, and two
    times of the same day give the same NextTime only if hour, minute
    and second agree. *)
Theorem C10_mode_change_date_only :
  forall (status : string) (until : datetime),
    valid_datetime until ->
    (midnight_stamp until = strftime until "%Y-%m-%dT00:00:00Z"
     /\ full_stamp until = strftime until "%Y-%m-%dT%H:%M:%SZ")
    /\ (forall fuel,
          emits (put_body_is (quick_action_body status until))
                (_set_status py_str fuel status (Some until)))
    /\ (forall fuel st,
          is_None (full_data (self st)) = false ->
          exists rq events,
            trace (world (snd (_set_status py_str fuel status (Some until) st)))
            = (trace (world st) ++ Sent rq :: events)%list
            /\ method rq = "PUT"
            /\ payload rq
               = Some (JObj [("QuickAction", JStr status);
                             ("QuickActionNextTime", JStr (midnight_stamp until))]))
    /\ (forall until',
          year until' = year until -> month until' = month until ->
          day until' = day until ->
          quick_action_body status until' = quick_action_body status until)
    /\ (forall fuel zone temperature,
          emits (put_body_is (temporary_body temperature until))
                (set_temperature py_str fuel zone temperature (Some until)))
    /\ (forall fuel st zone temperature device_id,
          is_None (full_data (self st)) = false ->
          _get_device_id py_str zone st = (Ok device_id, st) ->
          exists rq events,
            trace (world (snd (set_temperature py_str fuel zone temperature
                                 (Some until) st)))
            = (trace (world st) ++ Sent rq :: events)%list
            /\ method rq = "PUT"
            /\ payload rq
               = Some (JObj [("Value", temperature); ("Status", JStr "Temporary");
                             ("NextTime", JStr (full_stamp until))]))
    /\ (forall fuel,
          emits (put_body_is (dhw_body "DHWOn" until))
                (set_dhw_on py_str fuel (Some until))
          /\ emits (put_body_is (dhw_body "DHWOff" until))
                   (set_dhw_off py_str fuel (Some until)))
    /\ (forall fuel st target,
          is_None (full_data (self st)) = false ->
          _get_dhw_zone st = (Ok target, st) ->
          (exists rq events,
              trace (world (snd (set_dhw_on py_str fuel (Some until) st)))
              = (trace (world st) ++ Sent rq :: events)%list
              /\ method rq = "PUT"
              /\ payload rq = Some (dhw_body "DHWOn" until))
          /\ (exists rq events,
                trace (world (snd (set_dhw_off py_str fuel (Some until) st)))
                = (trace (world st) ++ Sent rq :: events)%list
                /\ method rq = "PUT"
                /\ payload rq = Some (dhw_body "DHWOff" until)))
    /\ (forall until',
          valid_datetime until' ->
          year until' = year until -> month until' = month until ->
          day until' = day until ->
          full_stamp until' = full_stamp until ->
          hour until' = hour until /\ minute until' = minute until
          /\ second until' = second until).
Proof.
  intros status until Hvalid.
  split.
  { split; [|reflexivity].
    unfold midnight_stamp, date_stamp. rewrite append_assoc_str. reflexivity. }
  split; [|split; [|split; [|split; [|split; [|split; [|split]]]]]].
  - intros fuel. unfold _set_status, _set_status_put.
    apply emits_bind; [|intros task_id; apply emits_wait_for_task;
                       [exact (@put_body_get _) | exact (@put_body_post _) | exact I]].
    apply emits_bind;
      [apply emits_populate_full_data;
         [exact (@put_body_get _) | exact (@put_body_post _)] | intros _].
    apply emits_bind; [apply emits_get_self | intros c].
    apply emits_bind; [|intros response].
    + apply emits_request. intros _. reflexivity.
    + apply emits_bind; [apply emits_lift | intros _].
      apply emits_get_task_id.
  - intros fuel st Hpop.
    destruct (@status_put_sent status until st Hpop) as [rq [events [Ht [Hm Hp]]]].
    destruct (@then_keeps_first _ _ _ (wait_for_task py_str fuel) _ _ _ Ht (any_wait fuel))
      as [events' Ht'].
    exists rq, events'. split; [exact Ht'|]. split; [exact Hm | exact Hp].
  - intros until' Hy Hm Hd. unfold quick_action_body, midnight_stamp, date_stamp.
    rewrite Hy, Hm, Hd. reflexivity.
  - intros fuel zone temperature.
    unfold set_temperature, _set_heat_setpoint, _set_heat_setpoint_put.
    apply emits_bind; [|intros task_id; apply emits_wait_for_task;
                       [exact (@put_body_get _) | exact (@put_body_post _) | exact I]].
    apply emits_bind;
      [apply emits_populate_full_data;
         [exact (@put_body_get _) | exact (@put_body_post _)] | intros _].
    apply emits_bind; [apply emits_get_device_id; auto | intros device_id].
    apply emits_bind; [apply emits_get_self | intros c].
    apply emits_bind; [|intros response].
    + apply emits_request. intros _. reflexivity.
    + apply emits_bind; [apply emits_lift | intros _].
      apply emits_get_task_id.
  - intros fuel st zone temperature device_id Hpop Hdevice.
    destruct (@setpoint_put_sent zone
                (JObj [("Value", temperature); ("Status", JStr "Temporary");
                       ("NextTime", JStr (strftime until "%Y-%m-%dT%H:%M:%SZ"))])
                st device_id Hpop Hdevice) as [rq [events [Ht [Hm Hp]]]].
    destruct (@then_keeps_first _ _ _ (wait_for_task py_str fuel) _ _ _ Ht (any_wait fuel))
      as [events' Ht'].
    exists rq, events'. split; [exact Ht'|]. split; [exact Hm | exact Hp].
  - intros fuel.
    split; unfold set_dhw_on, set_dhw_off, _set_dhw, _set_dhw_put;
      (apply emits_bind; [|intros task_id; apply emits_wait_for_task;
                          [exact (@put_body_get _) | exact (@put_body_post _) | exact I]]);
      (apply emits_bind;
       [apply emits_populate_full_data;
          [exact (@put_body_get _) | exact (@put_body_post _)] | intros _]);
      (apply emits_bind; [apply emits_get_dhw_zone | intros dhw_zone]);
      (apply emits_bind; [apply emits_get_self | intros c]);
      (apply emits_bind; [|intros response]);
      try (apply emits_request; intros _; reflexivity);
      (apply emits_bind; [apply emits_lift | intros _]);
      apply emits_get_task_id.
  - intros fuel st target Hpop Hzone. split.
    + destruct (@dhw_put_sent "Hold" (JStr "DHWOn") (time_until (Some until))
                  st target Hpop Hzone) as [rq [events [Ht [Hm Hp]]]].
      destruct (@then_keeps_first _ _ _ (wait_for_task py_str fuel) _ _ _ Ht (any_wait fuel))
        as [events' Ht'].
      exists rq, events'. split; [exact Ht'|]. split; [exact Hm | exact Hp].
    + destruct (@dhw_put_sent "Hold" (JStr "DHWOff") (time_until (Some until))
                  st target Hpop Hzone) as [rq [events [Ht [Hm Hp]]]].
      destruct (@then_keeps_first _ _ _ (wait_for_task py_str fuel) _ _ _ Ht (any_wait fuel))
        as [events' Ht'].
      exists rq, events'. split; [exact Ht'|]. split; [exact Hm | exact Hp].
  - intros until' Hvalid'.
    apply full_stamp_time; apply valid_datetime_time; assumption.
Qed.

End Until.

Lemma C10_mode_change_date_only_witness :
  (exists rq events,
      trace (world (snd (_set_status demo_str 3 "Away" (Some evening) demo_state)))
      = Sent rq :: events
      /\ payload rq
         = Some (JObj [("QuickAction", JStr "Away");
                       ("QuickActionNextTime", JStr "2023-11-04T00:00:00Z")]))
  /\ (exists rq events,
        trace (world (snd (set_temperature demo_str 3 (JStr "Lounge") (JFloat (FFin 21))
                             (Some evening) client_more.fetched_state)))
        = (trace (world client_more.fetched_state) ++ Sent rq :: events)%list
        /\ payload rq
           = Some (JObj [("Value", JFloat (FFin 21)); ("Status", JStr "Temporary");
                         ("NextTime", JStr "2023-11-04T18:30:15Z")]))
  /\ (exists rq events,
        trace (world (snd (set_dhw_on demo_str 3 (Some evening)
                             client_more.fetched_state)))
        = (trace (world client_more.fetched_state) ++ Sent rq :: events)%list
        /\ payload rq
           = Some (JObj [("Status", JStr "Hold"); ("Mode", JStr "DHWOn");
                         ("NextTime", JStr "2023-11-04T18:30:15Z");
                         ("SpecialModes", JNull); ("HeatSetpoint", JNull);
                         ("CoolSetpoint", JNull)])).
Proof.
  assert (Hvalid : valid_datetime evening) by (unfold valid_datetime; simpl; lia).
  destruct (@C10_mode_change_date_only demo_str "Away" evening Hvalid)
    as [_ [_ [Hmode [_ [_ [Hzone [_ [Hdhw _]]]]]]]].
  split; [|split].
  - destruct (Hmode 3%nat demo_state eq_refl) as [rq [events [Ht [_ Hbody]]]].
    exists rq, events. split; [exact Ht | exact Hbody].
  - destruct (Hzone 3%nat client_more.fetched_state (JStr "Lounge") (JFloat (FFin 21))
                (JInt 1) eq_refl eq_refl) as [rq [events [Ht [_ Hbody]]]].
    exists rq, events. split; [exact Ht | exact Hbody].
  - destruct (proj1 (Hdhw 3%nat client_more.fetched_state (JInt 7) eq_refl eq_refl))
      as [rq [events [Ht [_ Hbody]]]].
    exists rq, events. split; [exact Ht | exact Hbody].
Defined.

(** The same evening and the morning of the same day: one body for the
    mode change, two for the zone override. *)
Example morning_and_evening :
  let morning := {| year := 2023; month := 11; day := 4; hour := 7; minute := 0;
                    second := 0; microsecond := 0 |} in
  quick_action_body "Away" morning = quick_action_body "Away" evening
  /\ temporary_body (JFloat (FFin 21)) morning
     = JObj [("Value", JFloat (FFin 21)); ("Status", JStr "Temporary");
             ("NextTime", JStr "2023-11-04T07:00:00Z")]
  /\ temporary_body (JFloat (FFin 21)) evening
     = JObj [("Value", JFloat (FFin 21)); ("Status", JStr "Temporary");
             ("NextTime", JStr "2023-11-04T18:30:15Z")].
Proof. repeat split. Qed.

End until_props.

(* ================================================================== *)
(** * Part III. Further properties                                     *)
(* ================================================================== *)

(** ** voluptuous: what a validator returns *)

Module vol_more_facts.

Import Py vol props doc_props vol_facts.
Open Scope string_scope.
Open Scope list_scope.

Lemma bindE_Ok {A B} (m : Exc A) (k : A -> Exc B) b :
  bindE m k = Ok b -> exists a, m = Ok a /\ k a = Ok b.
Proof. destruct m as [a|e]; simpl; [eauto | discriminate]. Qed.

Lemma well_formed_obj items :
  well_formed (JObj items) = true ->
  NoDup (dict_keys items) /\ Forall (fun kv => well_formed (snd kv) = true) items.
Proof.
  simpl. intros H. apply andb_prop in H. destruct H as [Hd Hv].
  split; [apply construction_props.distinct_NoDup; exact Hd|].
  clear Hd. induction items as [|[k w] items IH]; [constructor|].
  apply andb_prop in Hv. destruct Hv as [Hw Hrest].
  constructor; [exact Hw | exact (IH Hrest)].
Qed.

Lemma well_formed_arr l :
  well_formed (JArr l) = true -> Forall (fun x => well_formed x = true) l.
Proof.
  simpl. intros H. apply Forall_forall. intros x Hx.
  rewrite forallb_forall in H. exact (H x Hx).
Qed.

(** The items of a dict with distinct keys come out in their order. *)
Lemma validate_items_out schema :
  forall items acc out,
    NoDup (dict_keys acc ++ dict_keys items) ->
    validate_items schema items acc = Ok out ->
    exists items',
      out = acc ++ items' /\ Forall2 (validated_item schema) items items'.
Proof.
  induction items as [|[k v] items IH]; intros acc out Hnd H; simpl in H.
  - inversion H. exists []. rewrite app_nil_r. split; [reflexivity | constructor].
  - destruct (candidate schema k) as [validate|] eqn:Hc; [|discriminate].
    apply bindE_Ok in H. destruct H as [cval [Hv Hrest]].
    assert (Hk : ~ In k (dict_keys acc)).
    { intros Hin. simpl in Hnd. apply NoDup_remove_2 in Hnd. apply Hnd.
      apply in_or_app. left. exact Hin. }
    rewrite (construction_props.dict_set_fresh acc k cval Hk) in Hrest.
    apply IH in Hrest.
    + destruct Hrest as [items' [Hout Hall]].
      exists ((k, cval) :: items'). split.
      * rewrite Hout, <- app_assoc. reflexivity.
      * constructor; [|exact Hall]. split; [reflexivity|].
        exists validate. auto.
    + unfold dict_keys in *. rewrite map_app. simpl. rewrite <- app_assoc. exact Hnd.
Qed.

Lemma returns_input_Type t : returns_input (Type_ t).
Proof.
  intros d out _. unfold Type_. destruct (isinstance d t); intros H; inversion H; auto.
Qed.

Lemma returns_input_Literal lit : returns_input (Literal lit).
Proof.
  intros d out _. unfold Literal. destruct (py_eq d lit); intros H; inversion H; auto.
Qed.

Lemma returns_input_Range lo hi : returns_input (Range lo hi).
Proof.
  intros d out _. unfold Range.
  destruct (py_ge_int d lo) as [[|]|]; try discriminate.
  destruct (py_le_int d hi) as [[|]|]; try discriminate.
  intros H; inversion H; auto.
Qed.

Lemma returns_input_Datetime fmt : returns_input (Datetime fmt).
Proof.
  intros d out _. unfold Datetime. destruct d; try discriminate.
  destruct (strptime_ok s fmt); intros H; inversion H; auto.
Qed.

Lemma returns_input_All vs : Forall returns_input vs -> returns_input (All vs).
Proof.
  induction 1 as [|v vs Hv _ IH]; intros d out Hwf H; simpl in H.
  - inversion H. reflexivity.
  - apply bindE_Ok in H. destruct H as [mid [H1 H2]].
    apply Hv in H1; [|exact Hwf]. subst mid. exact (IH d out Hwf H2).
Qed.

Lemma returns_input_Any vs : Forall returns_input vs -> returns_input (Any vs).
Proof.
  induction 1 as [|v vs Hv _ IH]; intros d out Hwf H; simpl in H.
  - discriminate.
  - destruct (v d) as [o|e] eqn:E.
    + inversion H; subst. exact (Hv d out Hwf E).
    + destruct (Any vs d) as [o|e'] eqn:E'; [|discriminate].
      inversion H; subst. exact (IH d out Hwf E').
Qed.

Lemma first_accepting_returns alts :
  Forall returns_input alts ->
  forall x out, well_formed x = true -> first_accepting alts x = Ok out -> out = x.
Proof.
  induction 1 as [|v alts Hv _ IH]; intros x out Hwf H; simpl in H.
  - discriminate.
  - destruct (v x) as [o|e] eqn:E.
    + inversion H; subst. exact (Hv x out Hwf E).
    + destruct alts; [discriminate | exact (IH x out Hwf H)].
Qed.

Lemma returns_input_Seq alts : Forall returns_input alts -> returns_input (Seq alts).
Proof.
  intros Halts d out Hwf H. destruct d; try discriminate. simpl in H.
  apply bindE_Ok in H. destruct H as [outs [H Hout]]. inversion Hout; subst. f_equal.
  apply well_formed_arr in Hwf. clear Hout.
  revert outs H. induction Hwf as [|x xs Hx _ IH]; intros outs H; simpl in H.
  - inversion H. reflexivity.
  - apply bindE_Ok in H. destruct H as [o [Ho H]].
    apply bindE_Ok in H. destruct H as [os [Hos H]]. inversion H; subst.
    rewrite (first_accepting_returns Halts x Hx Ho), (IH os Hos). reflexivity.
Qed.

Lemma returns_input_Schema_dict schema :
  Forall (fun e : entry => returns_input (snd e)) schema ->
  returns_input (Schema_dict schema).
Proof.
  intros Hschema d out Hwf H. destruct d; try discriminate. simpl in H.
  apply bindE_Ok in H. destruct H as [o [Hitems Hout]].
  destruct (missing_required schema fields); [|discriminate].
  inversion Hout; subst. f_equal.
  apply well_formed_obj in Hwf. destruct Hwf as [Hnd Hvals].
  apply validate_items_out in Hitems; [|exact Hnd].
  destruct Hitems as [items' [-> Hall]]. simpl.
  clear Hnd Hout. induction Hall as [|[k v] [k' v'] items items' Hone _ IH].
  - reflexivity.
  - inversion Hvals as [|? ? Hv Hrest]; subst.
    destruct Hone as [Hk [validate [Hc Hval]]]. simpl in *. subst k'.
    apply key_facts.candidate_In in Hc. destruct Hc as [m Hin].
    rewrite Forall_forall in Hschema. specialize (Hschema _ Hin). simpl in Hschema.
    rewrite (Hschema v v' Hv Hval), (IH Hrest). reflexivity.
Qed.

Ltac returns_input_tac :=
  repeat first
    [ apply returns_input_Type
    | apply returns_input_Literal
    | apply returns_input_Range
    | apply returns_input_Datetime
    | apply returns_input_All
    | apply returns_input_Any
    | apply returns_input_Seq
    | apply returns_input_Schema_dict
    | apply Forall_cons
    | apply Forall_nil ].

End vol_more_facts.

(** ** schedule.py: further properties *)

Module schedule_more.

Import Py vol props doc_props vol_facts vol_more_facts key_facts schedule.
Open Scope string_scope.
Open Scope list_scope.

(** Validation does not rewrite a schedule: the GET and the PUT schedule
    schemas return the document they accept as it was given. *)
Theorem schedule_validation_returns_document :
  forall d,
    well_formed d = true ->
    (is_ok (SCH_GET_SCHEDULE d) = true -> SCH_GET_SCHEDULE d = Ok d)
    /\ (is_ok (SCH_PUT_SCHEDULE d) = true -> SCH_PUT_SCHEDULE d = Ok d).
Proof.
  assert (Hget : returns_input SCH_GET_SCHEDULE).
  { unfold SCH_GET_SCHEDULE, SCH_GET_SCHEDULE_DHW, SCH_GET_SCHEDULE_ZONE,
      SCH_GET_DAY_OF_WEEK_DHW, SCH_GET_DAY_OF_WEEK_ZONE, SCH_GET_SWITCHPOINT_DHW,
      SCH_GET_SWITCHPOINT_ZONE, DAYS_OF_WEEK.
    cbn [map]. returns_input_tac. }
  assert (Hput : returns_input SCH_PUT_SCHEDULE).
  { unfold SCH_PUT_SCHEDULE, SCH_PUT_SCHEDULE_DHW, SCH_PUT_SCHEDULE_ZONE,
      SCH_PUT_DAY_OF_WEEK_DHW, SCH_PUT_DAY_OF_WEEK_ZONE, SCH_PUT_SWITCHPOINT_DHW,
      SCH_PUT_SWITCHPOINT_ZONE.
    returns_input_tac. }
  intros d Hwf. split; intros Hok; apply is_ok_true in Hok; destruct Hok as [out Hout];
    rewrite Hout; f_equal; [exact (Hget d out Hwf Hout) | exact (Hput d out Hwf Hout)].
Qed.

Lemma schedule_validation_returns_document_witness :
  SCH_GET_SCHEDULE get_zone_schedule = Ok get_zone_schedule
  /\ SCH_PUT_SCHEDULE put_zone_schedule = Ok put_zone_schedule.
Proof.
  split.
  - exact (proj1 (schedule_validation_returns_document get_zone_schedule eq_refl) eq_refl).
  - exact (proj2 (schedule_validation_returns_document put_zone_schedule eq_refl) eq_refl).
Defined.

Lemma dict_get_In_keys {V} (items : dict V) k v :
  dict_get items k = Some v -> In k (dict_keys items).
Proof.
  induction items as [|[k' w] items IH]; simpl; [discriminate|].
  destruct (String.eqb k' k) eqn:E.
  - intros _. left. apply String.eqb_eq. exact E.
  - intros H. right. exact (IH H).
Qed.

Lemma required_key_present k v schema items :
  is_ok (Schema_dict ((Required, k, v) :: schema) (JObj items)) = true ->
  dict_has items k = true.
Proof.
  rewrite Schema_dict_ok. intros H. apply andb_prop in H. destruct H as [_ H].
  rewrite none_missing_required in H. apply andb_prop in H. exact (proj1 H).
Qed.

Lemma schedule_root_key (key : string) (days_dhw days_zone : validator) d :
  is_ok (Any [Schema_dict [(Required, key, days_dhw)];
              Schema_dict [(Required, key, days_zone)]] d) = true ->
  exists items, d = JObj items /\ dict_has items key = true
                /\ forall k, In k (dict_keys items) -> k = key.
Proof.
  rewrite Any_ok. simpl. intros H.
  assert (Hone : exists days, is_ok (Schema_dict [(Required, key, days)] d) = true).
  { apply orb_prop in H. destruct H as [H|H]; [eauto|].
    apply orb_prop in H. destruct H as [H|H]; [eauto | discriminate]. }
  destruct Hone as [days Hok]. destruct d; try (rewrite Schema_dict_ok in Hok; discriminate).
  exists fields. split; [reflexivity|]. split; [exact (required_key_present _ _ _ _ Hok)|].
  rewrite Schema_dict_ok in Hok. apply andb_prop in Hok. destruct Hok as [Hitems _].
  intros k Hk. apply in_map_iff in Hk. destruct Hk as [[k' v] [Hfst Hin]]. simpl in Hfst. subst k'.
  rewrite forallb_forall in Hitems. specialize (Hitems _ Hin).
  unfold item_ok in Hitems. simpl in Hitems.
  destruct (String.eqb key k) eqn:E; [|discriminate].
  apply String.eqb_eq in E. auto.
Qed.

(** No document is both a GET schedule and a PUT schedule: what the
    vendor returns cannot be sent back as it is. *)
Theorem get_and_put_schedules_are_disjoint :
  forall d, is_ok (SCH_GET_SCHEDULE d) = true -> is_ok (SCH_PUT_SCHEDULE d) = false.
Proof.
  intros d Hget.
  destruct (is_ok (SCH_PUT_SCHEDULE d)) eqn:Hput; [|reflexivity]. exfalso.
  apply schedule_root_key in Hget. apply schedule_root_key in Hput.
  destruct Hget as [items [-> [Hhas _]]].
  destruct Hput as [items' [Heq [_ Honly]]]. inversion Heq; subst items'.
  apply config_props.dict_has_get in Hhas. destruct Hhas as [v Hv].
  pose proof (dict_get_In_keys _ _ Hv) as Hin.
  apply Honly in Hin. vm_compute in Hin. discriminate.
Qed.

Lemma get_and_put_schedules_are_disjoint_witness :
  is_ok (SCH_PUT_SCHEDULE get_zone_schedule) = false.
Proof.
  apply get_and_put_schedules_are_disjoint. reflexivity.
Defined.

Lemma get_dhw_schedule_keys :
  keys_within [SZ_DAILY_SCHEDULES; SZ_DAY_OF_WEEK; SZ_SWITCHPOINTS; SZ_DHW_STATE;
               SZ_TIME_OF_DAY] SCH_GET_SCHEDULE_DHW.
Proof.
  unfold SCH_GET_SCHEDULE_DHW, SCH_GET_DAY_OF_WEEK_DHW, SCH_GET_SWITCHPOINT_DHW,
    DAYS_OF_WEEK. cbn [map]. keys_within_tac.
Qed.

Lemma get_zone_schedule_keys :
  keys_within [SZ_DAILY_SCHEDULES; SZ_DAY_OF_WEEK; SZ_SWITCHPOINTS; SZ_HEAT_SETPOINT;
               SZ_TIME_OF_DAY] SCH_GET_SCHEDULE_ZONE.
Proof.
  unfold SCH_GET_SCHEDULE_ZONE, SCH_GET_DAY_OF_WEEK_ZONE, SCH_GET_SWITCHPOINT_ZONE,
    DAYS_OF_WEEK. cbn [map]. keys_within_tac.
Qed.

Lemma put_dhw_schedule_keys :
  keys_within [capitalize SZ_DAILY_SCHEDULES; capitalize SZ_DAY_OF_WEEK;
               capitalize SZ_SWITCHPOINTS; capitalize SZ_DHW_STATE;
               capitalize SZ_TIME_OF_DAY] SCH_PUT_SCHEDULE_DHW.
Proof.
  unfold SCH_PUT_SCHEDULE_DHW, SCH_PUT_DAY_OF_WEEK_DHW, SCH_PUT_SWITCHPOINT_DHW.
  keys_within_tac.
Qed.

Lemma put_zone_schedule_keys :
  keys_within [capitalize SZ_DAILY_SCHEDULES; capitalize SZ_DAY_OF_WEEK;
               capitalize SZ_SWITCHPOINTS; SZ_HEAT_SETPOINT;
               capitalize SZ_TIME_OF_DAY] SCH_PUT_SCHEDULE_ZONE.
Proof.
  unfold SCH_PUT_SCHEDULE_ZONE, SCH_PUT_DAY_OF_WEEK_ZONE, SCH_PUT_SWITCHPOINT_ZONE.
  keys_within_tac.
Qed.

Lemma one_kind (K1 K2 : list string) (v1 v2 : validator) (a b : string) d :
  keys_within K1 v1 -> keys_within K2 v2 ->
  ~ In a K1 -> ~ In b K2 ->
  is_ok (Any [v1; v2] d) = true ->
  ~ (In a (keys_of d) /\ In b (keys_of d)).
Proof.
  intros H1 H2 Ha Hb H [Hina Hinb]. rewrite Any_ok in H. simpl in H.
  apply orb_prop in H. destruct H as [H|H].
  - apply Ha. exact (H1 d H a Hina).
  - apply orb_prop in H. destruct H as [H|H]; [|discriminate].
    apply Hb. exact (H2 d H b Hinb).
Qed.

(** A schedule is of one kind: no accepted schedule, GET or PUT, has
    both a heat setpoint and a hot water state among its keys. *)
Theorem schedule_is_of_one_kind :
  forall d,
    (is_ok (SCH_GET_SCHEDULE d) = true ->
       ~ (In SZ_HEAT_SETPOINT (keys_of d) /\ In SZ_DHW_STATE (keys_of d)))
    /\ (is_ok (SCH_PUT_SCHEDULE d) = true ->
       ~ (In SZ_HEAT_SETPOINT (keys_of d) /\ In (capitalize SZ_DHW_STATE) (keys_of d))).
Proof.
  intros d. split; intros H.
  - refine (@one_kind _ _ _ _ SZ_HEAT_SETPOINT SZ_DHW_STATE d
              get_dhw_schedule_keys get_zone_schedule_keys _ _ H);
      vm_compute; intros Hin;
      repeat (destruct Hin as [Hin|Hin]; [discriminate|]); exact Hin.
  - refine (@one_kind _ _ _ _ SZ_HEAT_SETPOINT (capitalize SZ_DHW_STATE) d
              put_dhw_schedule_keys put_zone_schedule_keys _ _ H);
      vm_compute; intros Hin;
      repeat (destruct Hin as [Hin|Hin]; [discriminate|]); exact Hin.
Qed.

Lemma schedule_is_of_one_kind_witness :
  ~ (In SZ_HEAT_SETPOINT (keys_of get_zone_schedule)
     /\ In SZ_DHW_STATE (keys_of get_zone_schedule)).
Proof.
  exact (proj1 (schedule_is_of_one_kind get_zone_schedule) eq_refl).
Defined.

Lemma one_of_literals names x :
  existsb (fun v : validator => is_ok (v x)) (map (fun d => Literal (JStr d)) names) = true
  <-> exists s, x = JStr s /\ In s names.
Proof.
  induction names as [|n names IH]; simpl.
  - split; [discriminate | intros [s [_ []]]].
  - rewrite Literal_ok. split.
    + intros H. apply orb_prop in H. destruct H as [H|H].
      * apply config_props.py_eq_str in H. exists n. auto.
      * apply IH in H. destruct H as [s [Hx Hin]]. exists s. auto.
    + intros [s [Hx [Hs|Hin]]].
      * subst. simpl. rewrite String.eqb_refl. reflexivity.
      * apply orb_true_intro. right. apply IH. exists s. auto.
Qed.

Lemma list_of_literals names v :
  is_ok (Any [Seq (map (fun d => Literal (JStr d)) names)] v) = true
  <-> exists l, v = JArr l /\ forall x, In x l -> exists s, x = JStr s /\ In s names.
Proof.
  rewrite Any_ok. simpl. rewrite orb_false_r, Seq_ok. destruct v;
    try (split; [discriminate | intros [l [H _]]; discriminate]).
  rewrite forallb_forall. split.
  - intros H. exists items. split; [reflexivity|].
    intros x Hx. apply one_of_literals. exact (H x Hx).
  - intros [l [Hl H]]. inversion Hl; subst. intros x Hx.
    apply one_of_literals. exact (H x Hx).
Qed.

Lemma all_accepted (v : validator) sps :
  is_ok (Seq [v] (JArr sps)) = true <-> forall sp, In sp sps -> is_ok (v sp) = true.
Proof.
  rewrite Seq_ok, forallb_forall. simpl.
  split; intros H sp Hsp; specialize (H sp Hsp).
  - rewrite orb_false_r in H. exact H.
  - rewrite H. reflexivity.
Qed.

(** The day of a GET day entry is a list of day names, not a day name:
    [vol.Any(list(DAYS_OF_WEEK))] has the list as its one alternative.
    A day entry is accepted exactly when its day is such a list and each
    of its switchpoints is accepted. *)
Theorem get_day_is_a_list_of_names :
  forall (day : json) (switchpoints : list json),
    (is_ok (SCH_GET_DAY_OF_WEEK_ZONE
              (JObj [(SZ_DAY_OF_WEEK, day); (SZ_SWITCHPOINTS, JArr switchpoints)])) = true
     <-> (exists names,
             day = JArr names
             /\ forall x, In x names -> exists s, x = JStr s /\ In s DAYS_OF_WEEK)
         /\ forall sp, In sp switchpoints -> is_ok (SCH_GET_SWITCHPOINT_ZONE sp) = true)
    /\
    (is_ok (SCH_GET_DAY_OF_WEEK_DHW
              (JObj [(SZ_DAY_OF_WEEK, day); (SZ_SWITCHPOINTS, JArr switchpoints)])) = true
     <-> (exists names,
             day = JArr names
             /\ forall x, In x names -> exists s, x = JStr s /\ In s DAYS_OF_WEEK)
         /\ forall sp, In sp switchpoints -> is_ok (SCH_GET_SWITCHPOINT_DHW sp) = true).
Proof.
  intros day switchpoints.
  split; unfold SCH_GET_DAY_OF_WEEK_ZONE, SCH_GET_DAY_OF_WEEK_DHW;
    rewrite Schema_dict_ok; unfold item_ok, none_missing;
    cbn -[Any Seq is_ok SCH_GET_SWITCHPOINT_ZONE SCH_GET_SWITCHPOINT_DHW DAYS_OF_WEEK map];
    rewrite <- list_of_literals, <- all_accepted;
    repeat rewrite andb_true_r; rewrite andb_true_iff; reflexivity.
Qed.

Lemma get_day_is_a_list_of_names_witness :
  is_ok (SCH_GET_DAY_OF_WEEK_ZONE
           (JObj [(SZ_DAY_OF_WEEK, JArr [JStr SZ_MONDAY; JStr SZ_SUNDAY]);
                  (SZ_SWITCHPOINTS, JArr [])])) = true.
Proof.
  apply (proj1 (get_day_is_a_list_of_names (JArr [JStr SZ_MONDAY; JStr SZ_SUNDAY]) [])).
  split.
  - eexists. split; [reflexivity|]. intros x [Hx|[Hx|[]]]; subst; eexists;
      (split; [reflexivity | unfold DAYS_OF_WEEK; simpl; tauto]).
  - intros sp [].
Defined.

Lemma int_day v :
  is_ok (Any [All [Type_ T_int; Range 0 6]] v) = true
  <-> (exists z, v = JInt z /\ (0 <= z <= 6)%Z) \/ (exists b, v = JBool b).
Proof.
  rewrite Any_ok. simpl. rewrite orb_false_r, is_ok_bindE. unfold Type_.
  destruct v; simpl;
    try (split; [discriminate | intros [[z [H _]]|[b0 H]]; discriminate]).
  - split; [intros _; right; eauto|]. intros _. destruct b; reflexivity.
  - unfold bindE, Range. simpl. split.
    + intros H. left. exists z. split; [reflexivity|].
      destruct (0 <=? z)%Z eqn:E0; [|discriminate].
      destruct (z <=? 6)%Z eqn:E6; [|discriminate]. lia.
    + intros [[z' [Hz Hr]]|[b Hb]]; [|discriminate]. inversion Hz; subst.
      destruct (0 <=? z')%Z eqn:E0; [|lia].
      destruct (z' <=? 6)%Z eqn:E6; [reflexivity | lia].
Qed.

(** The day of a PUT day entry is an integer from 0 to 6, or a boolean
    (a [bool] is an [int], and False and True are 0 and 1). *)
Theorem put_day_is_a_number :
  forall (day : json) (switchpoints : list json),
    (is_ok (SCH_PUT_DAY_OF_WEEK_ZONE
              (JObj [(capitalize SZ_DAY_OF_WEEK, day);
                     (capitalize SZ_SWITCHPOINTS, JArr switchpoints)])) = true
     <-> ((exists z, day = JInt z /\ (0 <= z <= 6)%Z) \/ (exists b, day = JBool b))
         /\ forall sp, In sp switchpoints -> is_ok (SCH_PUT_SWITCHPOINT_ZONE sp) = true)
    /\
    (is_ok (SCH_PUT_DAY_OF_WEEK_DHW
              (JObj [(capitalize SZ_DAY_OF_WEEK, day);
                     (capitalize SZ_SWITCHPOINTS, JArr switchpoints)])) = true
     <-> ((exists z, day = JInt z /\ (0 <= z <= 6)%Z) \/ (exists b, day = JBool b))
         /\ forall sp, In sp switchpoints -> is_ok (SCH_PUT_SWITCHPOINT_DHW sp) = true).
Proof.
  intros day switchpoints.
  assert (Hd : capitalize SZ_DAY_OF_WEEK = "Dayofweek") by reflexivity.
  assert (Hs : capitalize SZ_SWITCHPOINTS = "Switchpoints") by reflexivity.
  split; unfold SCH_PUT_DAY_OF_WEEK_ZONE, SCH_PUT_DAY_OF_WEEK_DHW;
    rewrite Hd, Hs, Schema_dict_ok; unfold item_ok, none_missing;
    cbn -[Any Seq All is_ok SCH_PUT_SWITCHPOINT_ZONE SCH_PUT_SWITCHPOINT_DHW];
    rewrite <- int_day, <- all_accepted;
    repeat rewrite andb_true_r; rewrite andb_true_iff; reflexivity.
Qed.

Lemma put_day_is_a_number_witness :
  is_ok (SCH_PUT_DAY_OF_WEEK_ZONE
           (JObj [(capitalize SZ_DAY_OF_WEEK, JBool true);
                  (capitalize SZ_SWITCHPOINTS, JArr [])])) = true.
Proof.
  apply (proj1 (put_day_is_a_number (JBool true) [])).
  split; [right; eexists; reflexivity | intros sp []].
Defined.

Lemma range_check (P : nat -> bool) n :
  forallb P (seq 0 n) = true -> forall k, (k < n)%nat -> P k = true.
Proof.
  intros H k Hk. rewrite forallb_forall in H. apply H. apply in_seq. lia.
Qed.

(** A switchpoint is on a full minute: of the wall-clock times
    HH:MM:SS the format [%H:%M:00] takes exactly those whose seconds are
    00. *)
Theorem time_of_day_is_on_the_minute :
  forall h m s,
    (h < 24)%nat -> (m < 60)%nat -> (s < 60)%nat ->
    is_ok (Datetime "%H:%M:00" (JStr (wall_clock h m s))) = Nat.eqb s 0.
Proof.
  intros h m s Hh Hm Hs.
  assert (Hall :
    forallb (fun h => forallb (fun m => forallb (fun s =>
      Bool.eqb (is_ok (Datetime "%H:%M:00" (JStr (wall_clock h m s)))) (Nat.eqb s 0))
      (seq 0 60)) (seq 0 60)) (seq 0 24) = true) by (vm_compute; reflexivity).
  pose proof (@range_check _ _ Hall h Hh) as H1. cbv beta in H1.
  pose proof (@range_check _ _ H1 m Hm) as H2. cbv beta in H2.
  pose proof (@range_check _ _ H2 s Hs) as H3. cbv beta in H3.
  apply Bool.eqb_prop in H3. exact H3.
Qed.

Lemma time_of_day_is_on_the_minute_witness :
  is_ok (Datetime "%H:%M:00" (JStr (wall_clock 6 30 0))) = true
  /\ is_ok (Datetime "%H:%M:00" (JStr (wall_clock 6 30 15))) = false.
Proof.
  split.
  - apply (@time_of_day_is_on_the_minute 6%nat 30%nat 0%nat); lia.
  - apply (@time_of_day_is_on_the_minute 6%nat 30%nat 15%nat); lia.
Defined.

End schedule_more.

(** ** config.py: the installation *)

Module installation_props.

Import Py vol props doc_props vol_facts vol_more_facts config installation.
Open Scope string_scope.
Open Scope list_scope.

Lemma validate_elements_length alts xs outs :
  validate_elements alts xs = Ok outs -> List.length outs = List.length xs.
Proof.
  revert outs. induction xs as [|x xs IH]; intros outs H; simpl in H.
  - inversion H. reflexivity.
  - apply bindE_Ok in H. destruct H as [o [_ H]].
    apply bindE_Ok in H. destruct H as [os [Hos H]]. inversion H; subst.
    simpl. rewrite (IH os Hos). reflexivity.
Qed.

(** [vol.All([v], vol.Length(min=lo, max=hi))] *)
Lemma bounded_list (v : validator) lo hi x :
  is_ok (All [Seq [v]; Length lo hi] x) = true ->
  exists l,
    x = JArr l
    /\ (lo <= List.length l <= hi)%nat
    /\ forall e, In e l -> is_ok (v e) = true.
Proof.
  simpl. rewrite is_ok_bindE. destruct x; simpl; try discriminate.
  destruct (validate_elements [v] items) as [outs|] eqn:E; simpl; [|discriminate].
  unfold bindE, Length. simpl. rewrite (validate_elements_length _ _ E).
  intros H. exists items. split; [reflexivity|]. split.
  - destruct (List.length items <? lo)%nat eqn:E1; [discriminate|].
    destruct (hi <? List.length items)%nat eqn:E2; [discriminate|].
    apply Nat.ltb_ge in E1. apply Nat.ltb_ge in E2. lia.
  - intros e He.
    pose proof (validate_elements_ok [v] items) as Hok. rewrite E in Hok. simpl in Hok.
    symmetry in Hok. rewrite forallb_forall in Hok. specialize (Hok e He).
    simpl in Hok. rewrite orb_false_r in Hok. exact Hok.
Qed.

Lemma Match_ok pattern x :
  is_ok (Match pattern x) = true -> exists s, x = JStr s /\ pattern s = true.
Proof.
  destruct x; simpl; try discriminate.
  destruct (pattern s) eqn:E; [eauto | discriminate].
Qed.

Lemma forallb_filter {A} (P f : A -> bool) l :
  forallb P l = true -> forallb P (filter f l) = true.
Proof.
  rewrite !forallb_forall. intros H x Hx. apply filter_In in Hx. exact (H x (proj1 Hx)).
Qed.

Lemma dict_has_filter {V} (f : string * V -> bool) (items : dict V) k :
  (forall v, f (k, v) = true) -> dict_has (filter f items) k = dict_has items k.
Proof.
  intros Hf. unfold dict_has. rewrite construction_props.dict_get_filter by exact Hf.
  reflexivity.
Qed.

Section TemperatureControlSystem.

Variables REGEX_DHW_ID REGEX_SYSTEM_ID REGEX_ZONE_ID : string -> bool.
Variables DHW_STATES TCS_MODEL_TYPES ZONE_MODEL_TYPES ZONE_MODES ZONE_TYPES : list string.
Variables
  SZ_ALLOWED_MODES SZ_ALLOWED_SETPOINT_MODES SZ_ALLOWED_STATES SZ_ALLOWED_SYSTEM_MODES
  SZ_CAN_CONTROL_COOL SZ_CAN_CONTROL_HEAT SZ_DHW SZ_DHW_ID
  SZ_DHW_STATE_CAPABILITIES_RESPONSE SZ_MAX_HEAT_SETPOINT SZ_SETPOINT_VALUE_RESOLUTION SZ_MAX_SWITCHPOINTS_PER_DAY
  SZ_MIN_HEAT_SETPOINT SZ_MIN_SWITCHPOINTS_PER_DAY SZ_MODEL_TYPE SZ_NAME
  SZ_SCHEDULE_CAPABILITIES SZ_SCHEDULE_CAPABILITIES_RESPONSE SZ_SETPOINT_CAPABILITIES SZ_SYSTEM_ID
  SZ_VALUE_RESOLUTION SZ_ZONE_ID SZ_ZONE_TYPE SZ_ZONES : string.

Local Abbreviation SCH_TCS :=
  (SCH_TEMPERATURE_CONTROL_SYSTEM
     REGEX_DHW_ID REGEX_SYSTEM_ID REGEX_ZONE_ID
     DHW_STATES TCS_MODEL_TYPES ZONE_MODEL_TYPES ZONE_MODES ZONE_TYPES
     SZ_ALLOWED_MODES SZ_ALLOWED_SETPOINT_MODES SZ_ALLOWED_STATES SZ_ALLOWED_SYSTEM_MODES
     SZ_CAN_CONTROL_COOL SZ_CAN_CONTROL_HEAT SZ_DHW SZ_DHW_ID
     SZ_DHW_STATE_CAPABILITIES_RESPONSE SZ_MAX_HEAT_SETPOINT SZ_SETPOINT_VALUE_RESOLUTION SZ_MAX_SWITCHPOINTS_PER_DAY
     SZ_MIN_HEAT_SETPOINT SZ_MIN_SWITCHPOINTS_PER_DAY SZ_MODEL_TYPE SZ_NAME
     SZ_SCHEDULE_CAPABILITIES SZ_SCHEDULE_CAPABILITIES_RESPONSE SZ_SETPOINT_CAPABILITIES SZ_SYSTEM_ID
     SZ_VALUE_RESOLUTION SZ_ZONE_ID SZ_ZONE_TYPE SZ_ZONES).
Local Abbreviation SCH_ZONE' :=
  (SCH_ZONE REGEX_ZONE_ID ZONE_MODEL_TYPES ZONE_MODES ZONE_TYPES
     SZ_ALLOWED_SETPOINT_MODES SZ_CAN_CONTROL_COOL SZ_CAN_CONTROL_HEAT SZ_MAX_HEAT_SETPOINT
     SZ_SETPOINT_VALUE_RESOLUTION SZ_MAX_SWITCHPOINTS_PER_DAY SZ_MIN_HEAT_SETPOINT SZ_MIN_SWITCHPOINTS_PER_DAY
     SZ_MODEL_TYPE SZ_NAME SZ_SCHEDULE_CAPABILITIES SZ_SETPOINT_CAPABILITIES
     SZ_VALUE_RESOLUTION SZ_ZONE_ID SZ_ZONE_TYPE).

Hypothesis distinct_keys :
  NoDup [SZ_SYSTEM_ID; SZ_MODEL_TYPE; SZ_ALLOWED_SYSTEM_MODES; SZ_ZONES; SZ_DHW].

Lemma tcs_key_facts :
  String.eqb SZ_SYSTEM_ID SZ_ZONES = false
  /\ String.eqb SZ_MODEL_TYPE SZ_ZONES = false
  /\ String.eqb SZ_ALLOWED_SYSTEM_MODES SZ_ZONES = false
  /\ String.eqb SZ_SYSTEM_ID SZ_DHW = false
  /\ String.eqb SZ_MODEL_TYPE SZ_DHW = false
  /\ String.eqb SZ_ALLOWED_SYSTEM_MODES SZ_DHW = false
  /\ String.eqb SZ_ZONES SZ_DHW = false.
Proof.
  inversion distinct_keys as [|? ? N1 D1]; subst.
  inversion D1 as [|? ? N2 D2]; subst.
  inversion D2 as [|? ? N3 D3]; subst.
  inversion D3 as [|? ? N4 D4]; subst.
  simpl in *.
  repeat split; apply String.eqb_neq; intros E; rewrite E in *; tauto.
Qed.

(** A control system has one to twelve zones: in a config the schema
    accepts the system identifier is a string of the pattern, and the
    zones are a list of one to twelve configs that the zone schema
    accepts. *)
Theorem tcs_config_has_one_to_twelve_zones :
  forall items,
    is_ok (SCH_TCS (JObj items)) = true ->
    exists system_id zones,
      dict_get items SZ_SYSTEM_ID = Some (JStr system_id)
      /\ REGEX_SYSTEM_ID system_id = true
      /\ dict_get items SZ_ZONES = Some (JArr zones)
      /\ (1 <= List.length zones <= 12)%nat
      /\ forall z, In z zones -> is_ok (SCH_ZONE' z) = true.
Proof.
  intros items H. unfold SCH_TEMPERATURE_CONTROL_SYSTEM in H.
  rewrite Schema_dict_ok in H. apply andb_prop in H. destruct H as [Hitems Hreq].
  destruct tcs_key_facts as [K1 [K2 [K3 _]]].
  rewrite none_missing_required in Hreq.
  apply andb_prop in Hreq. destruct Hreq as [Hsid Hreq].
  do 2 (rewrite none_missing_required in Hreq;
        apply andb_prop in Hreq; destruct Hreq as [_ Hreq]).
  rewrite none_missing_required in Hreq.
  apply andb_prop in Hreq. destruct Hreq as [Hzones _].
  apply config_props.dict_has_get in Hsid. destruct Hsid as [sid Hsid].
  apply config_props.dict_has_get in Hzones. destruct Hzones as [zs Hzs].
  pose proof (config_props.dict_get_item_ok _ _ _ Hitems Hsid) as Vsid.
  pose proof (config_props.dict_get_item_ok _ _ _ Hitems Hzs) as Vzs.
  unfold item_ok in Vsid, Vzs. simpl in Vsid, Vzs.
  rewrite String.eqb_refl in Vsid. rewrite K1, K2, K3, String.eqb_refl in Vzs.
  apply Match_ok in Vsid. destruct Vsid as [s [-> Hs]].
  apply bounded_list in Vzs. destruct Vzs as [l [-> [Hlen Hall]]].
  exists s, l. auto.
Qed.

(** The DHW block is optional: a config the schema accepts is still
    accepted once its DHW block is taken out. *)
Theorem tcs_config_without_dhw :
  forall items,
    is_ok (SCH_TCS (JObj items)) = true ->
    is_ok (SCH_TCS (JObj (filter (fun kv => negb (String.eqb (fst kv) SZ_DHW)) items)))
    = true.
Proof.
  intros items H. unfold SCH_TEMPERATURE_CONTROL_SYSTEM in *.
  rewrite Schema_dict_ok in *. apply andb_prop in H. destruct H as [Hitems Hreq].
  destruct tcs_key_facts as [_ [_ [_ [K4 [K5 [K6 K7]]]]]].
  apply andb_true_intro. split; [apply forallb_filter; exact Hitems|].
  repeat rewrite none_missing_required in *.
  rewrite !dict_has_filter by (intros v; simpl; rewrite ?K4, ?K5, ?K6, ?K7; reflexivity).
  exact Hreq.
Qed.

End TemperatureControlSystem.

Section Owner.

Variable _obfuscate : json -> Exc json.
Variable Email : validator.
Variables SZ_FIRSTNAME SZ_LASTNAME SZ_USER_ID SZ_USERNAME : string.

Hypothesis distinct_keys : NoDup [SZ_USER_ID; SZ_USERNAME; SZ_FIRSTNAME; SZ_LASTNAME].
Hypothesis Email_returns_input : forall v out, Email v = Ok out -> out = v.

Lemma Call_Ok f v out : Call f v = Ok out -> f v = Ok out.
Proof.
  unfold Call. destruct (f v) as [o|e]; [auto|]. destruct e; discriminate.
Qed.

(** Validation masks the owner: the validated owner has the fields of
    the owner given, in their order, the user name and the last name as
    [_obfuscate] returns them and the other fields as they were. *)
Theorem owner_is_obfuscated :
  forall items out,
    well_formed (JObj items) = true ->
    SCH_LOCATION_OWNER _obfuscate Email SZ_FIRSTNAME SZ_LASTNAME SZ_USER_ID SZ_USERNAME
      (JObj items) = Ok out ->
    exists items',
      out = JObj items'
      /\ Forall2 (masked_owner_field _obfuscate SZ_LASTNAME SZ_USERNAME) items items'.
Proof.
  intros items out Hwf H. unfold SCH_LOCATION_OWNER, Schema_dict in H.
  apply bindE_Ok in H. destruct H as [o [Hitems Hout]].
  destruct (missing_required _ items); [|discriminate]. inversion Hout; subst. clear Hout.
  apply well_formed_obj in Hwf. destruct Hwf as [Hnd _].
  apply validate_items_out in Hitems; [|exact Hnd].
  destruct Hitems as [items' [-> Hall]]. exists items'. split; [reflexivity|].
  inversion distinct_keys as [|? ? N1 D1]; subst.
  inversion D1 as [|? ? N2 D2]; subst.
  inversion D2 as [|? ? N3 D3]; subst. simpl in N1, N2, N3.
  clear Hnd. induction Hall as [|[k v] [k' v'] l l' Hone _ IH]; constructor; [|exact IH].
  destruct Hone as [Hk [validate [Hc Hv]]]. simpl in *. subst k'.
  unfold masked_owner_field. simpl. split; [reflexivity|].
  destruct (String.eqb SZ_USER_ID k) eqn:E1.
  { apply String.eqb_eq in E1. subst k. inversion Hc; subst.
    assert (F1 : String.eqb SZ_USER_ID SZ_USERNAME = false)
      by (apply String.eqb_neq; intros E; rewrite E in *; tauto).
    assert (F2 : String.eqb SZ_USER_ID SZ_LASTNAME = false)
      by (apply String.eqb_neq; intros E; rewrite E in *; tauto).
    rewrite F1, F2. simpl.
    apply Type_out in Hv. exact (proj1 Hv). }
  destruct (String.eqb SZ_USERNAME k) eqn:E2.
  { apply String.eqb_eq in E2. subst k. inversion Hc; subst.
    rewrite String.eqb_refl. simpl.
    simpl in Hv. apply bindE_Ok in Hv. destruct Hv as [mid [Hm Hv]].
    apply Email_returns_input in Hm. subst mid. simpl in Hv.
    apply bindE_Ok in Hv. destruct Hv as [mid [Hm Hv]]. inversion Hv; subst.
    exact (Call_Ok _ _ Hm). }
  destruct (String.eqb SZ_FIRSTNAME k) eqn:E3.
  { apply String.eqb_eq in E3. subst k. inversion Hc; subst.
    assert (F1 : String.eqb SZ_FIRSTNAME SZ_USERNAME = false)
      by (apply String.eqb_neq; intros E; rewrite E in *; tauto).
    assert (F2 : String.eqb SZ_FIRSTNAME SZ_LASTNAME = false)
      by (apply String.eqb_neq; intros E; rewrite E in *; tauto).
    rewrite F1, F2. simpl.
    apply Type_out in Hv. exact (proj1 Hv). }
  destruct (String.eqb SZ_LASTNAME k) eqn:E4; [|discriminate].
  apply String.eqb_eq in E4. subst k. inversion Hc; subst.
  rewrite String.eqb_refl, orb_true_r.
  simpl in Hv. apply bindE_Ok in Hv. destruct Hv as [mid [Hm Hv]].
  apply Type_out in Hm. destruct Hm as [-> _]. simpl in Hv.
  apply bindE_Ok in Hv. destruct Hv as [mid [Hm Hv]]. inversion Hv; subst.
  exact (Call_Ok _ _ Hm).
Qed.

End Owner.

Lemma tcs_config_has_one_to_twelve_zones_witness :
  exists zones,
    dict_get (demo_tcs_config [demo_zone "3432521" "Lounge"; demo_zone "3432522" "Bedroom"] true)
      "zones" = Some (JArr zones)
    /\ (1 <= List.length zones <= 12)%nat.
Proof.
  destruct (@tcs_config_has_one_to_twelve_zones
       digits_only digits_only digits_only
       ["On"; "Off"] ["EvoTouch"] ["HeatingZone"]
       ["PermanentOverride"; "FollowSchedule"; "TemporaryOverride"] ["RadiatorZone"]
       "allowedModes" "allowedSetpointModes" "allowedStates" "allowedSystemModes"
       "canControlCool" "canControlHeat" "dhw" "dhwId" "dhwStateCapabilitiesResponse"
       "maxHeatSetpoint" "setpointValueResolution" "maxSwitchpointsPerDay"
       "minHeatSetpoint" "minSwitchpointsPerDay" "modelType" "name"
       "scheduleCapabilities" "scheduleCapabilitiesResponse" "setpointCapabilities"
       "systemId" "valueResolution" "zoneId" "zoneType" "zones"
       (@construction_props.distinct_NoDup
          ["systemId"; "modelType"; "allowedSystemModes"; "zones"; "dhw"] eq_refl)
       (demo_tcs_config [demo_zone "3432521" "Lounge"; demo_zone "3432522" "Bedroom"] true)
       eq_refl)
    as [system_id [zones [_ [_ [Hzones [Hlen _]]]]]].
  exists zones. split; [exact Hzones | exact Hlen].
Defined.

(** No zone, and thirteen zones. *)
Example tcs_config_zone_bounds :
  is_ok (demo_SCH_TCS (JObj (demo_tcs_config [] true))) = false
  /\ is_ok (demo_SCH_TCS (JObj (demo_tcs_config (repeat (demo_zone "1" "Room") 12) true)))
     = true
  /\ is_ok (demo_SCH_TCS (JObj (demo_tcs_config (repeat (demo_zone "1" "Room") 13) true)))
     = false.
Proof. repeat split; vm_compute; reflexivity. Qed.

Lemma tcs_config_without_dhw_witness :
  is_ok (demo_SCH_TCS (JObj (demo_tcs_config [demo_zone "3432521" "Lounge"] false))) = true.
Proof.
  exact (@tcs_config_without_dhw
       digits_only digits_only digits_only
       ["On"; "Off"] ["EvoTouch"] ["HeatingZone"]
       ["PermanentOverride"; "FollowSchedule"; "TemporaryOverride"] ["RadiatorZone"]
       "allowedModes" "allowedSetpointModes" "allowedStates" "allowedSystemModes"
       "canControlCool" "canControlHeat" "dhw" "dhwId" "dhwStateCapabilitiesResponse"
       "maxHeatSetpoint" "setpointValueResolution" "maxSwitchpointsPerDay"
       "minHeatSetpoint" "minSwitchpointsPerDay" "modelType" "name"
       "scheduleCapabilities" "scheduleCapabilitiesResponse" "setpointCapabilities"
       "systemId" "valueResolution" "zoneId" "zoneType" "zones"
       (@construction_props.distinct_NoDup
          ["systemId"; "modelType"; "allowedSystemModes"; "zones"; "dhw"] eq_refl)
       (demo_tcs_config [demo_zone "3432521" "Lounge"] true)
       eq_refl).
Defined.

Lemma owner_is_obfuscated_witness :
  exists items',
    SCH_LOCATION_OWNER stars has_at_sign "firstname" "lastname" "userID" "username"
      demo_owner = Ok (JObj items')
    /\ Forall2 (masked_owner_field stars "lastname" "username")
         [("userID", JStr "2263181"); ("username", JStr "user@example.com");
          ("firstname", JStr "Ada"); ("lastname", JStr "Lovelace")]
         items'.
Proof.
  assert (Hmail : forall v out, has_at_sign v = Ok out -> out = v).
  { intros v out. unfold has_at_sign. destruct v; try discriminate.
    destruct (contains "@" s); intros H; inversion H; reflexivity. }
  destruct (@owner_is_obfuscated stars has_at_sign "firstname" "lastname" "userID" "username"
              (@construction_props.distinct_NoDup
                 ["userID"; "username"; "firstname"; "lastname"] eq_refl) Hmail
              [("userID", JStr "2263181"); ("username", JStr "user@example.com");
               ("firstname", JStr "Ada"); ("lastname", JStr "Lovelace")]
              (JObj [("userID", JStr "2263181"); ("username", JStr "********");
                     ("firstname", JStr "Ada"); ("lastname", JStr "********")])
              eq_refl eq_refl)
    as [items' [Hout Hall]].
  exists items'. split; [rewrite <- Hout; reflexivity | exact Hall].
Defined.

Lemma clock_range (P : nat -> bool) n :
  forallb P (seq 0 n) = true -> forall k, (k < n)%nat -> P k = true.
Proof.
  intros H k Hk. rewrite forallb_forall in H. apply H. apply in_seq. lia.
Qed.

(** A timing resolution is a number of minutes under one hour: of the
    wall-clock times HH:MM:SS the format [00:%M:00] of the capabilities
    takes exactly those whose hours and seconds are 00. *)
Theorem timing_resolution_is_minutes :
  forall h m s,
    (h < 24)%nat -> (m < 60)%nat -> (s < 60)%nat ->
    is_ok (Datetime "00:%M:00" (JStr (wall_clock h m s))) = Nat.eqb h 0 && Nat.eqb s 0.
Proof.
  intros h m s Hh Hm Hs.
  assert (Hall :
    forallb (fun h => forallb (fun m => forallb (fun s =>
      Bool.eqb (is_ok (Datetime "00:%M:00" (JStr (wall_clock h m s))))
               (Nat.eqb h 0 && Nat.eqb s 0))
      (seq 0 60)) (seq 0 60)) (seq 0 24) = true) by (vm_compute; reflexivity).
  pose proof (@clock_range _ _ Hall h Hh) as H1. cbv beta in H1.
  pose proof (@clock_range _ _ H1 m Hm) as H2. cbv beta in H2.
  pose proof (@clock_range _ _ H2 s Hs) as H3. cbv beta in H3.
  apply Bool.eqb_prop in H3. exact H3.
Qed.

Lemma timing_resolution_is_minutes_witness :
  is_ok (Datetime "00:%M:00" (JStr (wall_clock 0 10 0))) = true
  /\ is_ok (Datetime "00:%M:00" (JStr (wall_clock 1 0 0))) = false.
Proof.
  split.
  - apply (@timing_resolution_is_minutes 0%nat 10%nat 0%nat); lia.
  - apply (@timing_resolution_is_minutes 1%nat 0%nat 0%nat); lia.
Defined.

End installation_props.

(** ** controlsystem.py: further properties *)

Module controlsystem_more.

Import Py http controlsystem tcs_props backup vol_facts construction_props.
Open Scope string_scope.
Open Scope list_scope.

Lemma for_each_ok {S A} (xs : list A) (body : A -> M S unit) :
  (forall x, In x xs -> forall s, exists s', body x s = (Ok tt, s')) ->
  forall s, exists s', for_each xs body s = (Ok tt, s').
Proof.
  induction xs as [|x xs IH]; intros H s; simpl.
  - eexists. reflexivity.
  - destruct (H x (or_introl eq_refl) s) as [s1 H1].
    rewrite (bind_ok _ _ _ H1). apply IH. intros y Hy. apply H. right. exact Hy.
Qed.

Lemma dict_set_In {V} (d : dict V) k v k' v' :
  In (k', v') (dict_set d k v) -> (k' = k /\ v' = v) \/ In (k', v') d.
Proof.
  induction d as [|[q w] d IH]; simpl.
  - intros [H|[]]. inversion H. auto.
  - destruct (String.eqb q k) eqn:E; simpl.
    + apply String.eqb_eq in E. subst. intros [H|H]; [inversion H; auto | auto].
    + intros [H|H]; [auto|]. destruct (IH H); auto.
Qed.

Section Construction.

Variable Zone_new : json -> Exc Zone.t.
Variable HotWater_new : json -> Exc HotWater.t.

Lemma add_zones_indexes :
  forall zone_configs self self',
    add_zones Zone_new zone_configs self = Ok self' ->
    (forall n, dict_get (zones self) n = last_named (_zones self) n) ->
    (forall i, dict_get (zones_by_id self) i = last_with_id (_zones self) i) ->
    (forall n, dict_get (zones self') n = last_named (_zones self') n)
    /\ (forall i, dict_get (zones_by_id self') i = last_with_id (_zones self') i)
    /\ hotwater self' = hotwater self.
Proof.
  induction zone_configs as [|zc zcs IH]; intros self self' H Hn Hi; simpl in H.
  - inversion H; subst. auto.
  - destruct (Zone_new zc) as [zone|]; [|discriminate]. simpl in H.
    apply IH in H; [exact H | |]; simpl; intros q;
      rewrite dict_get_set; unfold last_named, last_with_id;
      rewrite rev_app_distr; simpl;
      [destruct (String.eqb (Zone.name zone) q) | destruct (String.eqb (Zone.zoneId zone) q)];
      auto.
Qed.

(** What the constructor builds from a config none of whose keys is the
    name of an attribute of the instance: the name index gives for a
    name the zone constructed last with that name, the identifier index
    the zone constructed last with that identifier, and the hot water
    unit is there exactly when the config has a DHW block that is true. *)
Theorem construction_indexes :
  forall (config : dict json) (self : ControlSystem),
    plain_config config = true ->
    ControlSystem_init Zone_new HotWater_new config = Ok self ->
    (forall name, dict_get (zones self) name = last_named (_zones self) name)
    /\ (forall zone_id,
          dict_get (zones_by_id self) zone_id = last_with_id (_zones self) zone_id)
    /\ (match hotwater self with Some _ => true | None => false end
        = match dict_get config "dhw" with
          | Some dhw_config => truthy dhw_config
          | None => false
          end).
Proof.
  intros config self _ H. unfold ControlSystem_init in H.
  destruct (systemId _) as [sid|]; [|discriminate]. simpl in H.
  destruct (truthy sid); [|discriminate].
  destruct (subscript config "zones") as [zc|]; [|discriminate]. simpl in H.
  destruct (py_iter zc) as [zcs|]; [|discriminate]. simpl in H.
  match type of H with
  | context [add_zones _ _ ?s] => destruct (add_zones Zone_new zcs s) as [self1|] eqn:E
  end; [|discriminate].
  apply add_zones_indexes in E; [|intros n; reflexivity | intros i; reflexivity].
  destruct E as [En [Ei Eh]]. simpl in H, Eh.
  destruct (dict_get config "dhw") as [dhw|].
  - destruct (truthy dhw).
    + destruct (HotWater_new dhw) as [hw|]; [|discriminate]. inversion H; subst. simpl. auto.
    + inversion H; subst. rewrite Eh. auto.
  - inversion H; subst. rewrite Eh. auto.
Qed.

(** The other ways construction fails, for a config that has the system
    identifier: an identifier that is not true fails the assertion, and
    a config without zones raises the KeyError of the key. *)
Theorem construction_errors :
  forall (config : dict json) (sid : json),
    distinct (dict_keys config) = true ->
    dict_get config "systemId" = Some sid ->
    (truthy sid = false ->
       ControlSystem_init Zone_new HotWater_new config
       = Raise (AssertionError "Invalid config dict"))
    /\ (truthy sid = true -> dict_get config "zones" = None ->
       ControlSystem_init Zone_new HotWater_new config = Raise (KeyError "zones")).
Proof.
  intros config sid Hd Hsid. apply distinct_NoDup in Hd.
  unfold ControlSystem_init, systemId. simpl attrs.
  rewrite dict_update_fresh by (simpl; apply NoDup_keys_filter; exact Hd).
  simpl app. rewrite dict_get_filter by reflexivity. rewrite Hsid. simpl bindE.
  split.
  - intros ->. reflexivity.
  - intros -> Hz. unfold subscript. rewrite Hz. reflexivity.
Qed.

End Construction.

Lemma construction_indexes_witness :
  exists self,
    ControlSystem_init demo_Zone_new demo_HotWater_new demo_config = Ok self
    /\ dict_get (zones self) "Lounge" = last_named (_zones self) "Lounge"
    /\ match hotwater self with Some _ => true | None => false end = true.
Proof.
  eexists. split; [reflexivity|].
  destruct (@construction_indexes demo_Zone_new demo_HotWater_new demo_config _
              eq_refl eq_refl)
    as [Hn [_ Hh]].
  split; [exact (Hn "Lounge") | exact Hh].
Defined.

Lemma construction_errors_witness :
  ControlSystem_init demo_Zone_new demo_HotWater_new
    [("systemId", JInt 0); ("zones", JArr [])]
  = Raise (AssertionError "Invalid config dict")
  /\ ControlSystem_init demo_Zone_new demo_HotWater_new [("systemId", JStr "1234567")]
     = Raise (KeyError "zones").
Proof.
  split.
  - exact (proj1 (@construction_errors demo_Zone_new demo_HotWater_new
                    [("systemId", JInt 0); ("zones", JArr [])] (JInt 0) eq_refl eq_refl)
             eq_refl).
  - exact (proj2 (@construction_errors demo_Zone_new demo_HotWater_new
                    [("systemId", JStr "1234567")] (JStr "1234567") eq_refl eq_refl)
             eq_refl eq_refl).
Defined.

Section Backup.

Variable Zone_schedule : Zone.t -> M World json.
Variable HotWater_schedule : HotWater.t -> M World json.

Lemma backup_zones_spec :
  forall zs schedules w doc w',
    backup_zones Zone_schedule zs schedules w = (Ok doc, w') ->
    NoDup (dict_keys schedules) ->
    (forall k e, In (k, e) schedules -> backup_entry e) ->
    NoDup (dict_keys doc)
    /\ (forall k, In k (dict_keys doc)
                  <-> In k (dict_keys schedules) \/ In k (map Zone.zoneId zs))
    /\ (forall k e, In (k, e) doc -> backup_entry e).
Proof.
  induction zs as [|z zs IH]; intros schedules w doc w' H Hnd Hall; simpl in H.
  - inversion H; subst. repeat split; auto. intros [?|[]]; assumption.
  - unfold bind in H. destruct (Zone_schedule z w) as [[schedule|e] w1]; [|discriminate].
    apply IH in H.
    + destruct H as [H1 [H2 H3]]. repeat split; auto.
      * intros Hk. apply H2 in Hk. rewrite dict_keys_set_In in Hk. simpl.
        intuition (subst; auto).
      * intros Hk. apply H2. rewrite dict_keys_set_In. simpl in Hk.
        intuition (subst; auto).
    + apply dict_keys_set_NoDup. exact Hnd.
    + intros k e Hin. apply dict_set_In in Hin. destruct Hin as [[_ ->]|Hin].
      * eexists _, _. reflexivity.
      * exact (Hall _ _ Hin).
Qed.

Lemma collect_schedules_spec :
  forall self w doc w',
    collect_schedules Zone_schedule HotWater_schedule self w = (Ok doc, w') ->
    NoDup (dict_keys doc)
    /\ (forall k, In k (dict_keys doc) <-> In k (entity_ids self))
    /\ (forall k e, In (k, e) doc -> backup_entry e).
Proof.
  intros self w doc w' H. unfold collect_schedules, backup_hotwater, entity_ids in H |- *.
  unfold bind in H at 1.
  destruct (hotwater self) as [hw|].
  - unfold bind in H. destruct (HotWater_schedule hw w) as [[schedule|e] w1]; [|discriminate].
    simpl in H. apply backup_zones_spec in H.
    + destruct H as [H1 [H2 H3]]. repeat split; auto.
      * intros Hk. apply H2 in Hk. simpl in Hk |- *. intuition (subst; auto).
      * intros Hk. apply H2. simpl in Hk |- *. intuition (subst; auto).
    + simpl. constructor; [intros [] | constructor].
    + simpl. intros k e [Hin|[]]. inversion Hin; subst. eexists _, _. reflexivity.
  - simpl in H. apply backup_zones_spec in H.
    + destruct H as [H1 [H2 H3]]. repeat split; auto.
      * intros Hk. apply H2 in Hk. simpl in Hk |- *. intuition (subst; auto).
      * intros Hk. apply H2. simpl in Hk |- *. intuition (subst; auto).
    + constructor.
    + intros k e [].
Qed.

(** The document of a backup that went through: one entry for every
    identifier of the installation (the hot water unit's and the
    zones'), none for anything else, no identifier twice, and every
    entry is a name and a schedule. *)
Theorem backup_covers_installation :
  forall (self : ControlSystem) (w w' : World) (doc : dict json),
    collect_schedules Zone_schedule HotWater_schedule self w = (Ok doc, w') ->
    NoDup (dict_keys doc)
    /\ (forall zone_id, In zone_id (dict_keys doc) <-> In zone_id (entity_ids self))
    /\ (forall zone_id entry, In (zone_id, entry) doc -> backup_entry entry).
Proof.
  intros self w w' doc H. exact (collect_schedules_spec _ _ H).
Qed.

End Backup.

Lemma In_dict_keys {V} (d : dict V) k v : In (k, v) d -> In k (dict_keys d).
Proof.
  intros H. unfold dict_keys. apply in_map_iff. exists (k, v). auto.
Qed.

Lemma zone_statuses_ok zs :
  forall result,
    is_ok (zone_statuses zs result) = forallb (fun z => is_ok (zone_status z)) zs.
Proof.
  induction zs as [|z zs IH]; intros result; simpl; [reflexivity|].
  destruct (zone_status z) as [entry|e]; simpl; [apply IH | reflexivity].
Qed.

(** The temperature report is all or nothing.  After a refresh that went
    through, it comes exactly when the hot water unit, if there is one,
    has a temperature and the entry of every zone can be made; one zone
    without its target or its availability flag makes the whole report
    raise.  Either way the report itself does nothing to the world. *)
Theorem temperatures_all_or_nothing :
  forall (location_status : ControlSystem -> M World ControlSystem)
         (self self' : ControlSystem) (w w' : World),
    location_status self w = (Ok self', w') ->
    is_ok (fst (temperatures location_status self w))
    = hotwater_complete (hotwater self')
      && forallb (fun z => is_ok (zone_status z)) (_zones self')
    /\ snd (temperatures location_status self w) = w'.
Proof.
  intros location_status self self' w w' Hrefresh.
  unfold temperatures. rewrite (bind_ok _ _ _ Hrefresh).
  unfold bind, lift, ret, dhw_status, hotwater_complete.
  destruct (hotwater self') as [hw|].
  - destruct (getitem (HotWater.temperatureStatus hw) "temperature") as [temp|e];
      simpl; [|auto].
    match goal with
    | |- context [zone_statuses ?zs ?acc] =>
        pose proof (zone_statuses_ok zs acc) as Hz;
        destruct (zone_statuses zs acc)
    end; simpl in *; auto.
  - simpl.
    match goal with
    | |- context [zone_statuses ?zs ?acc] =>
        pose proof (zone_statuses_ok zs acc) as Hz;
        destruct (zone_statuses zs acc)
    end; simpl in *; auto.
Qed.

(** The request of a mode change goes to the mode address of the
    system, with the headers that the client gives when the request is
    made: the copy of the headers that got a Content-Type is not what is
    sent.  The call raises what the transport raises or the HTTPError of
    an error status, and returns otherwise. *)
Theorem mode_change_request :
  forall (URL_BASE API_STRFTIME : string) (py_str : json -> string)
         (_headers : M World (dict json))
         (self : ControlSystem) (mode : string) (until : option datetime)
         (w w1 w2 : World) (h1 h2 : dict json) (sid : json),
    _headers w = (Ok h1, w1) ->
    _headers w1 = (Ok h2, w2) ->
    systemId self = Ok sid ->
    exists rq,
      trace (snd (_set_status URL_BASE API_STRFTIME py_str _headers self mode until w))
      = trace w2 ++ [Sent rq]
      /\ url rq = (URL_BASE ++ "/temperatureControlSystem/" ++ py_str sid ++ "/mode")%string
      /\ request_headers rq = JObj h2
      /\ fst (_set_status URL_BASE API_STRFTIME py_str _headers self mode until w)
         = match server w2 (requests_of (trace w2 ++ [Sent rq])) with
           | Ok response => raise_for_status response
           | Raise e => Raise e
           end.
Proof.
  intros URL_BASE API_STRFTIME py_str _headers self mode until w w1 w2 h1 h2 sid
         H1 H2 Hsid.
  unfold _set_status, bind, lift.
  rewrite H1, Hsid, H2. unfold send. simpl.
  eexists. split; [|split; [|split]].
  - destruct (server w2 _) as [response|e]; simpl; reflexivity.
  - reflexivity.
  - reflexivity.
  - simpl. destruct (server w2 _) as [response|e]; reflexivity.
Qed.

Section BackupAndRestore.

Variable json_dumps : json -> string.
Variable Zone_schedule : Zone.t -> M World json.
Variable HotWater_schedule : HotWater.t -> M World json.
Variable Zone_set_schedule : Zone.t -> string -> M World unit.
Variable HotWater_set_schedule : HotWater.t -> string -> M World unit.
Variable read_backup : string -> M World json.

(** Backup, then restore: when every zone of the installation is in the
    identifier index and setting a schedule goes through, restoring the
    document that a backup of the same installation collected goes
    through as well: no entry is without its name or its schedule, and
    no identifier is unknown. *)
Theorem restore_of_own_backup :
  forall (self : ControlSystem) (filename : string) (w0 w1 w2 w3 : World)
         (doc : dict json),
    (forall z, In z (_zones self) -> dict_has (zones_by_id self) (Zone.zoneId z) = true) ->
    (forall z payload w, exists w', Zone_set_schedule z payload w = (Ok tt, w')) ->
    (forall hw payload w, exists w', HotWater_set_schedule hw payload w = (Ok tt, w')) ->
    collect_schedules Zone_schedule HotWater_schedule self w0 = (Ok doc, w1) ->
    read_backup filename w2 = (Ok (JObj doc), w3) ->
    exists w4,
      zone_schedules_restore json_dumps Zone_set_schedule HotWater_set_schedule
        read_backup self filename w2 = (Ok tt, w4).
Proof.
  intros self filename w0 w1 w2 w3 doc Hindex Hzone Hhw Hcollect Hread.
  destruct (collect_schedules_spec _ _ _ _ Hcollect) as [_ [Hkeys Hentries]].
  unfold zone_schedules_restore.
  rewrite (bind_ok _ _ _ Hread).
  rewrite (bind_ok _ _ _ (eq_refl : lift (py_items (JObj _)) w3 = (Ok _, w3))).
  apply for_each_ok. intros [k e] Hin w.
  destruct (Hentries _ _ Hin) as [name [schedule ->]].
  assert (Hk : In k (entity_ids self)) by (apply Hkeys; exact (In_dict_keys _ _ _ Hin)).
  unfold restore_one.
  rewrite (bind_ok _ _ _ (eq_refl : lift (getitem (JObj [("name", JStr name);
             ("schedule", schedule)]) "name") w = (Ok (JStr name), w))).
  rewrite (bind_ok _ _ _ (eq_refl : lift (getitem (JObj [("name", JStr name);
             ("schedule", schedule)]) "schedule") w = (Ok schedule, w))).
  assert (Hby_id : In k (map Zone.zoneId (_zones self)) ->
            exists w', bind (lift (subscript (zones_by_id self) k))
                         (fun zone => Zone_set_schedule zone (json_dumps schedule)) w
                       = (Ok tt, w')).
  { intros Hz. apply in_map_iff in Hz. destruct Hz as [z [<- Hz]].
    destruct (config_props.dict_has_get _ _ (Hindex z Hz)) as [zone Hzone'].
    unfold bind, lift, subscript. rewrite Hzone'. apply Hzone. }
  unfold entity_ids in Hk.
  destruct (hotwater self) as [hw|].
  - destruct (String.eqb (HotWater.zoneId hw) k) eqn:E.
    + apply Hhw.
    + apply Hby_id. simpl in Hk. destruct Hk as [Hk|Hk]; [|exact Hk].
      apply String.eqb_neq in E. contradiction.
  - apply Hby_id. exact Hk.
Qed.

End BackupAndRestore.

Lemma mode_change_request_witness :
  exists rq,
    trace (snd (_set_status "https://tcc" "%Y-%m-%dT%H:%M:%SZ" demo_py_str demo_headers
                  demo_tcs "Away" (Some demo_until) quiet_world))
    = [Sent rq]
    /\ url rq = "https://tcc/temperatureControlSystem/1234567/mode"
    /\ request_headers rq = JObj [("Authorization", JStr "bearer token")].
Proof.
  destruct (@mode_change_request "https://tcc" "%Y-%m-%dT%H:%M:%SZ" demo_py_str
              demo_headers demo_tcs "Away" (Some demo_until)
              quiet_world quiet_world quiet_world
              [("Authorization", JStr "bearer token")]
              [("Authorization", JStr "bearer token")]
              (JStr "1234567") eq_refl eq_refl eq_refl)
    as [rq [Ht [Hu [Hh _]]]].
  exists rq. split; [exact Ht | split; [exact Hu | exact Hh]].
Defined.

Lemma temperatures_all_or_nothing_witness :
  is_ok (fst (temperatures (fun self => ret self) demo_tcs quiet_world)) = true
  /\ snd (temperatures (fun self => ret self) demo_tcs quiet_world) = quiet_world.
Proof.
  exact (@temperatures_all_or_nothing (fun self => ret self) demo_tcs demo_tcs
           quiet_world quiet_world eq_refl).
Defined.

Lemma backup_covers_installation_witness :
  exists doc,
    collect_schedules (fun z => demo_schedule_of (Zone.name z))
      (fun hw => demo_schedule_of "hot water") demo_tcs quiet_world = (Ok doc, quiet_world)
    /\ NoDup (dict_keys doc)
    /\ dict_keys doc = entity_ids demo_tcs.
Proof.
  eexists. split; [reflexivity|].
  split; [|reflexivity].
  exact (proj1 (@backup_covers_installation (fun z => demo_schedule_of (Zone.name z))
                  (fun hw => demo_schedule_of "hot water") demo_tcs quiet_world quiet_world
                  _ eq_refl)).
Defined.

Lemma restore_of_own_backup_witness :
  collect_schedules (fun z => demo_schedule_of (Zone.name z))
    (fun hw => demo_schedule_of "hot water") demo_tcs quiet_world
  = (Ok demo_own_backup, quiet_world)
  /\ exists w,
       zone_schedules_restore demo_json_dumps (fun _ => demo_apply) (fun _ => demo_apply)
         (demo_read (JObj demo_own_backup)) demo_tcs "backup.json" quiet_world = (Ok tt, w).
Proof.
  split; [reflexivity|].
  apply (@restore_of_own_backup demo_json_dumps
           (fun z => demo_schedule_of (Zone.name z))
           (fun hw => demo_schedule_of "hot water")
           (fun _ => demo_apply) (fun _ => demo_apply)
           (demo_read (JObj demo_own_backup)) demo_tcs "backup.json"
           quiet_world quiet_world quiet_world quiet_world demo_own_backup).
  - intros z [<-|[<-|[]]]; reflexivity.
  - intros z payload w. exists w. reflexivity.
  - intros hw payload w. exists w. reflexivity.
  - reflexivity.
  - reflexivity.
Defined.

End controlsystem_more.

(** ** evohomeclient: further properties *)

Module client_more_props.

Import Py http evohomeclient evohomeclient_gateway client_props client_more.
Import vol_facts client_facts.
Open Scope string_scope.
Open Scope list_scope.

Section ClientMore.

Variable py_str : json -> string.

Lemma supplied_user_data_populate username password user_data hostname w force :
  is_None user_data = false ->
  exists e st',
    _populate_full_data py_str force
      {| self := EvohomeClient_init username password user_data hostname; world := w |}
    = (Raise e, st')
    /\ world st' = w.
Proof.
  intros H. unfold _populate_full_data, _populate_user_info, bind, get_self, lift, ret.
  simpl. rewrite H. simpl.
  destruct (getitem user_data "userInfo") as [info|e]; [|eauto].
  destruct (getitem info "userID") as [uid|e]; [|eauto].
  destruct (getitem user_data "sessionId") as [sid|e]; [|eauto].
  simpl. eauto.
Qed.

(** A client that was constructed with user data never gets anywhere:
    its headers are never set, so fetching the installation raises
    before any request is sent, and so does every write. *)
Theorem supplied_user_data_never_works :
  forall (username password hostname : string) (user_data : json) (w : World),
    is_None user_data = false ->
    let st := {| self := EvohomeClient_init username password user_data hostname;
                 world := w |} in
    (forall force, exists e st',
        _populate_full_data py_str force st = (Raise e, st') /\ world st' = w)
    /\ (forall fuel op, exists e st',
          perform py_str fuel op st = (Raise e, st') /\ world st' = w)
    /\ (forall info uid sid,
          getitem user_data "userInfo" = Ok info ->
          getitem info "userID" = Ok uid ->
          getitem user_data "sessionId" = Ok sid ->
          fst (_populate_full_data py_str false st)
          = Raise (TypeError "object does not support item assignment")).
Proof.
  intros username password hostname user_data w H st. split; [|split].
  - intros force. apply supplied_user_data_populate. exact H.
  - intros fuel op.
    destruct (@supplied_user_data_populate username password user_data hostname w false H)
      as [e [st' [Hp Hw]]].
    exists e, st'. split; [|exact Hw].
    destruct op; simpl;
      unfold _set_status, _set_status_put, _set_heat_setpoint, _set_heat_setpoint_put,
             _set_dhw, _set_dhw_put;
      apply bind_raise; apply bind_raise; exact Hp.
  - intros info uid sid H1 H2 H3.
    unfold st, _populate_full_data, _populate_user_info, bind, get_self, lift, ret.
    simpl. rewrite H. simpl. rewrite H1, H2, H3. reflexivity.
Qed.

(** The login of a client without user data sends the login request and
    nothing else.  An answer with an error status, or with a status other
    than 200 and the word code in its text, raises an HTTPError and
    leaves the client without user data; any other answer, whatever its
    status, is taken for the user data. *)
Theorem login_outcome :
  forall (st : State) (r : Response),
    is_None (user_data (self st)) = true ->
    server (world st)
      (requests_of (trace (world st) ++ [Sent (login_request (self st))])) = Ok r ->
    (login_refused r = true ->
       exists st',
         _populate_user_info st = (Raise (HTTPError (status_code r)), st')
         /\ user_data (self st') = JNull
         /\ trace (world st') = trace (world st) ++ [Sent (login_request (self st))])
    /\ (login_refused r = false ->
        forall v, content r = Ok v ->
          exists st',
            _populate_user_info st = (Ok v, st')
            /\ user_data (self st') = v
            /\ trace (world st') = trace (world st) ++ [Sent (login_request (self st))]).
Proof.
  intros st r Hnone Hserver.
  assert (Hnull : user_data (self st) = JNull)
    by (destruct (user_data (self st)); try discriminate; reflexivity).
  unfold login_request, credentials in Hserver.
  unfold login_refused, _populate_user_info, _convert, request, io, send, bind, get_self,
         set_self, modify, ret, lift, raise, raise_for_status.
  cbn [self world with_postdata with_headers with_user_data username password hostname
       postdata headers user_data fst snd trace server].
  rewrite Hnone, Hserver.
  cbn [self world with_postdata with_headers with_user_data username password hostname
       postdata headers user_data fst snd trace server].
  split.
  - intros Hrefused.
    destruct (status_code r =? 429)%Z eqn:E429.
    + apply Z.eqb_eq in E429. rewrite E429. simpl.
      eexists. split; [reflexivity|]. split; [exact Hnull | reflexivity].
    + destruct (status_code r =? 200)%Z eqn:E200.
      * apply Z.eqb_eq in E200. rewrite E200 in Hrefused. discriminate.
      * simpl negb in *. cbv iota. rewrite andb_true_l in Hrefused.
        destruct (contains "code" (text r)).
        -- eexists. split; [reflexivity|]. split; [exact Hnull | reflexivity].
        -- rewrite orb_false_r in Hrefused. rewrite Hrefused.
           eexists. split; [reflexivity|]. split; [exact Hnull | reflexivity].
  - intros Haccepted v Hv. apply orb_false_iff in Haccepted.
    destruct Haccepted as [Hstatus Hcode].
    destruct (status_code r =? 429)%Z eqn:E429.
    + apply Z.eqb_eq in E429. rewrite E429 in Hstatus. discriminate.
    + rewrite Hstatus.
      destruct (status_code r =? 200)%Z eqn:E200; simpl negb in *; cbv iota.
      * rewrite Hv. eexists. split; [reflexivity|]. split; reflexivity.
      * rewrite andb_true_l in Hcode. rewrite Hcode, Hv.
        eexists. split; [reflexivity|]. split; reflexivity.
Qed.

Lemma find_dhw_none device_list :
  forallb not_hot_water device_list = true -> find_dhw device_list = Ok JNull.
Proof.
  induction device_list as [|d ds IH]; simpl; [reflexivity|].
  intros H. apply andb_prop in H. destruct H as [Hd Hds].
  unfold not_hot_water in Hd.
  destruct (getitem d "thermostatModelType") as [model|]; [|discriminate]. simpl.
  apply negb_true_iff in Hd. rewrite Hd. exact (IH Hds).
Qed.

Lemma find_dhw_first before device after model :
  forallb not_hot_water before = true ->
  getitem device "thermostatModelType" = Ok model ->
  py_eq model (JStr "DOMESTIC_HOT_WATER") = true ->
  find_dhw (before ++ device :: after) = getitem device "deviceID".
Proof.
  intros Hb Hm He. induction before as [|d ds IH]; simpl.
  - rewrite Hm. simpl. rewrite He. reflexivity.
  - simpl in Hb. apply andb_prop in Hb. destruct Hb as [Hd Hds].
    unfold not_hot_water in Hd.
    destruct (getitem d "thermostatModelType") as [m|]; [|discriminate]. simpl.
    apply negb_true_iff in Hd. rewrite Hd. exact (IH Hds).
Qed.

Lemma set_dhw_put_request status mode next_time st device_list target :
  is_None (full_data (self st)) = false ->
  getitem (full_data (self st)) "devices" = Ok (JArr device_list) ->
  find_dhw device_list = Ok target ->
  exists rq,
    trace (world (snd (_set_dhw_put py_str status mode next_time st)))
    = trace (world st) ++ [Sent rq]
    /\ method rq = "PUT"
    /\ url rq = (hostname (self st) ++ "/WebAPI/api/devices" ++ "/" ++ py_str target
                 ++ "/thermostat/changeableValues")%string.
Proof.
  intros Hfull Hdevices Hfind. unfold _set_dhw_put.
  rewrite (bind_ok _ _ _ (populated_noop py_str st Hfull)).
  unfold _get_dhw_zone, _get_task_id, _convert, request, io, send, bind, get_self, lift,
         ret, raise_for_status.
  rewrite Hdevices. simpl py_iter. cbv iota beta. rewrite Hfind.
  cbn [self world fst snd trace server].
  exists {| method := "PUT";
            url := (hostname (self st) ++ "/WebAPI/api/devices" ++ "/" ++ py_str target
                    ++ "/thermostat/changeableValues")%string;
            payload := Some (JObj [("Status", JStr status); ("Mode", mode);
                                   ("NextTime", next_time); ("SpecialModes", JNull);
                                   ("HeatSetpoint", JNull); ("CoolSetpoint", JNull)]);
            request_headers := headers (self st) |}.
  split; [|split; reflexivity].
  destruct (server (world st) _) as [r|e]; [|reflexivity].
  destruct ((400 <=? status_code r)%Z && (status_code r <? 600)%Z); [reflexivity|].
  destruct (content r) as [[]|]; try reflexivity.
  destruct (index0 _); reflexivity.
Qed.

(** The hot water write goes to the first device of the installation
    whose model type is DOMESTIC_HOT_WATER.  When the installation has no
    such device the write is sent all the same, to the address that has
    the printed None in the place of the device identifier. *)
Theorem dhw_write_target :
  forall (st : State) (status : string) (mode next_time : json)
         (device_list : list json),
    is_None (full_data (self st)) = false ->
    getitem (full_data (self st)) "devices" = Ok (JArr device_list) ->
    (forallb not_hot_water device_list = true ->
       exists rq,
         trace (world (snd (_set_dhw_put py_str status mode next_time st)))
         = trace (world st) ++ [Sent rq]
         /\ method rq = "PUT"
         /\ url rq = (hostname (self st) ++ "/WebAPI/api/devices" ++ "/" ++ py_str JNull
                      ++ "/thermostat/changeableValues")%string)
    /\ (forall before device after model device_id,
          device_list = before ++ device :: after ->
          forallb not_hot_water before = true ->
          getitem device "thermostatModelType" = Ok model ->
          py_eq model (JStr "DOMESTIC_HOT_WATER") = true ->
          getitem device "deviceID" = Ok device_id ->
          exists rq,
            trace (world (snd (_set_dhw_put py_str status mode next_time st)))
            = trace (world st) ++ [Sent rq]
            /\ method rq = "PUT"
            /\ url rq = (hostname (self st) ++ "/WebAPI/api/devices" ++ "/"
                         ++ py_str device_id ++ "/thermostat/changeableValues")%string).
Proof.
  intros st status mode next_time device_list Hfull Hdevices. split.
  - intros Hnone.
    exact (set_dhw_put_request status mode next_time st Hfull Hdevices
             (find_dhw_none _ Hnone)).
  - intros before device after model device_id -> Hbefore Hmodel Heq Hid.
    apply (set_dhw_put_request status mode next_time st Hfull Hdevices).
    rewrite (find_dhw_first _ _ _ Hbefore Hmodel Heq). exact Hid.
Qed.

Lemma puts_app t u : puts (t ++ u) = (puts t + puts u)%nat.
Proof.
  unfold puts. rewrite requests_of_app, filter_app, length_app. reflexivity.
Qed.

Lemma puts_no_put events : Forall no_put events -> puts events = 0%nat.
Proof.
  induction 1 as [|e events He _ IH]; [reflexivity|].
  change (e :: events) with ([e] ++ events). rewrite puts_app, IH.
  destruct e as [rq|n]; [|reflexivity].
  unfold puts. simpl. simpl in He.
  destruct (String.eqb (method rq) "PUT") eqn:E; [|reflexivity].
  apply String.eqb_eq in E. contradiction.
Qed.

Lemma no_put_get rq : method rq = "GET" -> no_put (Sent rq).
Proof. simpl. intros ->. discriminate. Qed.

Lemma no_put_post rq : method rq = "POST" -> no_put (Sent rq).
Proof. simpl. intros ->. discriminate. Qed.

Lemma one_put_emits {A} (m : M State A) : emits no_put m -> at_most_one_put m.
Proof.
  intros H s. destruct (H s) as [events [Ht Hall]].
  exists events. split; [exact Ht|]. rewrite (puts_no_put Hall). lia.
Qed.

Lemma one_put_after {A B} (m : M State A) (k : A -> M State B) :
  emits no_put m -> (forall a, at_most_one_put (k a)) -> at_most_one_put (bind m k).
Proof.
  intros Hm Hk s. unfold bind.
  destruct (Hm s) as [e1 [H1 F1]].
  destruct (m s) as [[a|e] s']; simpl in H1.
  - destruct (Hk a s') as [e2 [H2 F2]].
    exists (e1 ++ e2). rewrite H2, H1, app_assoc. split; [reflexivity|].
    rewrite puts_app, (puts_no_put F1). exact F2.
  - exists e1. simpl. split; [exact H1|]. rewrite (puts_no_put F1). lia.
Qed.

Lemma one_put_before {A B} (m : M State A) (k : A -> M State B) :
  at_most_one_put m -> (forall a, emits no_put (k a)) -> at_most_one_put (bind m k).
Proof.
  intros Hm Hk s. unfold bind.
  destruct (Hm s) as [e1 [H1 F1]].
  destruct (m s) as [[a|e] s']; simpl in H1.
  - destruct (Hk a s') as [e2 [H2 F2]].
    exists (e1 ++ e2). rewrite H2, H1, app_assoc. split; [reflexivity|].
    rewrite puts_app, (puts_no_put F2). lia.
  - exists e1. simpl. split; [exact H1 | exact F1].
Qed.

Lemma one_put_request method url data headers :
  at_most_one_put (request method url data headers).
Proof.
  intros s. eexists [_]. unfold request, io, send. simpl.
  split; [reflexivity|]. unfold puts. simpl.
  destruct (String.eqb method "PUT"); simpl; lia.
Qed.

Lemma one_put_submitted {A} url data headers (k : Response -> M State A) :
  (forall r, emits no_put (k r)) ->
  at_most_one_put (bind (request "PUT" url data headers) k).
Proof. intros Hk. apply one_put_before; [apply one_put_request | exact Hk]. Qed.

Lemma no_put_after_request response :
  emits no_put (bind (lift (raise_for_status response))
                     (fun _ => _get_task_id response)).
Proof.
  apply emits_bind; [apply emits_lift | intros _].
  apply emits_get_task_id.
Qed.

Lemma no_put_wait fuel task_id : emits no_put (wait_for_task py_str fuel task_id).
Proof.
  apply emits_wait_for_task;
    [exact no_put_get | exact no_put_post | exact I].
Qed.

Lemma one_put_submit op : at_most_one_put (submit py_str op).
Proof.
  destruct op; simpl;
    unfold _set_status_put, _set_heat_setpoint_put, _set_dhw_put;
    (apply one_put_after;
     [apply emits_populate_full_data; [exact no_put_get | exact no_put_post] | intros _]).
  - apply one_put_after; [apply emits_get_self | intros c].
    apply one_put_submitted. intros r. apply no_put_after_request.
  - apply one_put_after;
      [apply emits_get_device_id | intros device_id].
    apply one_put_after; [apply emits_get_self | intros c].
    apply one_put_submitted. intros r. apply no_put_after_request.
  - apply one_put_after; [apply emits_get_dhw_zone | intros dhw_zone].
    apply one_put_after; [apply emits_get_self | intros c].
    apply one_put_submitted. intros r. apply no_put_after_request.
Qed.

(** A write puts its request on the wire once at most: whatever the
    server answers and however long the task takes, the write is never
    sent a second time, and the polling sends no PUT at all. *)
Theorem write_is_sent_once :
  forall (fuel : nat) (op : write),
    at_most_one_put (perform py_str fuel op)
    /\ (forall task_id, emits no_put (wait_for_task py_str fuel task_id)).
Proof.
  intros fuel op. split; [|intros task_id; apply no_put_wait].
  assert (H : perform py_str fuel op
              = bind (submit py_str op) (wait_for_task py_str fuel))
    by (destruct op; reflexivity).
  rewrite H. apply one_put_before; [apply one_put_submit | intros t; apply no_put_wait].
Qed.

Lemma bind_inv_ok {S A B} (m : M S A) (k : A -> M S B) s b s' :
  bind m k s = (Ok b, s') -> exists a s1, m s = (Ok a, s1) /\ k a s1 = (Ok b, s').
Proof.
  unfold bind. destruct (m s) as [[a|e] s1]; [eauto | discriminate].
Qed.

Lemma index_device_keeps device s r s' :
  index_device device s = (r, s') ->
  full_data (self s') = full_data (self s)
  /\ location_id (self s') = location_id (self s).
Proof.
  unfold index_device, bind, lift, get_self, set_self, modify.
  destruct (getitem device "deviceID") as [device_id|]; [|intros H; inversion H; auto].
  simpl. destruct (index_set (devices (self s)) device_id device);
    [|intros H; inversion H; auto].
  simpl. destruct (getitem device "name") as [device_name|];
    [|intros H; inversion H; auto].
  simpl. destruct (index_set (named_devices (self s)) device_name device);
    intros H; inversion H; auto.
Qed.

Lemma index_devices_keep device_list :
  forall s r s',
    for_each device_list index_device s = (r, s') ->
    full_data (self s') = full_data (self s)
    /\ location_id (self s') = location_id (self s).
Proof.
  induction device_list as [|d ds IH]; intros s r s' H; simpl in H.
  - inversion H; auto.
  - unfold bind in H. destruct (index_device d s) as [[[]|e] s1] eqn:E.
    + apply index_device_keeps in E. apply IH in H.
      destruct E as [E1 E2], H as [H1 H2]. rewrite H1, H2. auto.
    + inversion H; subst. exact (index_device_keeps _ _ E).
Qed.

Tactic Notation "bind_step" hyp(H) ident(a) ident(s) ident(E) :=
  apply bind_inv_ok in H; destruct H as [a [s [E H]]].

Lemma fetch_inv st st' force :
  is_None (full_data (self st)) || force = true ->
  _populate_full_data py_str force st = (Ok tt, st') ->
  exists full location device_list s5,
    getitem full "locationID" = Ok location
    /\ bindE (getitem full "devices") py_iter = Ok device_list
    /\ full_data (self s5) = full
    /\ location_id (self s5) = location
    /\ named_devices (self s5) = Some []
    /\ for_each device_list index_device s5 = (Ok tt, st').
Proof.
  intros Hrun H. unfold _populate_full_data in H.
  bind_step H c s0 E0. unfold get_self in E0. inversion E0; subst c s0. clear E0.
  rewrite Hrun in H.
  bind_step H u s1 E1.
  bind_step H c s E. unfold get_self in E. inversion E; subst c s. clear E.
  bind_step H user_info s E. unfold lift in E. inversion E; subst s. clear E.
  bind_step H user_id s E. unfold lift in E. inversion E; subst s. clear E.
  bind_step H session_id s E. unfold lift in E. inversion E; subst s. clear E.
  bind_step H headers' s E. unfold lift in E. inversion E; subst s. clear E.
  bind_step H x s2 E2.
  bind_step H c s E. unfold get_self in E. inversion E; subst c s. clear E.
  bind_step H response s3 E3.
  bind_step H x' s E. unfold lift in E. inversion E; subst s. clear E.
  bind_step H locations s E. unfold _convert, lift in E. inversion E; subst s. clear E.
  bind_step H full s E. unfold lift in E. inversion E; subst s. clear E.
  bind_step H x4 s4 E4. unfold set_self, modify in E4. inversion E4; subst s4. clear E4.
  bind_step H location s E. unfold lift in E.
  assert (Hloc : getitem full "locationID" = Ok location) by (inversion E; auto).
  inversion E; subst s. clear E.
  bind_step H x5 s5 E5. unfold set_self, modify in E5. inversion E5; subst s5. clear E5.
  bind_step H x6 s6 E6. unfold set_self, modify in E6. inversion E6; subst s6. clear E6.
  bind_step H x7 s7 E7. unfold set_self, modify in E7. inversion E7; subst s7. clear E7.
  bind_step H device_list s E. unfold lift in E.
  assert (Hdl : getitem full "devices" = Ok device_list) by (inversion E; auto).
  inversion E; subst s. clear E.
  bind_step H device_items s E. unfold lift in E.
  assert (Hit : py_iter device_list = Ok device_items) by (inversion E; auto).
  inversion E; subst s. clear E.
  eexists full, location, device_items, _.
  split; [exact Hloc|]. split; [rewrite Hdl; exact Hit|].
  split; [|split; [|split; [|exact H]]]; reflexivity.
Qed.

Lemma fetch_leaves_data st st' force :
  is_None (full_data (self st)) || force = true ->
  _populate_full_data py_str force st = (Ok tt, st') ->
  is_None (full_data (self st')) = false
  /\ getitem (full_data (self st')) "locationID" = Ok (location_id (self st')).
Proof.
  intros Hrun H.
  destruct (fetch_inv _ _ Hrun H)
    as [full [location [device_list [s5 [Hloc [_ [Hf [Hl [_ Hloop]]]]]]]]].
  apply index_devices_keep in Hloop. destruct Hloop as [Hf' Hl'].
  rewrite Hf in Hf'. rewrite Hl in Hl'. rewrite Hf', Hl'.
  split; [|exact Hloc].
  destruct full; try reflexivity. discriminate.
Qed.

(** A fetch of the installation that went through is not repeated: the
    installation data are there, the location identifier is the one
    they hold, and a further fetch that is not forced sends nothing and
    changes nothing. *)
Theorem fetch_is_cached :
  forall (st st' : State) (force : bool),
    is_None (full_data (self st)) || force = true ->
    _populate_full_data py_str force st = (Ok tt, st') ->
    is_None (full_data (self st')) = false
    /\ getitem (full_data (self st')) "locationID" = Ok (location_id (self st'))
    /\ _populate_full_data py_str false st' = (Ok tt, st').
Proof.
  intros st st' force Hrun H.
  destruct (fetch_leaves_data _ _ Hrun H) as [Hsome Hloc].
  split; [exact Hsome|]. split; [exact Hloc|].
  apply populated_noop. exact Hsome.
Qed.

Lemma py_eq_of_str s v : py_eq (JStr s) v = true -> v = JStr s.
Proof.
  destruct v; simpl; try discriminate.
  intros H. apply String.eqb_eq in H. subst. reflexivity.
Qed.

Lemma assoc_set_str items k v z :
  assoc_get (assoc_set items k v) (JStr z)
  = if py_eq k (JStr z) then Some v else assoc_get items (JStr z).
Proof.
  induction items as [|[k' v'] items IH]; simpl; [reflexivity|].
  destruct (py_eq k' k) eqn:Ek; simpl.
  - destruct (py_eq k (JStr z)) eqn:Ez.
    + apply config_props.py_eq_str in Ez. subst k. rewrite Ek. reflexivity.
    + destruct (py_eq k' (JStr z)) eqn:Ez'; [|reflexivity].
      apply config_props.py_eq_str in Ez'. subst k'.
      apply py_eq_of_str in Ek. subst k. simpl in Ez.
      rewrite String.eqb_refl in Ez. discriminate.
  - rewrite IH. destruct (py_eq k (JStr z)) eqn:Ez; [|reflexivity].
    destruct (py_eq k' (JStr z)) eqn:Ez'; [|reflexivity].
    apply config_props.py_eq_str in Ez, Ez'. subst k k'. simpl in Ek.
    rewrite String.eqb_refl in Ek. discriminate.
Qed.

Lemma index_device_named device s s' items :
  index_device device s = (Ok tt, s') ->
  named_devices (self s) = Some items ->
  exists items',
    named_devices (self s') = Some items'
    /\ forall z, assoc_get items' (JStr z)
                 = if has_name z device then Some device else assoc_get items (JStr z).
Proof.
  unfold index_device, bind, lift, get_self, set_self, modify, has_name.
  destruct (getitem device "deviceID") as [device_id|]; [|discriminate].
  simpl. destruct (index_set (devices (self s)) device_id device); [|discriminate].
  simpl. destruct (getitem device "name") as [device_name|]; [|discriminate].
  simpl. intros H Hitems. rewrite Hitems in H. unfold index_set in H.
  destruct (hashable device_name); [|discriminate].
  inversion H; subst. simpl. eexists. split; [reflexivity|].
  intros z. apply assoc_set_str.
Qed.

Lemma find_last {A} (f : A -> bool) xs x :
  find f (rev (x :: xs))
  = match find f (rev xs) with
    | Some y => Some y
    | None => if f x then Some x else None
    end.
Proof.
  simpl. induction (rev xs) as [|y ys IH]; simpl; [reflexivity|].
  destruct (f y); [reflexivity | exact IH].
Qed.

Lemma index_devices_named device_list :
  forall s s' items,
    for_each device_list index_device s = (Ok tt, s') ->
    named_devices (self s) = Some items ->
    exists items',
      named_devices (self s') = Some items'
      /\ forall z, assoc_get items' (JStr z)
                   = match last_of_name device_list z with
                     | Some device => Some device
                     | None => assoc_get items (JStr z)
                     end.
Proof.
  induction device_list as [|d ds IH]; intros s s' items H Hitems; simpl in H.
  - inversion H; subst. exists items. auto.
  - bind_step H u s1 E1. destruct u.
    destruct (index_device_named _ _ E1 Hitems) as [items1 [H1 Hget1]].
    destruct (IH _ _ _ H H1) as [items' [H' Hget']].
    exists items'. split; [exact H'|]. intros z.
    rewrite Hget', Hget1. unfold last_of_name. rewrite (find_last (has_name z) ds d).
    destruct (find (has_name z) (rev ds)); [reflexivity|].
    destruct (has_name z d); reflexivity.
Qed.

(** After a fetch that went through, a zone given by its name is the
    device of the installation that has this name, the last one when
    several have it, and a name that no device has raises the KeyError
    of the name; [get_modes] reads the allowed modes of that device and
    sends nothing. *)
Theorem zone_by_name_is_last_device :
  forall (st st' : State) (force : bool) (device_list : list json),
    is_None (full_data (self st)) || force = true ->
    _populate_full_data py_str force st = (Ok tt, st') ->
    getitem (full_data (self st')) "devices" = Ok (JArr device_list) ->
    forall name,
      _get_device py_str (JStr name) st'
      = (match last_of_name device_list name with
         | Some device => Ok device
         | None => Raise (KeyError (py_str (JStr name)))
         end, st')
      /\ evohomeclient_read.get_modes py_str (JStr name) st'
         = (match last_of_name device_list name with
            | Some device =>
                bindE (getitem device "thermostat")
                  (fun thermostat => getitem thermostat "allowedModes")
            | None => Raise (KeyError (py_str (JStr name)))
            end, st').
Proof.
  intros st st' force device_list Hrun H Hdevices name.
  destruct (fetch_leaves_data _ _ Hrun H) as [Hsome _].
  destruct (fetch_inv _ _ Hrun H)
    as [full [location [ds [s5 [_ [Hds [Hf [_ [Hnamed Hloop]]]]]]]]].
  destruct (index_devices_keep _ _ Hloop) as [Hf' _].
  rewrite Hf in Hf'. rewrite Hf' in Hdevices. rewrite Hdevices in Hds.
  simpl in Hds. inversion Hds; subst ds. clear Hds.
  destruct (index_devices_named _ _ Hloop Hnamed) as [items [Hitems Hget]].
  assert (Hdevice : _get_device py_str (JStr name) st'
                    = (match last_of_name device_list name with
                       | Some device => Ok device
                       | None => Raise (KeyError (py_str (JStr name)))
                       end, st')).
  { unfold _get_device, bind, get_self, lift, index_get. rewrite Hitems.
    simpl hashable. cbv iota. rewrite Hget.
    destruct (last_of_name device_list name); reflexivity. }
  split; [exact Hdevice|].
  unfold evohomeclient_read.get_modes.
  rewrite (bind_ok _ _ _ (populated_noop py_str st' Hsome)).
  unfold bind at 1. rewrite Hdevice.
  destruct (last_of_name device_list name) as [device|]; [|reflexivity].
  unfold bind, lift. destruct (getitem device "thermostat"); reflexivity.
Qed.

Lemma adds_nothing {A} P (m : M State A) s : emits (fun _ => False) m -> adds P m s.
Proof.
  intros H. destruct (H s) as [events [Ht Hall]]. exists events. split; [exact Ht|].
  eapply Forall_impl; [|exact Hall]. intros e [].
Qed.

Lemma adds_bind {A B} P (m : M State A) (k : A -> M State B) s :
  adds P m s ->
  (forall a s1, m s = (Ok a, s1) -> adds P (k a) s1) ->
  adds P (bind m k) s.
Proof.
  intros [e1 [H1 F1]] Hk. unfold adds, bind.
  destruct (m s) as [[a|e] s1] eqn:E; simpl in H1.
  - destruct (Hk a s1 eq_refl) as [e2 [H2 F2]].
    exists (e1 ++ e2). rewrite H2, H1, app_assoc. split; [reflexivity|].
    apply Forall_app. auto.
  - exists e1. simpl. auto.
Qed.

Lemma adds_bind_quiet {A B} P (m : M State A) (k : A -> M State B) s :
  (forall r s1, m s = (r, s1) -> s1 = s) ->
  (forall a, m s = (Ok a, s) -> adds P (k a) s) ->
  adds P (bind m k) s.
Proof.
  intros Hm Hk. unfold adds, bind.
  destruct (m s) as [[a|e] s1] eqn:E; pose proof (Hm _ _ eq_refl); subst s1.
  - apply Hk. reflexivity.
  - exists []. simpl. rewrite app_nil_r. auto.
Qed.

Lemma login_run st :
  is_None (user_data (self st)) = true ->
  adds (carries (credentials (self st))) _populate_user_info st
  /\ (forall v s1, _populate_user_info st = (Ok v, s1) ->
        postdata (self s1) = credentials (self st)).
Proof.
  intros Hnone.
  unfold adds, _populate_user_info, _convert, request, io, send, bind, get_self,
         set_self, modify, ret, lift, raise.
  cbn [self world with_postdata with_headers with_user_data username password hostname
       postdata headers user_data fst snd trace server].
  rewrite Hnone.
  cbn [self world with_postdata with_headers with_user_data username password hostname
       postdata headers user_data fst snd trace server].
  destruct (server (world st) _) as [r|e].
  - destruct (status_code r =? 429)%Z; destruct (raise_for_status r);
      destruct (negb (status_code r =? 200)%Z); destruct (contains "code" (text r));
      destruct (content r);
      cbn [self world with_postdata with_headers with_user_data username password hostname
           postdata headers user_data fst snd trace server];
      (split;
       [ eexists [_]; split; [reflexivity | repeat constructor]
       | intros v s1 H; inversion H; reflexivity ]).
  - split.
    + eexists [_]. split; [reflexivity | repeat constructor].
    + intros v s1 H. inversion H.
Qed.

(** Whatever the fetch of a client without user data sends carries the
    body of the login request. *)
Lemma fetch_carries_credentials :
  forall (st : State) (force : bool),
    is_None (user_data (self st)) = true ->
    adds (carries (credentials (self st))) (_populate_full_data py_str force) st.
Proof.
  intros st force Hnone. unfold _populate_full_data.
  apply adds_bind_quiet; [intros r s1 H; inversion H; reflexivity | intros c Hc].
  inversion Hc; subst c. clear Hc.
  destruct (is_None (full_data (self st)) || force);
    [|exists []; simpl; rewrite app_nil_r; auto].
  destruct (login_run st Hnone) as [Hlogin Hpost].
  apply adds_bind; [exact Hlogin | intros u s1 E1].
  pose proof (Hpost _ _ E1) as Hcred.
  apply adds_bind_quiet; [intros r s H; inversion H; reflexivity | intros c Hc].
  inversion Hc; subst c. clear Hc.
  apply adds_bind_quiet; [intros r s H; inversion H; reflexivity | intros user_info _].
  apply adds_bind_quiet; [intros r s H; inversion H; reflexivity | intros user_id _].
  apply adds_bind_quiet; [intros r s H; inversion H; reflexivity | intros session_id _].
  apply adds_bind_quiet; [intros r s H; inversion H; reflexivity | intros headers' _].
  apply adds_bind; [exists []; simpl; rewrite app_nil_r; auto | intros x s2 E2].
  unfold set_self, modify in E2. inversion E2; subst s2. clear E2.
  apply adds_bind_quiet; [intros r s H; inversion H; reflexivity | intros c Hc].
  inversion Hc; subst c. clear Hc.
  apply adds_bind.
  - eexists [_]. unfold request, io, send. simpl. split; [reflexivity|].
    constructor; [|constructor]. simpl. rewrite Hcred. reflexivity.
  - intros response s3 _. apply adds_nothing. unfold _convert.
    repeat first [ apply emits_index_device | emits_step ].
Qed.

(** The state that an accepted login leaves. *)
Lemma login_accepted st r v :
  is_None (user_data (self st)) = true ->
  server (world st)
    (requests_of (trace (world st) ++ [Sent (login_request (self st))])) = Ok r ->
  login_refused r = false ->
  content r = Ok v ->
  _populate_user_info st
  = (Ok v,
     {| self := with_user_data v
                  (with_headers (JObj [("content-type", JStr "application/json")])
                     (with_postdata (credentials (self st)) (self st)));
        world := {| trace := trace (world st) ++ [Sent (login_request (self st))];
                    server := server (world st) |} |}).
Proof.
  intros Hnone Hserver Haccepted Hv.
  unfold login_request, credentials in Hserver.
  unfold login_refused in Haccepted. apply orb_false_iff in Haccepted.
  destruct Haccepted as [Hstatus Hcode].
  unfold _populate_user_info, _convert, request, io, send, bind, get_self,
         set_self, modify, ret, lift, raise, raise_for_status.
  cbn [self world with_postdata with_headers with_user_data username password hostname
       postdata headers user_data fst snd trace server].
  rewrite Hnone.
  cbn [self world with_postdata with_headers with_user_data username password hostname
       postdata headers user_data fst snd trace server].
  rewrite Hserver.
  cbn [self world with_postdata with_headers with_user_data username password hostname
       postdata headers user_data fst snd trace server].
  destruct (status_code r =? 429)%Z eqn:E429.
  - apply Z.eqb_eq in E429. rewrite E429 in Hstatus. discriminate.
  - rewrite Hstatus.
    destruct (status_code r =? 200)%Z eqn:E200; simpl negb in *; cbv iota.
    + rewrite Hv. reflexivity.
    + rewrite andb_true_l in Hcode. rewrite Hcode, Hv. reflexivity.
Qed.

(** A request followed by something that sends nothing. *)
Lemma request_only {A} method url data headers (k : Response -> M State A) st :
  (forall r, emits (fun _ => False) (k r)) ->
  trace (world (snd (bind (request method url data headers) k st)))
  = trace (world st)
    ++ [Sent {| method := method; url := url; payload := data;
                request_headers := headers |}].
Proof.
  intros Hk. unfold bind, request, io, send. simpl.
  destruct (server (world st) _) as [r|e]; simpl; [|reflexivity].
  match goal with
  | |- context [k r ?s] => destruct (Hk r s) as [events [Ht Hall]]
  end.
  rewrite Ht. simpl. destruct Hall as [|e events []].
  rewrite app_nil_r. reflexivity.
Qed.

(** A client that logs in sends its credentials twice.  When the client
    has no user data, the fetch runs and the login is accepted with user
    data that hold a user identifier and a session, the fetch sends two
    requests: the login, and the GET of the locations of the user, and
    both carry the same body, user name and password included. *)
Theorem fetch_repeats_credentials :
  forall (st : State) (force : bool) (r : Response) (v info uid sid : json),
    is_None (user_data (self st)) = true ->
    is_None (full_data (self st)) || force = true ->
    server (world st)
      (requests_of (trace (world st) ++ [Sent (login_request (self st))])) = Ok r ->
    login_refused r = false ->
    content r = Ok v ->
    getitem v "userInfo" = Ok info ->
    getitem info "userID" = Ok uid ->
    getitem v "sessionId" = Ok sid ->
    exists rq,
      trace (world (snd (_populate_full_data py_str force st)))
      = trace (world st) ++ [Sent (login_request (self st)); Sent rq]
      /\ method rq = "GET"
      /\ url rq = (hostname (self st) ++ "/WebAPI/api/locations" ++ "?userId="
                   ++ py_str uid ++ "&allData=True")%string
      /\ payload rq = Some (credentials (self st))
      /\ payload (login_request (self st)) = Some (credentials (self st)).
Proof.
  intros st force r v info uid sid Hnone Hrun Hserver Haccepted Hv Hinfo Huid Hsid.
  pose proof (login_accepted st Hnone Hserver Haccepted Hv) as Hlogin.
  unfold _populate_full_data.
  rewrite (bind_ok _ _ _ (eq_refl : get_self st = (Ok (self st), st))).
  rewrite Hrun. rewrite (bind_ok _ _ _ Hlogin).
  unfold bind at 1, get_self at 1.
  cbn [self world with_postdata with_headers with_user_data username password hostname
       postdata headers user_data fst snd trace server].
  unfold bind at 1, lift at 1. rewrite Hinfo.
  unfold bind at 1, lift at 1. rewrite Huid.
  unfold bind at 1, lift at 1. rewrite Hsid.
  unfold bind at 1, lift at 1. cbn [setitem].
  unfold bind at 1, set_self at 1, modify at 1.
  cbn [self world with_postdata with_headers with_user_data username password hostname
       postdata headers user_data fst snd trace server].
  unfold bind at 1, get_self at 1.
  cbn [self world with_postdata with_headers with_user_data username password hostname
       postdata headers user_data fst snd trace server].
  rewrite request_only.
  - cbn [self world trace]. rewrite <- app_assoc. simpl.
    eexists. split; [reflexivity|]. repeat split.
  - intros response. unfold _convert.
    repeat first [ apply emits_index_device | emits_step ].
Qed.

Section Readers.

Variable py_float : json -> Exc json.

Local Abbreviation temperature_entry := (evohomeclient_read.temperature_entry py_float).
Local Abbreviation yield_entries := (evohomeclient_read.yield_entries py_float).

Lemma yield_entries_spec device_list :
  exists n,
    (n <= List.length device_list)%nat
    /\ Forall2 (fun device entry => temperature_entry device = Ok entry)
         (firstn n device_list) (fst (yield_entries device_list))
    /\ match snd (yield_entries device_list) with
       | None => n = List.length device_list
       | Some e => exists device,
           nth_error device_list n = Some device /\ temperature_entry device = Raise e
       end.
Proof.
  induction device_list as [|d ds IH]; simpl.
  - exists 0%nat. simpl. auto.
  - destruct (evohomeclient_read.temperature_entry py_float d) as [entry|e] eqn:E.
    + destruct IH as [n [Hle [Hall Hstop]]].
      destruct (evohomeclient_read.yield_entries py_float ds) as [entries stop].
      exists (S n). simpl in *. split; [lia|]. split; [constructor; assumption|].
      destruct stop; [exact Hstop | rewrite Hstop; reflexivity].
    + exists 0%nat. simpl. split; [lia|]. split; [constructor|].
      exists d. auto.
Qed.

Lemma temperature_entry_content device entry :
  temperature_entry device = Ok entry ->
  getitem entry "id" = getitem device "deviceID"
  /\ (forall thermostat values,
        getitem device "thermostat" = Ok thermostat ->
        getitem thermostat "changeableValues" = Ok values ->
        evohomeclient_read.py_in_str "heatSetpoint" values = Ok false ->
        getitem entry "setpoint" = Ok (JInt 0)).
Proof.
  unfold evohomeclient_read.temperature_entry, evohomeclient_read.set_point_of.
  intros H.
  destruct (getitem device "thermostat") as [t|] eqn:Ht0; [|discriminate]. simpl in H.
  destruct (getitem t "changeableValues") as [values|] eqn:Hv0; [|discriminate].
  simpl in H.
  destruct (evohomeclient_read.py_in_str "heatSetpoint" values) as [present|] eqn:Hpresent;
    [|discriminate].
  simpl in H.
  assert (Hrest : forall set_point,
            bindE (getitem device "thermostatModelType") (fun model =>
              bindE (getitem device "deviceID") (fun device_id =>
                bindE (getitem device "name") (fun name =>
                  bindE (getitem t "indoorTemperature") (fun indoor =>
                    bindE (py_float indoor) (fun temp =>
                      Ok (JObj [("thermostat", model); ("id", device_id); ("name", name);
                                ("temp", temp); ("setpoint", set_point)]))))))
            = Ok entry ->
            getitem entry "id" = getitem device "deviceID"
            /\ getitem entry "setpoint" = Ok set_point).
  { intros set_point Hr.
    destruct (getitem device "thermostatModelType"); [|discriminate]. simpl in Hr.
    destruct (getitem device "deviceID"); [|discriminate]. simpl in Hr.
    destruct (getitem device "name"); [|discriminate]. simpl in Hr.
    destruct (getitem t "indoorTemperature"); [|discriminate]. simpl in Hr.
    destruct (py_float _); [|discriminate]. simpl in Hr.
    inversion Hr; subst. split; reflexivity. }
  destruct present.
  - destruct (getitem values "heatSetpoint") as [hs|]; [|discriminate]. simpl in H.
    destruct (getitem hs "value") as [v|]; [|discriminate]. simpl in H.
    destruct (py_float v) as [sp|]; [|discriminate]. simpl in H.
    destruct (Hrest _ H) as [Hid _]. split; [exact Hid|].
    intros t' values' Ht Hv Hin. injection Ht as <-.
    rewrite Hv0 in Hv. injection Hv as <-. rewrite Hpresent in Hin. discriminate.
  - destruct (Hrest _ H) as [Hid Hsp]. split; [exact Hid|].
    intros _ _ _ _ _. exact Hsp.
Qed.

(** The temperatures of a client that has its installation: nothing is
    sent, the devices are read in their order, and the entries that
    come are those of the devices before the first one that cannot be
    read, whose exception ends the reading.  An entry has the
    identifier of its device, and the integer 0 as setpoint when the
    device has no heat setpoint among its changeable values. *)
Theorem temperatures_stop_at_first_failure :
  forall (st : State) (device_list : list json),
    is_None (full_data (self st)) = false ->
    getitem (full_data (self st)) "devices" = Ok (JArr device_list) ->
    exists entries stop n,
      evohomeclient_read.temperatures py_str py_float false st = ((entries, stop), st)
      /\ (n <= List.length device_list)%nat
      /\ Forall2 (fun device entry =>
                    temperature_entry device = Ok entry
                    /\ getitem entry "id" = getitem device "deviceID"
                    /\ (forall thermostat values,
                          getitem device "thermostat" = Ok thermostat ->
                          getitem thermostat "changeableValues" = Ok values ->
                          evohomeclient_read.py_in_str "heatSetpoint" values = Ok false ->
                          getitem entry "setpoint" = Ok (JInt 0)))
           (firstn n device_list) entries
      /\ match stop with
         | None => n = List.length device_list
         | Some e => exists device,
             nth_error device_list n = Some device /\ temperature_entry device = Raise e
         end.
Proof.
  intros st device_list Hfull Hdevices.
  destruct (yield_entries_spec device_list) as [n [Hle [Hall Hstop]]].
  exists (fst (yield_entries device_list)), (snd (yield_entries device_list)), n.
  split; [|split; [exact Hle | split; [|exact Hstop]]].
  - unfold evohomeclient_read.temperatures.
    rewrite (populated_noop py_str st Hfull), Hdevices. simpl.
    destruct (evohomeclient_read.yield_entries py_float device_list). reflexivity.
  - eapply Forall2_impl; [|exact Hall]. intros device entry H.
    split; [exact H | exact (temperature_entry_content _ H)].
Qed.

End Readers.

Lemma gateway_request g :
  is_None (full_data (self (client g))) = false ->
  is_None (gateway_data g) = true ->
  exists rq,
    trace (world (client (snd (_populate_gateway_info py_str g))))
    = trace (world (client g)) ++ [Sent rq]
    /\ method rq = "GET"
    /\ payload rq = None
    /\ url rq = (hostname (self (client g)) ++ "/WebAPI/api/gateways" ++ "?locationId="
                 ++ py_str (location_id (self (client g))) ++ "&allData=False")%string
    /\ (forall g', _populate_gateway_info py_str g = (Ok tt, g') ->
          exists response gateways,
            server (world (client g)) (requests_of (trace (world (client g)) ++ [Sent rq]))
            = Ok response
            /\ content response = Ok gateways
            /\ index0 gateways = Ok (gateway_data g')).
Proof.
  intros Hfull Hnone.
  unfold _populate_gateway_info, _convert, request, io, send, on_client, bind, get,
         set_gateway_data, modify, lift, ret.
  rewrite (populated_noop py_str (client g) Hfull).
  cbn [client gateway_data self world fst snd trace server]. rewrite Hnone.
  cbn [client gateway_data self world fst snd trace server].
  eexists. split; [|split; [|split; [|split]]].
  - destruct (server (world (client g)) _) as [r|e]; [|reflexivity].
    cbn [client gateway_data self world fst snd trace server].
    destruct (raise_for_status r); [|reflexivity].
    destruct (content r) as [gateways|]; [|reflexivity].
    destruct (index0 gateways); reflexivity.
  - reflexivity.
  - reflexivity.
  - reflexivity.
  - intros g'. simpl.
    destruct (server (world (client g)) _) as [r|e]; [|discriminate].
    cbn [client gateway_data self world fst snd trace server].
    destruct (raise_for_status r); [|discriminate].
    destruct (content r) as [gateways|] eqn:Hc; [|discriminate].
    destruct (index0 gateways) as [first|] eqn:Hi; [|discriminate].
    intros H. inversion H; subst. exists r, gateways. simpl. auto.
Qed.

Lemma gateway_keeps_client g r g' :
  is_None (full_data (self (client g))) = false ->
  _populate_gateway_info py_str g = (r, g') ->
  self (client g') = self (client g).
Proof.
  intros Hfull.
  unfold _populate_gateway_info, _convert, request, io, send, on_client, bind, get,
         set_gateway_data, modify, lift, ret.
  rewrite (populated_noop py_str (client g) Hfull).
  cbn [client gateway_data self world fst snd trace server].
  destruct (is_None (gateway_data g)); [|intros H; inversion H; reflexivity].
  simpl.
  destruct (server (world (client g)) _) as [resp|e]; [|intros H; inversion H; reflexivity].
  simpl.
  destruct (raise_for_status resp); [|intros H; inversion H; reflexivity].
  destruct (content resp) as [gw|]; [|intros H; inversion H; reflexivity].
  destruct (index0 gw) as [first|]; intros H; inversion H; reflexivity.
Qed.

(** The gateway of a client that has its installation is asked for with
    one GET without a body, to the gateways of the location, and what is
    kept is the first gateway of the answer.  Once a gateway is kept a
    further call sends nothing; a first gateway that is null is taken
    for no gateway, and the next call asks again. *)
Theorem gateway_is_fetched_once :
  forall (g g' : GatewayState),
    is_None (full_data (self (client g))) = false ->
    is_None (gateway_data g) = true ->
    _populate_gateway_info py_str g = (Ok tt, g') ->
    (exists rq response gateways,
        trace (world (client g')) = trace (world (client g)) ++ [Sent rq]
        /\ method rq = "GET"
        /\ payload rq = None
        /\ url rq = (hostname (self (client g)) ++ "/WebAPI/api/gateways" ++ "?locationId="
                     ++ py_str (location_id (self (client g))) ++ "&allData=False")%string
        /\ server (world (client g)) (requests_of (trace (world (client g)) ++ [Sent rq]))
           = Ok response
        /\ content response = Ok gateways
        /\ index0 gateways = Ok (gateway_data g'))
    /\ (is_None (gateway_data g') = false ->
        _populate_gateway_info py_str g' = (Ok tt, g'))
    /\ (is_None (gateway_data g') = true ->
        exists rq,
          trace (world (client (snd (_populate_gateway_info py_str g'))))
          = trace (world (client g')) ++ [Sent rq]).
Proof.
  intros g g' Hfull Hnone H.
  destruct (gateway_request g Hfull Hnone) as [rq [Ht [Hm [Hp [Hu Hkept]]]]].
  destruct (Hkept g' H) as [response [gateways [Hs [Hc Hi]]]].
  rewrite H in Ht. simpl in Ht.
  assert (Hfull' : is_None (full_data (self (client g'))) = false)
    by (rewrite (gateway_keeps_client g Hfull H); exact Hfull).
  split; [|split].
  - exists rq, response, gateways. auto 10.
  - intros Hkeep.
    unfold _populate_gateway_info, on_client, bind, get, ret.
    rewrite (populated_noop py_str (client g') Hfull').
    cbn [client gateway_data fst snd]. rewrite Hkeep. destruct g'; reflexivity.
  - intros Hnull.
    destruct (gateway_request g' Hfull' Hnull) as [rq' [Ht' _]].
    exists rq'. exact Ht'.
Qed.

End ClientMore.

Lemma fetch_is_cached_witness :
  _populate_full_data demo_str false fresh_state = (Ok tt, fetched_state)
  /\ _populate_full_data demo_str false fetched_state = (Ok tt, fetched_state).
Proof.
  assert (H : _populate_full_data demo_str false fresh_state = (Ok tt, fetched_state))
    by (vm_compute; reflexivity).
  split; [exact H|].
  exact (proj2 (proj2 (@fetch_is_cached demo_str fresh_state fetched_state false
                         eq_refl H))).
Defined.

Lemma zone_by_name_is_last_device_witness :
  _get_device demo_str (JStr "Lounge") fetched_state = (Ok radiator, fetched_state)
  /\ fst (_get_device demo_str (JStr "Attic") fetched_state) = Raise (KeyError "Attic").
Proof.
  assert (H : _populate_full_data demo_str false fresh_state = (Ok tt, fetched_state))
    by (vm_compute; reflexivity).
  split.
  - exact (proj1 (@zone_by_name_is_last_device demo_str fresh_state fetched_state false
                    [radiator; cylinder 7] eq_refl H eq_refl "Lounge")).
  - exact (f_equal fst
             (proj1 (@zone_by_name_is_last_device demo_str fresh_state fetched_state false
                       [radiator; cylinder 7] eq_refl H eq_refl "Attic"))).
Defined.

Lemma temperatures_stop_at_first_failure_witness :
  exists entries stop n,
    evohomeclient_read.temperatures demo_str demo_float false
      {| self := client_with [heated 2; radiator; heated 3]; world := world demo_state |}
    = ((entries, stop),
       {| self := client_with [heated 2; radiator; heated 3]; world := world demo_state |})
    /\ (n <= 3)%nat.
Proof.
  destruct (@temperatures_stop_at_first_failure demo_str demo_float
              {| self := client_with [heated 2; radiator; heated 3];
                 world := world demo_state |}
              [heated 2; radiator; heated 3] eq_refl eq_refl)
    as [entries [stop [n [Hrun [Hle _]]]]].
  exists entries, stop, n. split; [exact Hrun | exact Hle].
Defined.

Lemma gateway_is_fetched_once_witness :
  _populate_gateway_info demo_str gateway_demo = (Ok tt, gateway_fetched)
  /\ _populate_gateway_info demo_str gateway_fetched = (Ok tt, gateway_fetched).
Proof.
  assert (H : _populate_gateway_info demo_str gateway_demo = (Ok tt, gateway_fetched))
    by (vm_compute; reflexivity).
  split; [exact H|].
  exact (proj1 (proj2 (@gateway_is_fetched_once demo_str gateway_demo gateway_fetched
                         eq_refl eq_refl H)) eq_refl).
Defined.

Lemma fetch_repeats_credentials_witness :
  exists rq,
    trace (world (snd (_populate_full_data demo_str false fresh_state)))
    = [Sent (login_request (self fresh_state)); Sent rq]
    /\ method rq = "GET"
    /\ payload rq = Some (credentials (self fresh_state)).
Proof.
  destruct (@fetch_repeats_credentials demo_str fresh_state false
              {| status_code := 200; text := "session";
                 content := Ok (JObj [("sessionId", JStr "session");
                                      ("userInfo", JObj [("userID", JInt 1)])]) |}
              (JObj [("sessionId", JStr "session");
                     ("userInfo", JObj [("userID", JInt 1)])])
              (JObj [("userID", JInt 1)]) (JInt 1) (JStr "session")
              eq_refl eq_refl eq_refl eq_refl eq_refl eq_refl eq_refl eq_refl)
    as [rq [Ht [Hm [_ [Hp _]]]]].
  exists rq. split; [exact Ht | split; [exact Hm | exact Hp]].
Defined.

Lemma dhw_write_target_witness :
  (exists rq,
      trace (world (snd (_set_dhw_put demo_str "Hold" (JStr "DHWOn") JNull
                           {| self := client_with [radiator];
                              world := world demo_state |})))
      = [Sent rq]
      /\ url rq = "https://tcc/WebAPI/api/devices/?/thermostat/changeableValues")
  /\ (exists rq,
        trace (world (snd (_set_dhw_put demo_str "Hold" (JStr "DHWOn") JNull
                             {| self := client_with [radiator; cylinder 7; cylinder 12];
                                world := world demo_state |})))
        = [Sent rq]
        /\ url rq = "https://tcc/WebAPI/api/devices/7/thermostat/changeableValues").
Proof.
  split.
  - destruct (proj1 (@dhw_write_target demo_str
                       {| self := client_with [radiator]; world := world demo_state |}
                       "Hold" (JStr "DHWOn") JNull [radiator] eq_refl eq_refl) eq_refl)
      as [rq [Ht [_ Hu]]].
    exists rq. split; [exact Ht | exact Hu].
  - destruct (proj2 (@dhw_write_target demo_str
                       {| self := client_with [radiator; cylinder 7; cylinder 12];
                          world := world demo_state |}
                       "Hold" (JStr "DHWOn") JNull [radiator; cylinder 7; cylinder 12]
                       eq_refl eq_refl)
                [radiator] (cylinder 7) [cylinder 12] (JStr "DOMESTIC_HOT_WATER") (JInt 7)
                eq_refl eq_refl eq_refl eq_refl eq_refl)
      as [rq [Ht [_ Hu]]].
    exists rq. split; [exact Ht | exact Hu].
Defined.

Lemma login_outcome_witness :
  exists st',
    _populate_user_info
      {| self := EvohomeClient_init "user" "secret" JNull "https://tcc";
         world := {| trace := []; server := refusing_server 401 |} |}
    = (Raise (HTTPError 401), st')
    /\ user_data (self st') = JNull.
Proof.
  destruct (proj1 (@login_outcome
                     {| self := EvohomeClient_init "user" "secret" JNull "https://tcc";
                        world := {| trace := []; server := refusing_server 401 |} |}
                     {| status_code := 401; text := "code: denied";
                        content := Ok (JObj []) |} eq_refl eq_refl) eq_refl)
    as [st' [Hrun [Hdata _]]].
  exists st'. split; [exact Hrun | exact Hdata].
Defined.

Lemma supplied_user_data_never_works_witness :
  fst (_populate_full_data demo_str false
         {| self := EvohomeClient_init "user" "secret" (user_data demo_client) "https://tcc";
            world := world demo_state |})
  = Raise (TypeError "object does not support item assignment").
Proof.
  exact (proj2 (proj2 (@supplied_user_data_never_works demo_str "user" "secret"
                         "https://tcc" (user_data demo_client) (world demo_state) eq_refl))
           _ _ _ eq_refl eq_refl eq_refl).
Defined.

End client_more_props.
